(** * API Gateway v2 stage resource: shallow embedding of
      internal/service/apigatewayv2/stage.go

    The file follows the Go source function by function.  Go values of
    type [interface{}] are a small tagged union, [map[string]interface{}]
    is a [gmap string value], pointers that may be nil are [option]s, and a
    Go panic (a failed single-value type assertion) is the [None] of an
    [option] result.  Remote calls go through a [Client] whose answers may
    depend on the calls made so far; every call is appended to a log. *)

From Stdlib Require Import Ascii String.
From stdpp Require Import gmap strings list fin_maps.

Open Scope string_scope.
Open Scope list_scope.
Open Scope Z_scope.

(** ** Go base types *)

(** float64 values are stored and copied by this package and never computed
    with; a value is represented by its IEEE 754 binary64 bit pattern. *)
Definition float64 := Z.

(** [int32(v)] for a Go [int] v: the low 32 bits, read as two's complement. *)
Definition int32_of_int (v : Z) : Z := (v + 2 ^ 31) `mod` 2 ^ 32 - 2 ^ 31.

(** Dynamic values stored in a [map[string]interface{}] by this package. *)
Inductive value :=
| VBool (b : bool)
| VInt (n : Z)
| VFloat64 (f : float64)
| VString (s : string)
| VLoggingLevel (l : string).

#[global] Instance value_eq_dec : EqDecision value.
Proof. solve_decision. Defined.

(** Two-value type assertions [x, ok := m[k].(T)] on a map element; a
    missing key is the nil interface, on which every assertion fails. *)
Definition assert_bool (v : option value) : option bool :=
  match v with Some (VBool b) => Some b | _ => None end.
Definition assert_int (v : option value) : option Z :=
  match v with Some (VInt n) => Some n | _ => None end.
Definition assert_float64 (v : option value) : option float64 :=
  match v with Some (VFloat64 f) => Some f | _ => None end.
Definition assert_string (v : option value) : option string :=
  match v with Some (VString s) => Some s | _ => None end.

(** An element of a [[]interface{}]: nil or a [map[string]interface{}]. *)
Abbreviation mSettings := (gmap string value).
Abbreviation ifaceList := (list (option (gmap string value))).

(** ** The aws and awstypes packages (aws-sdk-go-v2), as far as used *)

Module aws.
Definition ToBool (p : option bool) : bool := default false p.
Definition ToString (p : option string) : string := default "" p.
Definition ToInt32 (p : option Z) : Z := default 0 p.
Definition ToFloat64 (p : option float64) : float64 := default 0 p.
End aws.

Module awstypes.
Definition ProtocolTypeWebsocket : string := "WEBSOCKET".
Definition ProtocolTypeHttp : string := "HTTP".

Definition LoggingLevelError : string := "ERROR".
Definition LoggingLevelInfo : string := "INFO".
Definition LoggingLevelOff : string := "OFF".

Record AccessLogSettings := {
  DestinationArn : option string;
  Format : option string
}.

Record RouteSettings := {
  DataTraceEnabled : option bool;
  DetailedMetricsEnabled : option bool;
  LoggingLevel : string;
  ThrottlingBurstLimit : option Z;
  ThrottlingRateLimit : option float64
}.
End awstypes.
Import awstypes.

#[global] Instance AccessLogSettings_eq_dec : EqDecision AccessLogSettings.
Proof. solve_decision. Defined.
#[global] Instance RouteSettings_eq_dec : EqDecision RouteSettings.
Proof. solve_decision. Defined.

Definition defaultStageName : string := "$default".

(** ** Shape converters *)

Definition expandAccessLogSettings (vSettings : ifaceList) : AccessLogSettings :=
  let settings := {| DestinationArn := None; Format := None |} in
  match vSettings with
  | [] | None :: _ => settings
  | Some mSettings :: _ =>
    let settings :=
      match assert_string (mSettings !! "destination_arn") with
      | Some vDestinationArn =>
        if bool_decide (vDestinationArn ≠ "")
        then {| DestinationArn := Some vDestinationArn; Format := Format settings |}
        else settings
      | None => settings
      end in
    let settings :=
      match assert_string (mSettings !! "format") with
      | Some vFormat =>
        if bool_decide (vFormat ≠ "")
        then {| DestinationArn := DestinationArn settings; Format := Some vFormat |}
        else settings
      | None => settings
      end in
    settings
  end.

Definition flattenAccessLogSettings (settings : option AccessLogSettings) : ifaceList :=
  match settings with
  | None => []
  | Some settings =>
    [Some (<["destination_arn" := VString (aws.ToString (DestinationArn settings))]>
          (<["format" := VString (aws.ToString (Format settings))]> ∅))]
  end.

(** Field assignments on an [awstypes.RouteSettings] value. *)
Definition set_DataTraceEnabled (v : option bool) (rs : RouteSettings) : RouteSettings :=
  {| DataTraceEnabled := v; DetailedMetricsEnabled := DetailedMetricsEnabled rs;
     LoggingLevel := LoggingLevel rs; ThrottlingBurstLimit := ThrottlingBurstLimit rs;
     ThrottlingRateLimit := ThrottlingRateLimit rs |}.
Definition set_DetailedMetricsEnabled (v : option bool) (rs : RouteSettings) : RouteSettings :=
  {| DataTraceEnabled := DataTraceEnabled rs; DetailedMetricsEnabled := v;
     LoggingLevel := LoggingLevel rs; ThrottlingBurstLimit := ThrottlingBurstLimit rs;
     ThrottlingRateLimit := ThrottlingRateLimit rs |}.
Definition set_LoggingLevel (v : string) (rs : RouteSettings) : RouteSettings :=
  {| DataTraceEnabled := DataTraceEnabled rs;
     DetailedMetricsEnabled := DetailedMetricsEnabled rs;
     LoggingLevel := v; ThrottlingBurstLimit := ThrottlingBurstLimit rs;
     ThrottlingRateLimit := ThrottlingRateLimit rs |}.
Definition set_ThrottlingBurstLimit (v : option Z) (rs : RouteSettings) : RouteSettings :=
  {| DataTraceEnabled := DataTraceEnabled rs;
     DetailedMetricsEnabled := DetailedMetricsEnabled rs;
     LoggingLevel := LoggingLevel rs; ThrottlingBurstLimit := v;
     ThrottlingRateLimit := ThrottlingRateLimit rs |}.
Definition set_ThrottlingRateLimit (v : option float64) (rs : RouteSettings) : RouteSettings :=
  {| DataTraceEnabled := DataTraceEnabled rs;
     DetailedMetricsEnabled := DetailedMetricsEnabled rs;
     LoggingLevel := LoggingLevel rs; ThrottlingBurstLimit := ThrottlingBurstLimit rs;
     ThrottlingRateLimit := v |}.

(** [&awstypes.RouteSettings{}] *)
Definition RouteSettings_zero : RouteSettings :=
  {| DataTraceEnabled := None; DetailedMetricsEnabled := None; LoggingLevel := "";
     ThrottlingBurstLimit := None; ThrottlingRateLimit := None |}.

Definition expandDefaultRouteSettings (vSettings : ifaceList) (protocolType : string)
  : RouteSettings :=
  let routeSettings := RouteSettings_zero in
  match vSettings with
  | [] | None :: _ => routeSettings
  | Some mSettings :: _ =>
    let routeSettings :=
      match assert_bool (mSettings !! "data_trace_enabled") with
      | Some vDataTraceEnabled =>
        if bool_decide (protocolType = ProtocolTypeWebsocket)
        then set_DataTraceEnabled (Some vDataTraceEnabled) routeSettings
        else routeSettings
      | None => routeSettings
      end in
    let routeSettings :=
      match assert_bool (mSettings !! "detailed_metrics_enabled") with
      | Some vDetailedMetricsEnabled =>
        set_DetailedMetricsEnabled (Some vDetailedMetricsEnabled) routeSettings
      | None => routeSettings
      end in
    let routeSettings :=
      match assert_string (mSettings !! "logging_level") with
      | Some vLoggingLevel =>
        if bool_decide (vLoggingLevel ≠ "")
           && bool_decide (protocolType = ProtocolTypeWebsocket)
        then set_LoggingLevel vLoggingLevel routeSettings
        else routeSettings
      | None => routeSettings
      end in
    let routeSettings :=
      match assert_int (mSettings !! "throttling_burst_limit") with
      | Some vThrottlingBurstLimit =>
        set_ThrottlingBurstLimit (Some (int32_of_int vThrottlingBurstLimit)) routeSettings
      | None => routeSettings
      end in
    let routeSettings :=
      match assert_float64 (mSettings !! "throttling_rate_limit") with
      | Some vThrottlingRateLimit =>
        set_ThrottlingRateLimit (Some vThrottlingRateLimit) routeSettings
      | None => routeSettings
      end in
    routeSettings
  end.

Definition flattenDefaultRouteSettings (routeSettings : option RouteSettings) : ifaceList :=
  match routeSettings with
  | None => []
  | Some routeSettings =>
    [Some (<["data_trace_enabled" := VBool (aws.ToBool (DataTraceEnabled routeSettings))]>
          (<["detailed_metrics_enabled" :=
               VBool (aws.ToBool (DetailedMetricsEnabled routeSettings))]>
          (<["logging_level" := VString (LoggingLevel routeSettings)]>
          (<["throttling_burst_limit" :=
               VInt (aws.ToInt32 (ThrottlingBurstLimit routeSettings))]>
          (<["throttling_rate_limit" :=
               VFloat64 (aws.ToFloat64 (ThrottlingRateLimit routeSettings))]> ∅)))))]
  end.

(** One iteration of the loop of [expandRouteSettings], up to the final
    assignment into the map: the settings built from one element. *)
Definition expandRouteSettings_body (mSettings : mSettings) (protocolType : string)
  : RouteSettings :=
  let routeSettings := RouteSettings_zero in
  let routeSettings :=
    match assert_bool (mSettings !! "data_trace_enabled") with
    | Some v =>
      if bool_decide (protocolType = ProtocolTypeWebsocket)
      then set_DataTraceEnabled (Some v) routeSettings
      else routeSettings
    | None => routeSettings
    end in
  let routeSettings :=
    match assert_bool (mSettings !! "detailed_metrics_enabled") with
    | Some v => set_DetailedMetricsEnabled (Some v) routeSettings
    | None => routeSettings
    end in
  let routeSettings :=
    match assert_string (mSettings !! "logging_level") with
    | Some v =>
      if bool_decide (v ≠ "") && bool_decide (protocolType = ProtocolTypeWebsocket)
      then set_LoggingLevel v routeSettings
      else routeSettings
    | None => routeSettings
    end in
  let routeSettings :=
    match assert_int (mSettings !! "throttling_burst_limit") with
    | Some v => set_ThrottlingBurstLimit (Some (int32_of_int v)) routeSettings
    | None => routeSettings
    end in
  let routeSettings :=
    match assert_float64 (mSettings !! "throttling_rate_limit") with
    | Some v => set_ThrottlingRateLimit (Some v) routeSettings
    | None => routeSettings
    end in
  routeSettings.

(** The loop of [expandRouteSettings], with the map built so far.  The
    assertions [v.(map[string]interface{})] and
    [mSettings["route_key"].(string)] have no [ok] result: they panic,
    which is the [None] result here. *)
Fixpoint expandRouteSettings_loop (vSettings : ifaceList) (protocolType : string)
    (settings : gmap string RouteSettings) : option (gmap string RouteSettings) :=
  match vSettings with
  | [] => Some settings
  | v :: vSettings =>
    match v with
    | None => None
    | Some mSettings =>
      let routeSettings := expandRouteSettings_body mSettings protocolType in
      match assert_string (mSettings !! "route_key") with
      | None => None
      | Some route_key =>
        expandRouteSettings_loop vSettings protocolType
          (<[route_key := routeSettings]> settings)
      end
    end
  end.

Definition expandRouteSettings (vSettings : ifaceList) (protocolType : string)
  : option (gmap string RouteSettings) :=
  expandRouteSettings_loop vSettings protocolType ∅.

Definition flattenRouteSettings_entry (k : string) (routeSetting : RouteSettings)
  : gmap string value :=
  <["data_trace_enabled" := VBool (aws.ToBool (DataTraceEnabled routeSetting))]>
  (<["detailed_metrics_enabled" :=
       VBool (aws.ToBool (DetailedMetricsEnabled routeSetting))]>
  (<["logging_level" := VLoggingLevel (LoggingLevel routeSetting)]>
  (<["route_key" := VString k]>
  (<["throttling_burst_limit" :=
       VInt (aws.ToInt32 (ThrottlingBurstLimit routeSetting))]>
  (<["throttling_rate_limit" :=
       VFloat64 (aws.ToFloat64 (ThrottlingRateLimit routeSetting))]> ∅))))).

(** Go ranges over a map in an unspecified order; the model takes the order
    of [map_to_list].  The result is stored in a set-typed attribute, so
    only its elements matter. *)
Definition flattenRouteSettings (settings : gmap string RouteSettings) : ifaceList :=
  (λ kv, Some (flattenRouteSettings_entry kv.1 kv.2)) <$> map_to_list settings.


(** ** Errors and diagnostics *)

(** A Go [error]: the not-found exception of the remote service, or any
    other error; both carry the text of [err.Error()]. *)
Inductive error :=
| NotFoundException (msg : string)
| OtherError (msg : string).

Definition Error (e : error) : string :=
  match e with NotFoundException msg | OtherError msg => msg end.

(** The pair [(resp, err)] a remote call returns. *)
Inductive result (A : Type) :=
| Ok (resp : A)
| Err (err : error).
Arguments Ok {A} resp.
Arguments Err {A} err.

Definition err_of {A} (r : result A) : option error :=
  match r with Ok _ => None | Err e => Some e end.

(** Modelled from the spec: [errs.IsA[*awstypes.NotFoundException]] of
    internal/errs, which is not among the sources under study; it holds
    exactly when the remote call reported not-found, and never of a nil
    error. *)
Definition IsA_NotFoundException (err : option error) : bool :=
  match err with Some (NotFoundException _) => true | _ => false end.

(** [diag.Diagnostics]: the summaries of the error diagnostics, in order. *)
Definition Diagnostics := list string.

(** Modelled from the spec: [sdkdiag.AppendErrorf] of internal/errs/sdkdiag,
    which is not among the sources under study; it appends one error
    diagnostic carrying the formatted text. *)
Definition AppendErrorf (diags : Diagnostics) (summary : string) : Diagnostics :=
  diags ++ [summary].

Definition HasError (diags : Diagnostics) : bool :=
  match diags with [] => false | _ => true end.

(** ** The declarative store: schema.ResourceData *)

(** An attribute value, typed by the [Schema] of [ResourceStage]: string,
    bool, list of blocks, set of blocks, map of strings. *)
Inductive attr :=
| AString (s : string)
| ABool (b : bool)
| AList (l : ifaceList)
| ASet (s : list (gmap string value))
| AMap (m : gmap string string).

#[global] Instance attr_eq_dec : EqDecision attr.
Proof. solve_decision. Defined.

(** [schema.Set] keeps its elements under a hash code of their whole content
    (here the default [HashResource] of the element schema, which covers
    every field); the model is a list of pairwise different elements, in the
    order in which [List] returns them, and hash codes are taken to be
    injective on contents. *)
Module SchemaSet.
Abbreviation t := (list (gmap string value)).
Definition List (s : t) : list (gmap string value) := s.
Definition Contains (s : t) (v : gmap string value) : bool := bool_decide (v ∈ s).
(** [s.Difference(other)]: the elements of [s] that are not in [other]. *)
Definition Difference (s other : t) : t :=
  List.filter (λ v, negb (Contains other v)) s.
(** [s.Equal(other)] *)
Definition Equal (s other : t) : bool :=
  forallb (Contains other) s && forallb (Contains s) other.
End SchemaSet.

(** The zero value [d.Get] returns for an attribute that holds nothing, by
    the type the [Schema] of [ResourceStage] declares for the key. *)
Definition schema_zero (key : string) : attr :=
  if bool_decide (key ∈ ["access_log_settings"; "default_route_settings"]) then AList []
  else if bool_decide (key = "auto_deploy") then ABool false
  else if bool_decide (key = "route_settings") then ASet []
  else if bool_decide (key ∈ ["stage_variables"; "tags"; "tags_all"]) then AMap ∅
  else AString "".

(** The three levels of a [ResourceData] that this package reaches: the
    prior state, the state with the planned diff applied, and the values
    written by [d.Set].  [d.GetChange] and [d.HasChange] compare the first
    two; [d.Get] reads through all three. *)
Record ResourceData := {
  Id : string;
  IsNewResource : bool;
  state_level : gmap string attr;
  diff_level : gmap string attr;
  set_level : gmap string attr
}.

Definition SetId (v : string) (d : ResourceData) : ResourceData :=
  {| Id := v; IsNewResource := IsNewResource d; state_level := state_level d;
     diff_level := diff_level d; set_level := set_level d |}.

(** [d.Set(key, v)]; [Set] is a reserved word. *)
Definition d_Set (key : string) (v : attr) (d : ResourceData) : ResourceData :=
  {| Id := Id d; IsNewResource := IsNewResource d; state_level := state_level d;
     diff_level := diff_level d; set_level := <[key := v]> (set_level d) |}.

Definition Get (d : ResourceData) (key : string) : attr :=
  match set_level d !! key with
  | Some v => v
  | None => default (schema_zero key) (diff_level d !! key)
  end.

Definition GetChange (d : ResourceData) (key : string) : attr * attr :=
  (default (schema_zero key) (state_level d !! key),
   default (schema_zero key) (diff_level d !! key)).

Definition HasChange (d : ResourceData) (key : string) : bool :=
  match GetChange d key with
  | (ASet o, ASet n) => negb (SchemaSet.Equal o n)
  | (o, n) => negb (bool_decide (o = n))
  end.

Definition HasChanges (d : ResourceData) (keys : list string) : bool :=
  existsb (HasChange d) keys.

(** The typed reads [d.Get(key).(T)]. *)
Definition as_string (a : attr) : string :=
  match a with AString s => s | _ => "" end.
Definition as_bool (a : attr) : bool :=
  match a with ABool b => b | _ => false end.
Definition as_list (a : attr) : ifaceList :=
  match a with AList l => l | _ => [] end.
Definition as_set (a : attr) : SchemaSet.t :=
  match a with ASet s => s | _ => [] end.
Definition as_map (a : attr) : gmap string string :=
  match a with AMap m => m | _ => ∅ end.

(** ** The remote management API *)

Module GetApiOutput.
Record t := { ProtocolType : string }.
End GetApiOutput.

Module GetStageOutput.
Record t := {
  AccessLogSettings : option awstypes.AccessLogSettings;
  ApiGatewayManaged : option bool;
  AutoDeploy : option bool;
  ClientCertificateId : option string;
  DefaultRouteSettings : option awstypes.RouteSettings;
  DeploymentId : option string;
  Description : option string;
  RouteSettings : gmap string awstypes.RouteSettings;
  StageName : option string;
  StageVariables : gmap string string;
  Tags : gmap string string
}.
End GetStageOutput.

Module UpdateStageInput.
Record t := {
  ApiId : option string;
  StageName : option string;
  AccessLogSettings : option awstypes.AccessLogSettings;
  AutoDeploy : option bool;
  ClientCertificateId : option string;
  DefaultRouteSettings : option awstypes.RouteSettings;
  DeploymentId : option string;
  Description : option string;
  RouteSettings : option (gmap string awstypes.RouteSettings);
  StageVariables : option (gmap string string)
}.

Definition set_AccessLogSettings v (r : t) : t :=
  {| ApiId := ApiId r; StageName := StageName r; AccessLogSettings := v;
     AutoDeploy := AutoDeploy r; ClientCertificateId := ClientCertificateId r;
     DefaultRouteSettings := DefaultRouteSettings r; DeploymentId := DeploymentId r;
     Description := Description r; RouteSettings := RouteSettings r;
     StageVariables := StageVariables r |}.
Definition set_AutoDeploy v (r : t) : t :=
  {| ApiId := ApiId r; StageName := StageName r;
     AccessLogSettings := AccessLogSettings r;
     AutoDeploy := v; ClientCertificateId := ClientCertificateId r;
     DefaultRouteSettings := DefaultRouteSettings r; DeploymentId := DeploymentId r;
     Description := Description r; RouteSettings := RouteSettings r;
     StageVariables := StageVariables r |}.
Definition set_ClientCertificateId v (r : t) : t :=
  {| ApiId := ApiId r; StageName := StageName r;
     AccessLogSettings := AccessLogSettings r;
     AutoDeploy := AutoDeploy r; ClientCertificateId := v;
     DefaultRouteSettings := DefaultRouteSettings r; DeploymentId := DeploymentId r;
     Description := Description r; RouteSettings := RouteSettings r;
     StageVariables := StageVariables r |}.
Definition set_DefaultRouteSettings v (r : t) : t :=
  {| ApiId := ApiId r; StageName := StageName r;
     AccessLogSettings := AccessLogSettings r;
     AutoDeploy := AutoDeploy r; ClientCertificateId := ClientCertificateId r;
     DefaultRouteSettings := v; DeploymentId := DeploymentId r;
     Description := Description r; RouteSettings := RouteSettings r;
     StageVariables := StageVariables r |}.
Definition set_DeploymentId v (r : t) : t :=
  {| ApiId := ApiId r; StageName := StageName r;
     AccessLogSettings := AccessLogSettings r;
     AutoDeploy := AutoDeploy r; ClientCertificateId := ClientCertificateId r;
     DefaultRouteSettings := DefaultRouteSettings r; DeploymentId := v;
     Description := Description r; RouteSettings := RouteSettings r;
     StageVariables := StageVariables r |}.
Definition set_Description v (r : t) : t :=
  {| ApiId := ApiId r; StageName := StageName r;
     AccessLogSettings := AccessLogSettings r;
     AutoDeploy := AutoDeploy r; ClientCertificateId := ClientCertificateId r;
     DefaultRouteSettings := DefaultRouteSettings r; DeploymentId := DeploymentId r;
     Description := v; RouteSettings := RouteSettings r;
     StageVariables := StageVariables r |}.
Definition set_RouteSettings v (r : t) : t :=
  {| ApiId := ApiId r; StageName := StageName r;
     AccessLogSettings := AccessLogSettings r;
     AutoDeploy := AutoDeploy r; ClientCertificateId := ClientCertificateId r;
     DefaultRouteSettings := DefaultRouteSettings r; DeploymentId := DeploymentId r;
     Description := Description r; RouteSettings := v;
     StageVariables := StageVariables r |}.
Definition set_StageVariables v (r : t) : t :=
  {| ApiId := ApiId r; StageName := StageName r;
     AccessLogSettings := AccessLogSettings r;
     AutoDeploy := AutoDeploy r; ClientCertificateId := ClientCertificateId r;
     DefaultRouteSettings := DefaultRouteSettings r; DeploymentId := DeploymentId r;
     Description := Description r; RouteSettings := RouteSettings r;
     StageVariables := v |}.
End UpdateStageInput.

(** A remote call with its input, as recorded in the log. *)
Inductive Call :=
| CallGetApi (ApiId : string)
| CallGetStage (ApiId StageName : string)
| CallUpdateStage (req : UpdateStageInput.t)
| CallDeleteRouteSettings (ApiId RouteKey StageName : string)
| CallDeleteStage (ApiId StageName : string).

(** The remote collaborator: each operation answers from its input and from
    the calls made before it, so that it may keep state of its own. *)
Record Client := {
  GetApi : list Call → string → result GetApiOutput.t;
  GetStage : list Call → string → string → result GetStageOutput.t;
  UpdateStage : list Call → UpdateStageInput.t → option error;
  DeleteRouteSettings : list Call → string → string → string → option error;
  DeleteStage : list Call → string → string → option error
}.

(** The provider client [conns.AWSClient] that [meta] holds. *)
Record AWSClient := {
  Region : string;
  Partition : string;
  AccountID : string;
  APIGatewayV2Client : Client
}.

(** [arn.ARN{...}.String()] *)
Module arn.
Record ARN := {
  Partition : string; Service : string; Region : string;
  AccountID : string; Resource : string
}.
Definition String (a : ARN) : string :=
  "arn:" +:+ Partition a +:+ ":" +:+ Service a +:+ ":" +:+ Region a +:+ ":"
  +:+ AccountID a +:+ ":" +:+ Resource a.
End arn.

(** ** Go library functions *)

(** [strings.Split(s, sep)] for a separator of one byte: the pieces of [s]
    between the occurrences of the separator, one more than there are
    occurrences; the only piece of the empty string is the empty string. *)
Module strings.
Fixpoint Split (s : string) (sep : Ascii.ascii) : list string :=
  match s with
  | EmptyString => [""]
  | String c s' =>
    if Ascii.eqb c sep then "" :: Split s' sep
    else match Split s' sep with
         | [] => [String c ""]
         | part :: parts => String c part :: parts
         end
  end.

Fixpoint Count (s : string) (sep : Ascii.ascii) : nat :=
  match s with
  | EmptyString => O
  | String c s' => ((if Ascii.eqb c sep then 1 else 0) + Count s' sep)%nat
  end.
End strings.

(** The internal/flex package, as far as used. *)
Module flex.
(** Modelled from the spec: [flex.DiffStringValueMaps] of internal/flex,
    which is not among the sources under study.  By the spec it computes
    the keys added (in the new map only), removed (in the old map only) and
    changed (in both, with different values); the first result holds the
    added and changed keys with their new values, the second the removed
    keys with their old values, the third the keys left as they were. *)
Definition DiffStringValueMaps (oldMap newMap : gmap string string)
  : gmap string string * gmap string string * gmap string string :=
  let add := filter (λ kv, oldMap !! kv.1 ≠ Some kv.2) newMap in
  let remove := filter (λ kv, newMap !! kv.1 = None) oldMap in
  let unchanged := filter (λ kv, newMap !! kv.1 = Some kv.2) oldMap in
  (add, remove, unchanged).
End flex.

(** ** The reconciliation monad

    The callbacks run against a state made of the [ResourceData] they were
    handed, the log of remote calls, and the tags handed to the tagging
    subsystem.  [None] is a Go panic. *)

Record St := {
  rd : ResourceData;
  log : list Call;
  tagsOut : option (gmap string string)
}.

Definition M (A : Type) : Type := St → option (A * St).

Definition ret {A} (a : A) : M A := λ s, Some (a, s).
Definition bind {A B} (m : M A) (k : A → M B) : M B :=
  λ s, match m s with Some (a, s') => k a s' | None => None end.
Definition panic {A} : M A := λ _, None.

Notation "'let*' x ':=' m 'in' k" := (bind m (λ x, k))
  (at level 10, x name, m at level 100, k at level 200, only parsing).
Notation "m ;; k" := (bind m (λ _, k))
  (at level 100, k at level 200, right associativity, only parsing).

Definition getd : M ResourceData := λ s, Some (rd s, s).
Definition modd (f : ResourceData → ResourceData) : M unit :=
  λ s, Some (tt, {| rd := f (rd s); log := log s; tagsOut := tagsOut s |}).
Definition record (c : Call) (s : St) : St :=
  {| rd := rd s; log := log s ++ [c]; tagsOut := tagsOut s |}.
(** Modelled from the spec: [setTagsOut] of the tagging subsystem, which is
    not among the sources under study; an opaque pass-through of the
    inbound tags. *)
Definition setTagsOut (tags : gmap string string) : M unit :=
  λ s, Some (tt, {| rd := rd s; log := log s; tagsOut := Some tags |}).

Section Callbacks.
Variable meta : AWSClient.
Let conn := APIGatewayV2Client meta.

Definition conn_GetApi (ApiId : string) : M (result GetApiOutput.t) :=
  λ s, Some (GetApi conn (log s) ApiId, record (CallGetApi ApiId) s).
Definition conn_GetStage (ApiId StageName : string) : M (result GetStageOutput.t) :=
  λ s, Some (GetStage conn (log s) ApiId StageName,
             record (CallGetStage ApiId StageName) s).
Definition conn_UpdateStage (req : UpdateStageInput.t) : M (option error) :=
  λ s, Some (UpdateStage conn (log s) req, record (CallUpdateStage req) s).
Definition conn_DeleteRouteSettings (ApiId RouteKey StageName : string)
  : M (option error) :=
  λ s, Some (DeleteRouteSettings conn (log s) ApiId RouteKey StageName,
             record (CallDeleteRouteSettings ApiId RouteKey StageName) s).
Definition conn_DeleteStage (ApiId StageName : string) : M (option error) :=
  λ s, Some (DeleteStage conn (log s) ApiId StageName,
             record (CallDeleteStage ApiId StageName) s).

(** What [d.Set("route_settings", l)] stores: the field writer decodes
    every field to the type of its schema (a logging level becomes a plain
    string) and the set keeps one copy of equal elements. *)
Definition to_schema_string (v : value) : value :=
  match v with VLoggingLevel l => VString l | _ => v end.
Definition set_of_list (l : ifaceList) : SchemaSet.t :=
  remove_dups (fmap (M:=list) (fmap (M:=gmap string) to_schema_string) (omap id l)).

(** The values the flatten functions build fit the schema, so the error
    results of [d.Set] are nil throughout and their branches are left out. *)
Definition resourceStageRead : M Diagnostics :=
  let diags : Diagnostics := [] in
  let* d := getd in
  let apiId := as_string (Get d "api_id") in
  let* r := conn_GetStage apiId (Id d) in
  if IsA_NotFoundException (err_of r) && negb (IsNewResource d) then
    modd (SetId "") ;;
    ret diags
  else
  match r with
  | Err err =>
    ret (AppendErrorf diags
           ("reading API Gateway v2 stage (" +:+ Id d +:+ "): " +:+ Error err))
  | Ok resp =>
    let stageName := aws.ToString (GetStageOutput.StageName resp) in
    modd (d_Set "access_log_settings"
            (AList (flattenAccessLogSettings (GetStageOutput.AccessLogSettings resp)))) ;;
    let region := Region meta in
    let resourceArn := arn.String
      {| arn.Partition := Partition meta; arn.Service := "apigateway";
         arn.Region := region; arn.AccountID := "";
         arn.Resource := "/apis/" +:+ apiId +:+ "/stages/" +:+ stageName |} in
    modd (d_Set "arn" (AString resourceArn)) ;;
    modd (d_Set "auto_deploy" (ABool (aws.ToBool (GetStageOutput.AutoDeploy resp)))) ;;
    modd (d_Set "client_certificate_id"
            (AString (aws.ToString (GetStageOutput.ClientCertificateId resp)))) ;;
    modd (d_Set "default_route_settings"
            (AList (flattenDefaultRouteSettings
                      (GetStageOutput.DefaultRouteSettings resp)))) ;;
    modd (d_Set "deployment_id"
            (AString (aws.ToString (GetStageOutput.DeploymentId resp)))) ;;
    modd (d_Set "description"
            (AString (aws.ToString (GetStageOutput.Description resp)))) ;;
    let executionArn := arn.String
      {| arn.Partition := Partition meta; arn.Service := "execute-api";
         arn.Region := region; arn.AccountID := AccountID meta;
         arn.Resource := apiId +:+ "/" +:+ stageName |} in
    modd (d_Set "execution_arn" (AString executionArn)) ;;
    modd (d_Set "name" (AString stageName)) ;;
    modd (d_Set "route_settings"
            (ASet (set_of_list (flattenRouteSettings
                                  (GetStageOutput.RouteSettings resp))))) ;;
    modd (d_Set "stage_variables" (AMap (GetStageOutput.StageVariables resp))) ;;
    setTagsOut (GetStageOutput.Tags resp) ;;
    let* r := conn_GetApi apiId in
    match r with
    | Err err =>
      ret (AppendErrorf diags
             ("reading API Gateway v2 API (" +:+ apiId +:+ "): " +:+ Error err))
    | Ok apiOutput =>
      (if bool_decide (GetApiOutput.ProtocolType apiOutput = ProtocolTypeWebsocket)
       then
         modd (d_Set "invoke_url"
                 (AString ("wss://" +:+ apiId +:+ ".execute-api." +:+ region
                           +:+ ".amazonaws.com/" +:+ stageName)))
       else if bool_decide (GetApiOutput.ProtocolType apiOutput = ProtocolTypeHttp)
       then
         if bool_decide (stageName = defaultStageName)
         then
           modd (d_Set "invoke_url"
                   (AString ("https://" +:+ apiId +:+ ".execute-api." +:+ region
                             +:+ ".amazonaws.com/")))
         else
           modd (d_Set "invoke_url"
                   (AString ("https://" +:+ apiId +:+ ".execute-api." +:+ region
                             +:+ ".amazonaws.com/" +:+ stageName)))
       else ret tt) ;;
      ret diags
    end
  end.

(** The loop over [os.Difference(ns).List()] in [resourceStageUpdate]:
    [Some diags] is the early return from inside the loop, [None] its
    normal end. *)
Fixpoint deleteRouteSettings_loop (diags : Diagnostics)
    (vRouteSettings : list (gmap string value)) : M (option Diagnostics) :=
  match vRouteSettings with
  | [] => ret None
  | vRouteSetting :: rest =>
    match assert_string (vRouteSetting !! "route_key") with
    | None => panic
    | Some routeKey =>
      let* d := getd in
      let* err := conn_DeleteRouteSettings (as_string (Get d "api_id")) routeKey (Id d) in
      if IsA_NotFoundException err then deleteRouteSettings_loop diags rest
      else
      match err with
      | Some err =>
        ret (Some (AppendErrorf diags
                     ("deleting API Gateway v2 stage (" +:+ Id d
                      +:+ ") route settings (" +:+ routeKey +:+ "): " +:+ Error err)))
      | None => deleteRouteSettings_loop diags rest
      end
    end
  end.

(** The merge of the two maps [DiffStringValueMaps] returns: every value of
    [del] is overwritten with the empty string, then every entry of [add]
    is assigned into the same map. *)
Definition mergeStageVariables (add del : gmap string string) : gmap string string :=
  let del := (λ _, "") <$> del in
  let variables := del in
  foldr (λ kv variables, <[kv.1 := kv.2]> variables) variables (map_to_list add).

(** [if cond { req.F = v }]: the assignment is made when the condition
    holds, and the request is left as it is otherwise. *)
Definition when {A} (cond : bool) (assign : A → A) (req : A) : A :=
  if cond then assign req else req.

Definition stageUpdateKeys : list string :=
  ["access_log_settings"; "auto_deploy"; "client_certificate_id";
   "default_route_settings"; "deployment_id"; "description";
   "route_settings"; "stage_variables"].

Definition resourceStageUpdate : M Diagnostics :=
  let diags : Diagnostics := [] in
  let* d := getd in
  let* returned :=
    if HasChanges d stageUpdateKeys then
      let apiId := as_string (Get d "api_id") in
      let* r := conn_GetApi apiId in
      match r with
      | Err err =>
        ret (Some (AppendErrorf diags
                     ("reading API Gateway v2 API (" +:+ apiId +:+ "): " +:+ Error err)))
      | Ok apiOutput =>
        let protocolType := GetApiOutput.ProtocolType apiOutput in
        let req :=
          {| UpdateStageInput.ApiId := Some apiId;
             UpdateStageInput.StageName := Some (Id d);
             UpdateStageInput.AccessLogSettings := None;
             UpdateStageInput.AutoDeploy := None;
             UpdateStageInput.ClientCertificateId := None;
             UpdateStageInput.DefaultRouteSettings := None;
             UpdateStageInput.DeploymentId := None;
             UpdateStageInput.Description := None;
             UpdateStageInput.RouteSettings := None;
             UpdateStageInput.StageVariables := None |} in
        let req :=
          when (HasChange d "access_log_settings")
            (UpdateStageInput.set_AccessLogSettings
               (Some (expandAccessLogSettings
                        (as_list (Get d "access_log_settings"))))) req in
        let req :=
          when (HasChange d "auto_deploy")
            (UpdateStageInput.set_AutoDeploy
               (Some (as_bool (Get d "auto_deploy")))) req in
        let req :=
          when (HasChange d "client_certificate_id")
            (UpdateStageInput.set_ClientCertificateId
               (Some (as_string (Get d "client_certificate_id")))) req in
        let req :=
          when (HasChange d "default_route_settings")
            (UpdateStageInput.set_DefaultRouteSettings
               (Some (expandDefaultRouteSettings
                        (as_list (Get d "default_route_settings")) protocolType)))
            req in
        let req :=
          when (HasChange d "deployment_id")
            (UpdateStageInput.set_DeploymentId
               (Some (as_string (Get d "deployment_id")))) req in
        let req :=
          when (HasChange d "description")
            (UpdateStageInput.set_Description
               (Some (as_string (Get d "description")))) req in
        let* route :=
          if HasChange d "route_settings" then
            let '(o, n) := GetChange d "route_settings" in
            let os := as_set o in
            let ns := as_set n in
            let* returned :=
              deleteRouteSettings_loop diags
                (SchemaSet.List (SchemaSet.Difference os ns)) in
            match returned with
            | Some diags => ret (inl diags)
            | None =>
              match expandRouteSettings (Some <$> SchemaSet.List ns) protocolType with
              | None => panic
              | Some settings =>
                ret (inr (UpdateStageInput.set_RouteSettings (Some settings) req))
              end
            end
          else ret (inr req) in
        match route with
        | inl diags => ret (Some diags)
        | inr req =>
          let req :=
            when (HasChange d "stage_variables")
              (let '(o, n) := GetChange d "stage_variables" in
               let '(add, del, _) := flex.DiffStringValueMaps (as_map o) (as_map n) in
               let variables := mergeStageVariables add del in
               UpdateStageInput.set_StageVariables (Some variables)) req in
          let* err := conn_UpdateStage req in
          match err with
          | Some err =>
            ret (Some (AppendErrorf diags
                         ("updating API Gateway v2 stage (" +:+ Id d +:+ "): "
                          +:+ Error err)))
          | None => ret None
          end
        end
      end
    else ret None in
  match returned with
  | Some diags => ret diags
  | None =>
    let* diags' := resourceStageRead in
    ret (diags ++ diags')
  end.

Definition resourceStageDelete : M Diagnostics :=
  let diags : Diagnostics := [] in
  let* d := getd in
  let* err := conn_DeleteStage (as_string (Get d "api_id")) (Id d) in
  if IsA_NotFoundException err then ret diags
  else
  match err with
  | Some err =>
    ret (AppendErrorf diags
           ("deleting API Gateway v2 stage (" +:+ Id d +:+ "): " +:+ Error err))
  | None => ret diags
  end.

(** The error of the first check of [resourceStageImport]. *)
Definition MalformedImportID (id : string) : error :=
  OtherError ("wrong format of import ID (" +:+ id
              +:+ "), use: 'api-id/stage-name'").

Definition resourceStageImport : M (list ResourceData * option error) :=
  let* d := getd in
  let parts := strings.Split (Id d) "/"%char in
  if bool_decide (length parts ≠ 2%nat) then
    ret ([], Some (MalformedImportID (Id d)))
  else
    let apiId := nth 0 parts "" in
    let stageName := nth 1 parts "" in
    let* r := conn_GetStage apiId stageName in
    match r with
    | Err err => ret ([], Some err)
    | Ok resp =>
      if aws.ToBool (GetStageOutput.ApiGatewayManaged resp) then
        ret ([], Some (OtherError ("API Gateway v2 stage (" +:+ stageName
                                   +:+ ") was created via quick create")))
      else
        modd (SetId stageName) ;;
        modd (d_Set "api_id" (AString apiId)) ;;
        let* d := getd in
        ret ([d], None)
    end.

End Callbacks.

(** ** Definitions used to state the properties *)

(** An element the loop of [expandRouteSettings] accepts: its route key is
    a string. *)
Definition has_route_key (v : gmap string value) : Prop :=
  is_Some (assert_string (v !! "route_key")).

(** The variable-map instruction set in the words of the specification:
    the keys only in the old map, each with the empty string, overlaid with
    the added and the changed keys, each with its new value. *)
Definition removedKeys (o n : gmap string string) : gset string := dom o ∖ dom n.
Definition addedKeys (o n : gmap string string) : gset string := dom n ∖ dom o.
Definition changedKeys (o n : gmap string string) : gset string :=
  filter (λ k, o !! k ≠ n !! k) (dom o ∩ dom n).
Definition mergedInstructions (o n : gmap string string) : gmap string string :=
  filter (λ kv, kv.1 ∈ addedKeys o n ∪ changedKeys o n) n
  ∪ gset_to_gmap "" (removedKeys o n).

(** *** Sample inputs *)

Definition accessLog0 : gmap string value :=
  <["format" := VString "$context.requestId"]>
  (<["destination_arn" := VString "arn:aws:logs:us-east-1:123456789012:log-group:stage"]> ∅).

(** A per-route element that asks for tracing at level INFO. *)
Definition routeInfo : gmap string value :=
  <["route_key" := VString "GET /pets"]>
  (<["data_trace_enabled" := VBool true]>
  (<["detailed_metrics_enabled" := VBool true]>
  (<["logging_level" := VString "INFO"]>
  (<["throttling_burst_limit" := VInt 100]>
  (<["throttling_rate_limit" := VFloat64 4632233691727265792 (* 50.0 *)]> ∅))))).

Definition routeInfo' : gmap string value :=
  <["route_key" := VString "GET /pets"]>
  (<["detailed_metrics_enabled" := VBool false]>
  (<["throttling_burst_limit" := VInt 7]> ∅)).

Definition routeOther : gmap string value :=
  <["route_key" := VString "$default"]> ∅.

Definition varsOld : gmap string string := <["a" := "1"]> (<["b" := "2"]> ∅).
Definition varsNew : gmap string string := <["b" := "3"]> (<["c" := "4"]> ∅).

(** The predicates on logged calls used to count them. *)
Definition is_GetStage (c : Call) : bool :=
  match c with CallGetStage _ _ => true | _ => false end.
Definition is_GetApi (c : Call) : bool :=
  match c with CallGetApi _ => true | _ => false end.
Definition is_UpdateStage (c : Call) : bool :=
  match c with CallUpdateStage _ => true | _ => false end.
Definition is_DeleteRouteSettings (c : Call) : bool :=
  match c with CallDeleteRouteSettings _ _ _ => true | _ => false end.

(** The route key of a set element, when it is a string. *)
Definition route_key_of (v : gmap string value) : option string :=
  assert_string (v !! "route_key").

(** A remote stage and clients answering from it. *)
Definition stageProd : GetStageOutput.t :=
  {| GetStageOutput.AccessLogSettings := None;
     GetStageOutput.ApiGatewayManaged := None;
     GetStageOutput.AutoDeploy := Some true;
     GetStageOutput.ClientCertificateId := None;
     GetStageOutput.DefaultRouteSettings := None;
     GetStageOutput.DeploymentId := None;
     GetStageOutput.Description := Some "production";
     GetStageOutput.RouteSettings := ∅;
     GetStageOutput.StageName := Some "prod";
     GetStageOutput.StageVariables := ∅;
     GetStageOutput.Tags := ∅ |}.

Definition stageDefault : GetStageOutput.t :=
  {| GetStageOutput.AccessLogSettings := None;
     GetStageOutput.ApiGatewayManaged := None;
     GetStageOutput.AutoDeploy := Some true;
     GetStageOutput.ClientCertificateId := None;
     GetStageOutput.DefaultRouteSettings := None;
     GetStageOutput.DeploymentId := None;
     GetStageOutput.Description := None;
     GetStageOutput.RouteSettings := ∅;
     GetStageOutput.StageName := Some "$default";
     GetStageOutput.StageVariables := ∅;
     GetStageOutput.Tags := ∅ |}.

(** A client whose every call succeeds: the API has the given protocol
    type and [GetStage] answers with the given record. *)
Definition connOk (protocolType : string) (stage : GetStageOutput.t) : Client :=
  {| GetApi := λ _ _, Ok {| GetApiOutput.ProtocolType := protocolType |};
     GetStage := λ _ _ _, Ok stage;
     UpdateStage := λ _ _, None;
     DeleteRouteSettings := λ _ _ _ _, None;
     DeleteStage := λ _ _ _, None |}.

(** A client on which the stage is gone: the stage operations report
    not-found. *)
Definition connGone : Client :=
  {| GetApi := λ _ _, Ok {| GetApiOutput.ProtocolType := "HTTP" |};
     GetStage := λ _ _ _, Err (NotFoundException "NotFoundException: Invalid stage identifier specified");
     UpdateStage := λ _ _, Some (NotFoundException "NotFoundException: Invalid stage identifier specified");
     DeleteRouteSettings := λ _ _ _ _, Some (NotFoundException "NotFoundException: Invalid stage identifier specified");
     DeleteStage := λ _ _ _, Some (NotFoundException "NotFoundException: Invalid stage identifier specified") |}.

(** A client whose stage operations fail for another reason. *)
Definition connDown : Client :=
  {| GetApi := λ _ _, Err (OtherError "TooManyRequestsException: Rate exceeded");
     GetStage := λ _ _ _, Err (OtherError "TooManyRequestsException: Rate exceeded");
     UpdateStage := λ _ _, Some (OtherError "TooManyRequestsException: Rate exceeded");
     DeleteRouteSettings := λ _ _ _ _, Some (OtherError "TooManyRequestsException: Rate exceeded");
     DeleteStage := λ _ _ _, Some (OtherError "TooManyRequestsException: Rate exceeded") |}.

Definition metaOf (conn : Client) : AWSClient :=
  {| Region := "us-east-1"; Partition := "aws"; AccountID := "123456789012";
     APIGatewayV2Client := conn |}.

(** Two versions of the override of route A, and an override of route B. *)
Definition routeA (burst : Z) : gmap string value :=
  <["route_key" := VString "A"]> (<["throttling_burst_limit" := VInt burst]> ∅).
Definition routeB : gmap string value :=
  <["route_key" := VString "B"]> (<["detailed_metrics_enabled" := VBool true]> ∅).
Definition routeC : gmap string value :=
  <["route_key" := VString "C"]> (<["throttling_burst_limit" := VInt 5]> ∅).

(** The store of stage "prod" of API "abc123" with the given old and new
    route overrides and nothing else changed. *)
Definition stageData (id : string) (os ns : list (gmap string value)) : ResourceData :=
  {| Id := id; IsNewResource := false;
     state_level := <["api_id" := AString "abc123"]> (<["route_settings" := ASet os]> ∅);
     diff_level := <["api_id" := AString "abc123"]> (<["route_settings" := ASet ns]> ∅);
     set_level := ∅ |}.

Definition stateOf (d : ResourceData) : St :=
  {| rd := d; log := []; tagsOut := None |}.

(** The route keys for which the Update loop issues a delete: those of the
    elements of the old set that are not elements of the new set. *)
Definition routeKeysToDelete (os ns : SchemaSet.t) : list string :=
  omap route_key_of (SchemaSet.List (SchemaSet.Difference os ns)).

(** The remote delete of a route override never fails for a reason other
    than not-found. *)
Definition deletes_tolerated (conn : Client) : Prop :=
  ∀ calls ApiId RouteKey StageName,
    DeleteRouteSettings conn calls ApiId RouteKey StageName = None
    ∨ IsA_NotFoundException (DeleteRouteSettings conn calls ApiId RouteKey StageName) = true.

(** ** Proof automation *)

(** The two tactics run the monadic plumbing of a callback and leave maps and
    strings folded. *)
Ltac run_callback :=
  cbv beta iota zeta delta
    [resourceStageRead resourceStageDelete resourceStageImport
     bind getd modd ret panic setTagsOut record
     conn_GetApi conn_GetStage conn_UpdateStage conn_DeleteRouteSettings
     conn_DeleteStage rd log tagsOut].

Ltac run_update :=
  cbv beta iota zeta delta
    [resourceStageUpdate bind getd modd ret panic record
     conn_GetApi conn_UpdateStage conn_DeleteRouteSettings rd log tagsOut].

(** ** Create *)

(** [d.GetOk(key)]: the value, and whether it is set to something other
    than the zero value of its type. *)
Definition GetOk (d : ResourceData) (key : string) : attr * bool :=
  let v := Get d key in
  (v, negb (bool_decide (v = schema_zero key))).

(** Modelled from the spec: [flex.ExpandStringValueMap] of internal/flex,
    which is not among the sources under study; it turns a map of string
    values held as [interface{}] into a map of strings, entry by entry. *)
Definition ExpandStringValueMap (m : gmap string string) : gmap string string := m.

Module CreateStageInput.
Record t := {
  ApiId : option string;
  AutoDeploy : option bool;
  StageName : option string;
  Tags : gmap string string;
  AccessLogSettings : option awstypes.AccessLogSettings;
  ClientCertificateId : option string;
  DefaultRouteSettings : option awstypes.RouteSettings;
  DeploymentId : option string;
  Description : option string;
  RouteSettings : option (gmap string awstypes.RouteSettings);
  StageVariables : option (gmap string string)
}.

Definition set_AccessLogSettings v (r : t) : t :=
  {| ApiId := ApiId r; AutoDeploy := AutoDeploy r; StageName := StageName r;
     Tags := Tags r; AccessLogSettings := v;
     ClientCertificateId := ClientCertificateId r;
     DefaultRouteSettings := DefaultRouteSettings r; DeploymentId := DeploymentId r;
     Description := Description r; RouteSettings := RouteSettings r;
     StageVariables := StageVariables r |}.
Definition set_ClientCertificateId v (r : t) : t :=
  {| ApiId := ApiId r; AutoDeploy := AutoDeploy r; StageName := StageName r;
     Tags := Tags r; AccessLogSettings := AccessLogSettings r;
     ClientCertificateId := v;
     DefaultRouteSettings := DefaultRouteSettings r; DeploymentId := DeploymentId r;
     Description := Description r; RouteSettings := RouteSettings r;
     StageVariables := StageVariables r |}.
Definition set_DefaultRouteSettings v (r : t) : t :=
  {| ApiId := ApiId r; AutoDeploy := AutoDeploy r; StageName := StageName r;
     Tags := Tags r; AccessLogSettings := AccessLogSettings r;
     ClientCertificateId := ClientCertificateId r;
     DefaultRouteSettings := v; DeploymentId := DeploymentId r;
     Description := Description r; RouteSettings := RouteSettings r;
     StageVariables := StageVariables r |}.
Definition set_DeploymentId v (r : t) : t :=
  {| ApiId := ApiId r; AutoDeploy := AutoDeploy r; StageName := StageName r;
     Tags := Tags r; AccessLogSettings := AccessLogSettings r;
     ClientCertificateId := ClientCertificateId r;
     DefaultRouteSettings := DefaultRouteSettings r; DeploymentId := v;
     Description := Description r; RouteSettings := RouteSettings r;
     StageVariables := StageVariables r |}.
Definition set_Description v (r : t) : t :=
  {| ApiId := ApiId r; AutoDeploy := AutoDeploy r; StageName := StageName r;
     Tags := Tags r; AccessLogSettings := AccessLogSettings r;
     ClientCertificateId := ClientCertificateId r;
     DefaultRouteSettings := DefaultRouteSettings r; DeploymentId := DeploymentId r;
     Description := v; RouteSettings := RouteSettings r;
     StageVariables := StageVariables r |}.
Definition set_RouteSettings v (r : t) : t :=
  {| ApiId := ApiId r; AutoDeploy := AutoDeploy r; StageName := StageName r;
     Tags := Tags r; AccessLogSettings := AccessLogSettings r;
     ClientCertificateId := ClientCertificateId r;
     DefaultRouteSettings := DefaultRouteSettings r; DeploymentId := DeploymentId r;
     Description := Description r; RouteSettings := v;
     StageVariables := StageVariables r |}.
Definition set_StageVariables v (r : t) : t :=
  {| ApiId := ApiId r; AutoDeploy := AutoDeploy r; StageName := StageName r;
     Tags := Tags r; AccessLogSettings := AccessLogSettings r;
     ClientCertificateId := ClientCertificateId r;
     DefaultRouteSettings := DefaultRouteSettings r; DeploymentId := DeploymentId r;
     Description := Description r; RouteSettings := RouteSettings r;
     StageVariables := v |}.
End CreateStageInput.

Module CreateStageOutput.
Record t := { StageName : option string }.
End CreateStageOutput.

(** The state of Create: the state of the other callbacks, and the create
    requests sent so far.  The create operation of the remote API answers
    from the request and from the calls logged before it. *)
Record CreateSt := {
  base : St;
  created : list CreateStageInput.t
}.

Definition CreateStageOp : Type :=
  list Call → CreateStageInput.t → result CreateStageOutput.t.

(** [resourceStageCreate], in explicit state-passing style.  [tagsIn] is what
    [getTagsIn(ctx)] returns (modelled from the spec: the tagging subsystem
    supplies the outbound tags on create). *)
Definition resourceStageCreate (meta : AWSClient) (CreateStage : CreateStageOp)
    (tagsIn : gmap string string) (cs : CreateSt)
  : option (Diagnostics * CreateSt) :=
  let diags : Diagnostics := [] in
  let d := rd (base cs) in
  let apiId := as_string (Get d "api_id") in
  match conn_GetApi meta apiId (base cs) with
  | None => None
  | Some (Err err, s) =>
    Some (AppendErrorf diags
            ("reading API Gateway v2 API (" +:+ apiId +:+ "): " +:+ Error err),
          {| base := s; created := created cs |})
  | Some (Ok apiOutput, s) =>
    let protocolType := GetApiOutput.ProtocolType apiOutput in
    let req :=
      {| CreateStageInput.ApiId := Some apiId;
         CreateStageInput.AutoDeploy := Some (as_bool (Get d "auto_deploy"));
         CreateStageInput.StageName := Some (as_string (Get d "name"));
         CreateStageInput.Tags := tagsIn;
         CreateStageInput.AccessLogSettings := None;
         CreateStageInput.ClientCertificateId := None;
         CreateStageInput.DefaultRouteSettings := None;
         CreateStageInput.DeploymentId := None;
         CreateStageInput.Description := None;
         CreateStageInput.RouteSettings := None;
         CreateStageInput.StageVariables := None |} in
    let req :=
      let '(v, ok) := GetOk d "access_log_settings" in
      when ok (CreateStageInput.set_AccessLogSettings
                 (Some (expandAccessLogSettings (as_list v)))) req in
    let req :=
      let '(v, ok) := GetOk d "client_certificate_id" in
      when ok (CreateStageInput.set_ClientCertificateId (Some (as_string v))) req in
    let req :=
      let '(v, ok) := GetOk d "default_route_settings" in
      when ok (CreateStageInput.set_DefaultRouteSettings
                 (Some (expandDefaultRouteSettings (as_list v) protocolType))) req in
    let req :=
      let '(v, ok) := GetOk d "deployment_id" in
      when ok (CreateStageInput.set_DeploymentId (Some (as_string v))) req in
    let req :=
      let '(v, ok) := GetOk d "description" in
      when ok (CreateStageInput.set_Description (Some (as_string v))) req in
    let route :=
      let '(v, ok) := GetOk d "route_settings" in
      if ok then
        match expandRouteSettings (Some <$> SchemaSet.List (as_set v)) protocolType with
        | None => None
        | Some settings => Some (CreateStageInput.set_RouteSettings (Some settings) req)
        end
      else Some req in
    match route with
    | None => None
    | Some req =>
      let req :=
        let '(v, ok) := GetOk d "stage_variables" in
        when ok (CreateStageInput.set_StageVariables
                   (Some (ExpandStringValueMap (as_map v)))) req in
      let resp := CreateStage (log s) req in
      let created' := created cs ++ [req] in
      match resp with
      | Err err =>
        Some (AppendErrorf diags
                ("creating API Gateway v2 stage: " +:+ Error err),
              {| base := s; created := created' |})
      | Ok resp =>
        let s :=
          {| rd := SetId (aws.ToString (CreateStageOutput.StageName resp)) (rd s);
             log := log s; tagsOut := tagsOut s |} in
        match resourceStageRead meta s with
        | None => None
        | Some (diags', s') => Some (diags ++ diags', {| base := s'; created := created' |})
        end
      end
    end
  end.

(** ** Further definitions used to state properties *)

(** An [awstypes.RouteSettings] value with every absent field made explicit
    at its zero value: what a pass through flatten and expand leaves. *)
Definition RouteSettings_explicit (rs : RouteSettings) : RouteSettings :=
  {| DataTraceEnabled := Some (aws.ToBool (DataTraceEnabled rs));
     DetailedMetricsEnabled := Some (aws.ToBool (DetailedMetricsEnabled rs));
     LoggingLevel := LoggingLevel rs;
     ThrottlingBurstLimit := Some (aws.ToInt32 (ThrottlingBurstLimit rs));
     ThrottlingRateLimit := Some (aws.ToFloat64 (ThrottlingRateLimit rs)) |}.

Definition in_int32 (v : Z) : Prop := -2 ^ 31 ≤ v < 2 ^ 31.

(** [strings.Join(parts, sep)] for a separator of one byte. *)
Fixpoint strings_Join (parts : list string) (sep : Ascii.ascii) : string :=
  match parts with
  | [] => ""
  | [part] => part
  | part :: parts => part +:+ String sep (strings_Join parts sep)
  end.

(** The byte occurs in the string. *)
Fixpoint contains_byte (s : string) (c : Ascii.ascii) : bool :=
  match s with
  | EmptyString => false
  | String c' s' => Ascii.eqb c' c || contains_byte s' c
  end.

(** *** Further sample inputs *)

Definition accessLogRecord : AccessLogSettings :=
  {| DestinationArn := Some "arn:aws:logs:us-east-1:123456789012:log-group:stage";
     Format := None |}.

(** A default-route block with all five fields, as the store holds it. *)
Definition defaultRoute0 : gmap string value :=
  <["data_trace_enabled" := VBool true]>
  (<["detailed_metrics_enabled" := VBool false]>
  (<["logging_level" := VString "ERROR"]>
  (<["throttling_burst_limit" := VInt 200]>
  (<["throttling_rate_limit" := VFloat64 4636737291354636288 (* 100.0 *)]> ∅)))).

Definition remoteRoutes : gmap string RouteSettings :=
  <["GET /pets" := {| DataTraceEnabled := Some true; DetailedMetricsEnabled := None;
                      LoggingLevel := "INFO"; ThrottlingBurstLimit := Some 10;
                      ThrottlingRateLimit := None |}]>
  (<["$default" := RouteSettings_zero]> ∅).

(** An element of the input that the loop of [expandRouteSettings] takes:
    a map (not nil) whose route key is a string. *)
Definition accepted (v : option (gmap string value)) : Prop :=
  ∃ m, v = Some m ∧ has_route_key m.

(** The six keys of a flattened per-route element. *)
Definition routeSettingsKeys : gset string :=
  {[ "data_trace_enabled"; "detailed_metrics_enabled"; "logging_level";
     "route_key"; "throttling_burst_limit"; "throttling_rate_limit" ]}.

(** The attribute writes of a successful Read, in the order of the source,
    up to the lookup of the owning API; used to state what Read leaves in
    the store. *)
Definition readWrites (meta : AWSClient) (resp : GetStageOutput.t) (d : ResourceData)
  : ResourceData :=
  let apiId := as_string (Get d "api_id") in
  let stageName := aws.ToString (GetStageOutput.StageName resp) in
  d_Set "stage_variables" (AMap (GetStageOutput.StageVariables resp))
  (d_Set "route_settings"
     (ASet (set_of_list (flattenRouteSettings (GetStageOutput.RouteSettings resp))))
  (d_Set "name" (AString stageName)
  (d_Set "execution_arn"
     (AString (arn.String
        {| arn.Partition := Partition meta; arn.Service := "execute-api";
           arn.Region := Region meta; arn.AccountID := AccountID meta;
           arn.Resource := apiId +:+ "/" +:+ stageName |}))
  (d_Set "description" (AString (aws.ToString (GetStageOutput.Description resp)))
  (d_Set "deployment_id" (AString (aws.ToString (GetStageOutput.DeploymentId resp)))
  (d_Set "default_route_settings"
     (AList (flattenDefaultRouteSettings (GetStageOutput.DefaultRouteSettings resp)))
  (d_Set "client_certificate_id"
     (AString (aws.ToString (GetStageOutput.ClientCertificateId resp)))
  (d_Set "auto_deploy" (ABool (aws.ToBool (GetStageOutput.AutoDeploy resp)))
  (d_Set "arn"
     (AString (arn.String
        {| arn.Partition := Partition meta; arn.Service := "apigateway";
           arn.Region := Region meta; arn.AccountID := "";
           arn.Resource := "/apis/" +:+ apiId +:+ "/stages/" +:+ stageName |}))
  (d_Set "access_log_settings"
     (AList (flattenAccessLogSettings (GetStageOutput.AccessLogSettings resp)))
     d)))))))))).

(** A remote stage with overrides and variables, and a client that answers
    with it whatever was called before. *)
Definition stageFull : GetStageOutput.t :=
  {| GetStageOutput.AccessLogSettings := Some accessLogRecord;
     GetStageOutput.ApiGatewayManaged := Some false;
     GetStageOutput.AutoDeploy := None;
     GetStageOutput.ClientCertificateId := None;
     GetStageOutput.DefaultRouteSettings := Some RouteSettings_zero;
     GetStageOutput.DeploymentId := Some "dep42";
     GetStageOutput.Description := Some "production";
     GetStageOutput.RouteSettings := remoteRoutes;
     GetStageOutput.StageName := Some "prod";
     GetStageOutput.StageVariables := <["env" := "prod"]> ∅;
     GetStageOutput.Tags := <["team" := "api"]> ∅ |}.

(** A client on which the stage is found and the owning API cannot be
    read. *)
Definition connNoApi (stage : GetStageOutput.t) : Client :=
  {| GetApi := λ _ _, Err (OtherError "TooManyRequestsException: Rate exceeded");
     GetStage := λ _ _ _, Ok stage;
     UpdateStage := λ _ _, None;
     DeleteRouteSettings := λ _ _ _ _, None;
     DeleteStage := λ _ _ _, None |}.

(** A client whose update call is refused. *)
Definition connNoUpdate : Client :=
  {| GetApi := λ _ _, Ok {| GetApiOutput.ProtocolType := "HTTP" |};
     GetStage := λ _ _ _, Ok stageProd;
     UpdateStage := λ _ _, Some (OtherError "ConflictException: Stage is being deployed");
     DeleteRouteSettings := λ _ _ _ _, None;
     DeleteStage := λ _ _ _, None |}.

(** A client that refuses to delete the override of route B, and only
    that. *)
Definition connKeepB : Client :=
  {| GetApi := λ _ _, Ok {| GetApiOutput.ProtocolType := "HTTP" |};
     GetStage := λ _ _ _, Ok stageProd;
     UpdateStage := λ _ _, None;
     DeleteRouteSettings := λ _ _ RouteKey _,
       if bool_decide (RouteKey = "B")
       then Some (OtherError "ConflictException: Route settings are in use")
       else None;
     DeleteStage := λ _ _ _, None |}.

(** The store of stage "prod" of API "abc123" whose description goes from
    "old" to "new" and whose variables go from [varsOld] to [varsNew]. *)
Definition stageDataScalars : ResourceData :=
  {| Id := "prod"; IsNewResource := false;
     state_level := <["api_id" := AString "abc123"]>
                    (<["description" := AString "old"]>
                    (<["stage_variables" := AMap varsOld]> ∅));
     diff_level := <["api_id" := AString "abc123"]>
                   (<["description" := AString "new"]>
                   (<["stage_variables" := AMap varsNew]> ∅));
     set_level := ∅ |}.

(** A remote stage that was provisioned by quick create. *)
Definition stageManaged : GetStageOutput.t :=
  {| GetStageOutput.AccessLogSettings := None;
     GetStageOutput.ApiGatewayManaged := Some true;
     GetStageOutput.AutoDeploy := Some true;
     GetStageOutput.ClientCertificateId := None;
     GetStageOutput.DefaultRouteSettings := None;
     GetStageOutput.DeploymentId := None;
     GetStageOutput.Description := None;
     GetStageOutput.RouteSettings := ∅;
     GetStageOutput.StageName := Some "$default";
     GetStageOutput.StageVariables := ∅;
     GetStageOutput.Tags := ∅ |}.

(** The planned store of a stage about to be created, and two create
    operations: one that answers with the given stage name, one that
    refuses. *)
Definition stageDataCreate : ResourceData :=
  {| Id := ""; IsNewResource := true;
     state_level := ∅;
     diff_level := <["api_id" := AString "abc123"]>
                   (<["name" := AString "prod"]>
                   (<["auto_deploy" := ABool true]>
                   (<["description" := AString "production"]>
                   (<["default_route_settings" := AList [Some defaultRoute0]]>
                   (<["route_settings" := ASet [routeInfo]]> ∅)))));
     set_level := ∅ |}.

Definition createNamed (name : string) : CreateStageOp :=
  λ _ _, Ok {| CreateStageOutput.StageName := Some name |}.

Definition createRefused : CreateStageOp :=
  λ _ _, Err (OtherError "ConflictException: Stage already exists").

Definition createStateOf (d : ResourceData) : CreateSt :=
  {| base := stateOf d; created := [] |}.

Ltac run_create :=
  cbv beta iota zeta delta
    [resourceStageCreate conn_GetApi record base created rd log tagsOut].

(** * Properties *)

(** ** Shape converters *)

Section Converters.
Implicit Types (r s : gmap string value) (F k : string).

Lemma int32_of_int_id (n : Z) : -2 ^ 31 ≤ n < 2 ^ 31 → int32_of_int n = n.
Proof. intros Hn. unfold int32_of_int. rewrite Z.mod_small; lia. Qed.

Lemma expandRouteSettings_single r F k :
  r !! "route_key" = Some (VString k) →
  expandRouteSettings [Some r] F = Some {[ k := expandRouteSettings_body r F ]}.
Proof. intros Hk. unfold expandRouteSettings. simpl. by rewrite Hk. Qed.

Lemma flattenRouteSettings_single k (rs : RouteSettings) :
  flattenRouteSettings {[ k := rs ]} = [Some (flattenRouteSettings_entry k rs)].
Proof. unfold flattenRouteSettings. by rewrite map_to_list_singleton. Qed.

(** The gate: outside the websocket family neither trace field reaches
    the request, whatever the configuration holds. *)
Lemma expandRouteSettings_body_gate r F :
  F ≠ ProtocolTypeWebsocket →
  DataTraceEnabled (expandRouteSettings_body r F) = None
  ∧ LoggingLevel (expandRouteSettings_body r F) = "".
Proof.
  intros HF. unfold expandRouteSettings_body.
  split; repeat case_match; try reflexivity;
    repeat match goal with
           | H : _ && _ = true |- _ => apply andb_true_iff in H as [_ H]
           | H : bool_decide _ = true |- _ => apply bool_decide_eq_true_1 in H
           end; done.
Qed.

Lemma expandDefaultRouteSettings_gate r F :
  F ≠ ProtocolTypeWebsocket →
  DataTraceEnabled (expandDefaultRouteSettings [Some r] F) = None
  ∧ LoggingLevel (expandDefaultRouteSettings [Some r] F) = "".
Proof.
  intros HF. unfold expandDefaultRouteSettings.
  split; repeat case_match; try reflexivity;
    repeat match goal with
           | H : _ && _ = true |- _ => apply andb_true_iff in H as [_ H]
           | H : bool_decide _ = true |- _ => apply bool_decide_eq_true_1 in H
           end; done.
Qed.

(** Both expanders read the five fields of an element in the same way. *)
Lemma expandDefaultRouteSettings_body r F :
  expandDefaultRouteSettings [Some r] F = expandRouteSettings_body r F.
Proof. reflexivity. Qed.

Lemma expand_body_detailed_metrics r F b :
  r !! "detailed_metrics_enabled" = Some (VBool b) →
  DetailedMetricsEnabled (expandRouteSettings_body r F) = Some b.
Proof.
  intros H. unfold expandRouteSettings_body. rewrite H. simpl.
  repeat case_match; reflexivity.
Qed.

Lemma expand_body_rate_limit r F f :
  r !! "throttling_rate_limit" = Some (VFloat64 f) →
  ThrottlingRateLimit (expandRouteSettings_body r F) = Some f.
Proof.
  intros H. unfold expandRouteSettings_body. rewrite H. simpl.
  repeat case_match; reflexivity.
Qed.

Lemma expand_body_burst_limit r F n :
  r !! "throttling_burst_limit" = Some (VInt n) →
  ThrottlingBurstLimit (expandRouteSettings_body r F) = Some (int32_of_int n).
Proof.
  intros H. unfold expandRouteSettings_body. rewrite H. simpl.
  repeat case_match; reflexivity.
Qed.
End Converters.

(** C5. Expanding a one-element access-log list whose element holds exactly
    a non-empty destination and a non-empty format, and flattening the
    result, gives the list back. *)
Theorem access_log_settings_roundtrip (s : gmap string value) (dest fmt : string) :
  s !! "destination_arn" = Some (VString dest) →
  s !! "format" = Some (VString fmt) →
  (∀ k, k ≠ "destination_arn" → k ≠ "format" → s !! k = None) →
  dest ≠ "" → fmt ≠ "" →
  flattenAccessLogSettings (Some (expandAccessLogSettings [Some s])) = [Some s].
Proof.
  intros Hd Hf Hrest Hdne Hfne.
  unfold expandAccessLogSettings. rewrite Hd, Hf. simpl.
  rewrite !bool_decide_eq_true_2 by done. simpl.
  do 2 f_equal. apply map_eq. intros k.
  destruct (decide (k = "destination_arn")) as [->|Hk1].
  { by rewrite lookup_insert_eq. }
  rewrite lookup_insert_ne by done.
  destruct (decide (k = "format")) as [->|Hk2].
  { by rewrite lookup_insert_eq. }
  rewrite lookup_insert_ne by done.
  rewrite lookup_empty. symmetry. by apply Hrest.
Qed.

Lemma access_log_settings_roundtrip_witness :
  flattenAccessLogSettings (Some (expandAccessLogSettings [Some accessLog0]))
  = [Some accessLog0].
Proof.
  apply (access_log_settings_roundtrip accessLog0
           "arn:aws:logs:us-east-1:123456789012:log-group:stage" "$context.requestId").
  - reflexivity.
  - reflexivity.
  - intros k H1 H2. unfold accessLog0.
    rewrite lookup_insert_ne by done. rewrite lookup_insert_ne by done.
    apply lookup_empty.
  - discriminate.
  - discriminate.
Defined.

(** C2, as the code has it. Outside the websocket family, expanding one
    route-settings element and flattening the result gives
    data_trace_enabled = false and the empty logging level (not "off"),
    for the per-route converters and for the default-route converters
    alike; detailed_metrics_enabled and throttling_rate_limit come back as
    configured, and so does a throttling_burst_limit that fits in 32 bits. *)
Theorem route_settings_gate_roundtrip (r : gmap string value) (k F : string) :
  F ≠ ProtocolTypeWebsocket →
  r !! "route_key" = Some (VString k) →
  ∃ (settings : gmap string RouteSettings) (e e' : gmap string value),
    expandRouteSettings [Some r] F = Some settings
    ∧ flattenRouteSettings settings = [Some e]
    ∧ flattenDefaultRouteSettings (Some (expandDefaultRouteSettings [Some r] F))
      = [Some e']
    ∧ e !! "data_trace_enabled" = Some (VBool false)
    ∧ e !! "logging_level" = Some (VLoggingLevel "")
    ∧ e' !! "data_trace_enabled" = Some (VBool false)
    ∧ e' !! "logging_level" = Some (VString "")
    ∧ e !! "route_key" = Some (VString k)
    ∧ (∀ b, r !! "detailed_metrics_enabled" = Some (VBool b) →
         e !! "detailed_metrics_enabled" = Some (VBool b)
         ∧ e' !! "detailed_metrics_enabled" = Some (VBool b))
    ∧ (∀ f, r !! "throttling_rate_limit" = Some (VFloat64 f) →
         e !! "throttling_rate_limit" = Some (VFloat64 f)
         ∧ e' !! "throttling_rate_limit" = Some (VFloat64 f))
    ∧ (∀ n, r !! "throttling_burst_limit" = Some (VInt n) →
         -2 ^ 31 ≤ n < 2 ^ 31 →
         e !! "throttling_burst_limit" = Some (VInt n)
         ∧ e' !! "throttling_burst_limit" = Some (VInt n)).
Proof.
  intros HF Hk.
  destruct (expandRouteSettings_body_gate r F HF) as [Htrace Hlevel].
  eexists _, _, _.
  split; [by apply expandRouteSettings_single|].
  split; [by apply flattenRouteSettings_single|].
  rewrite expandDefaultRouteSettings_body.
  split; [reflexivity|].
  unfold flattenRouteSettings_entry.
  split_and!.
  - rewrite lookup_insert_eq, Htrace. reflexivity.
  - rewrite !lookup_insert_ne by done. rewrite lookup_insert_eq, Hlevel. reflexivity.
  - rewrite lookup_insert_eq, Htrace. reflexivity.
  - rewrite !lookup_insert_ne by done. rewrite lookup_insert_eq, Hlevel. reflexivity.
  - rewrite !lookup_insert_ne by done. by rewrite lookup_insert_eq.
  - intros b H. rewrite !lookup_insert_ne by done.
    rewrite !lookup_insert_eq, (expand_body_detailed_metrics _ _ _ H). done.
  - intros f H. rewrite !lookup_insert_ne by done.
    rewrite !lookup_insert_eq, (expand_body_rate_limit _ _ _ H). done.
  - intros n H Hn. rewrite !lookup_insert_ne by done.
    rewrite !lookup_insert_eq, (expand_body_burst_limit _ _ _ H). simpl.
    by rewrite int32_of_int_id.
Qed.


Lemma route_settings_gate_roundtrip_witness :
  ∃ (settings : gmap string RouteSettings) (e e' : gmap string value),
    expandRouteSettings [Some routeInfo] "HTTP" = Some settings
    ∧ flattenRouteSettings settings = [Some e]
    ∧ flattenDefaultRouteSettings
        (Some (expandDefaultRouteSettings [Some routeInfo] "HTTP")) = [Some e']
    ∧ e !! "data_trace_enabled" = Some (VBool false)
    ∧ e !! "logging_level" = Some (VLoggingLevel "")
    ∧ e' !! "data_trace_enabled" = Some (VBool false)
    ∧ e' !! "logging_level" = Some (VString "")
    ∧ e !! "route_key" = Some (VString "GET /pets")
    ∧ (∀ b, routeInfo !! "detailed_metrics_enabled" = Some (VBool b) →
         e !! "detailed_metrics_enabled" = Some (VBool b)
         ∧ e' !! "detailed_metrics_enabled" = Some (VBool b))
    ∧ (∀ f, routeInfo !! "throttling_rate_limit" = Some (VFloat64 f) →
         e !! "throttling_rate_limit" = Some (VFloat64 f)
         ∧ e' !! "throttling_rate_limit" = Some (VFloat64 f))
    ∧ (∀ n, routeInfo !! "throttling_burst_limit" = Some (VInt n) →
         -2 ^ 31 ≤ n < 2 ^ 31 →
         e !! "throttling_burst_limit" = Some (VInt n)
         ∧ e' !! "throttling_burst_limit" = Some (VInt n)).
Proof.
  apply (route_settings_gate_roundtrip routeInfo "GET /pets" "HTTP").
  - discriminate.
  - reflexivity.
Defined.

(** C2 as stated fails: for the HTTP family the flattened logging level of
    [routeInfo] is the empty string, which is not "off" in any spelling or
    dynamic type. *)
Lemma route_settings_gate_logging_level_counterexample :
  ∃ (settings : gmap string RouteSettings) (e : gmap string value),
    "HTTP" ≠ ProtocolTypeWebsocket
    ∧ expandRouteSettings [Some routeInfo] "HTTP" = Some settings
    ∧ flattenRouteSettings settings = [Some e]
    ∧ e !! "logging_level" = Some (VLoggingLevel "")
    ∧ e !! "logging_level" ≠ Some (VLoggingLevel "off")
    ∧ e !! "logging_level" ≠ Some (VString "off")
    ∧ e !! "logging_level" ≠ Some (VLoggingLevel LoggingLevelOff)
    ∧ e !! "logging_level" ≠ Some (VString LoggingLevelOff).
Proof.
  eexists _, _.
  split; [discriminate|].
  split; [by apply (expandRouteSettings_single routeInfo "HTTP" "GET /pets")|].
  split; [by apply flattenRouteSettings_single|].
  repeat split; vm_compute; congruence.
Qed.

(** A burst limit beyond 32 bits does not survive the conversion to the
    remote type: 2^32 + 5 comes back as 5. *)
Lemma burst_limit_truncated_example :
  flattenDefaultRouteSettings
    (Some (expandDefaultRouteSettings
             [Some (<["throttling_burst_limit" := VInt 4294967301]> ∅)] "HTTP"))
  = flattenDefaultRouteSettings
      (Some (expandDefaultRouteSettings
               [Some (<["throttling_burst_limit" := VInt 5]> ∅)] "HTTP")).
Proof. reflexivity. Qed.

(** ** The per-route expander on lists with repeated keys *)

Section ExpandLoop.
Variable F : string.
Implicit Types (l : list (gmap string value)) (acc : gmap string RouteSettings).


Lemma expandRouteSettings_loop_app l1 l2 acc :
  expandRouteSettings_loop (Some <$> (l1 ++ l2)) F acc
  = expandRouteSettings_loop (Some <$> l1) F acc
      ≫= expandRouteSettings_loop (Some <$> l2) F.
Proof.
  revert acc. induction l1 as [|v l1 IH]; intros acc; [reflexivity|].
  simpl. destruct (assert_string (v !! "route_key")); [apply IH|reflexivity].
Qed.

Lemma expandRouteSettings_loop_total l acc :
  Forall has_route_key l →
  is_Some (expandRouteSettings_loop (Some <$> l) F acc).
Proof.
  intros Hl. revert acc. induction Hl as [|v l [k Hk] _ IH]; intros acc.
  - by eexists.
  - simpl. rewrite Hk. apply IH.
Qed.

Lemma expandRouteSettings_loop_other l acc settings k :
  Forall (λ v, v !! "route_key" ≠ Some (VString k)) l →
  expandRouteSettings_loop (Some <$> l) F acc = Some settings →
  settings !! k = acc !! k.
Proof.
  intros Hl. revert acc. induction Hl as [|v l Hv _ IH]; intros acc; simpl.
  - by intros [= ->].
  - destruct (v !! "route_key") as [[| | |k'|]|] eqn:Hk'; simpl; try done.
    intros Hloop. rewrite (IH _ Hloop).
    apply lookup_insert_ne. congruence.
Qed.

End ExpandLoop.

Lemma map_to_list_one_entry {A} (m : gmap string A) (k : string) (x : A) :
  m !! k = Some x →
  length (filter (λ kv, kv.1 = k) (map_to_list m)) = 1%nat.
Proof.
  intros Hk.
  rewrite <- (map_to_list_delete m k x Hk).
  rewrite filter_cons_True by done. simpl. f_equal.
  apply length_zero_iff_nil, elem_of_nil_inv. intros [k' v].
  rewrite list_elem_of_filter, elem_of_map_to_list. simpl.
  intros [-> Hv]. by rewrite lookup_delete_eq in Hv.
Qed.

(** C10. When several elements of the input carry the same route key, the
    expander raises no error and its map holds one entry for the key: the
    settings of the element that comes last in the input. *)
Theorem expandRouteSettings_last_wins (l1 l2 : list (gmap string value))
    (m : gmap string value) (k F : string) :
  Forall has_route_key (l1 ++ m :: l2) →
  m !! "route_key" = Some (VString k) →
  Forall (λ v, v !! "route_key" ≠ Some (VString k)) l2 →
  ∃ settings : gmap string RouteSettings,
    expandRouteSettings (Some <$> (l1 ++ m :: l2)) F = Some settings
    ∧ settings !! k = Some (expandRouteSettings_body m F)
    ∧ length (filter (λ kv, kv.1 = k) (map_to_list settings)) = 1%nat.
Proof.
  intros Hwf Hk Hl2.
  destruct (expandRouteSettings_loop_total F _ ∅ Hwf) as [settings Hs].
  exists settings. split; [exact Hs|].
  assert (settings !! k = Some (expandRouteSettings_body m F)) as Hlook.
  { rewrite expandRouteSettings_loop_app in Hs.
    destruct (expandRouteSettings_loop (Some <$> l1) F ∅) as [acc|]; [|done].
    simpl in Hs. rewrite Hk in Hs. simpl in Hs.
    rewrite (expandRouteSettings_loop_other F _ _ _ k Hl2 Hs).
    apply lookup_insert_eq. }
  split; [exact Hlook|]. by eapply map_to_list_one_entry.
Qed.



Lemma expandRouteSettings_last_wins_witness :
  ∃ settings : gmap string RouteSettings,
    expandRouteSettings
      (Some <$> ([routeInfo] ++ routeInfo' :: [routeOther])) "WEBSOCKET" = Some settings
    ∧ settings !! "GET /pets" = Some (expandRouteSettings_body routeInfo' "WEBSOCKET")
    ∧ length (filter (λ kv, kv.1 = "GET /pets") (map_to_list settings)) = 1%nat.
Proof.
  apply (expandRouteSettings_last_wins [routeInfo] [routeOther] routeInfo'
           "GET /pets" "WEBSOCKET").
  - repeat constructor; by eexists.
  - reflexivity.
  - repeat constructor. discriminate.
Defined.

(** ** The variable-map differ *)

Section StageVariables.
Implicit Types (o n add del : gmap string string) (k v : string).

Lemma foldr_insert_union (l : list (string * string)) (base : gmap string string) :
  foldr (λ kv variables, <[kv.1 := kv.2]> variables) base l = list_to_map l ∪ base.
Proof.
  induction l as [|[k v] l IH]; simpl.
  - by rewrite (left_id_L ∅ (∪)).
  - by rewrite IH, insert_union_l.
Qed.

(** The merge order of the source: the entries of [add] are assigned after
    the deletion markers, so an entry of [add] is never shadowed. *)
Lemma mergeStageVariables_lookup add del k :
  mergeStageVariables add del !! k
  = match add !! k with
    | Some v => Some v
    | None => (λ _, "") <$> del !! k
    end.
Proof.
  unfold mergeStageVariables.
  rewrite foldr_insert_union, list_to_map_to_list, lookup_union, lookup_fmap.
  destruct (add !! k), (del !! k); reflexivity.
Qed.

Lemma elem_of_added_changed o n k :
  k ∈ addedKeys o n ∪ changedKeys o n ↔ ∃ v, n !! k = Some v ∧ o !! k ≠ Some v.
Proof.
  unfold addedKeys, changedKeys.
  rewrite elem_of_union, elem_of_difference, elem_of_filter, elem_of_intersection.
  rewrite !elem_of_dom. unfold is_Some.
  destruct (n !! k) as [v|], (o !! k) as [w|]; split.
  - intros [[_ []]|[Hne _]]; [by eexists|]. exists v. split; congruence.
  - intros (? & [= <-] & Hne). right. split; [congruence|eauto].
  - intros _. by exists v.
  - intros _. left. split; [eauto|]. by intros [? ?].
  - intros [[[? ?] _]|[_ [_ [? ?]]]]; done.
  - intros (? & ? & _). done.
  - intros [[[? ?] _]|[_ [[? ?] _]]]; done.
  - intros (? & ? & _). done.
Qed.

Lemma elem_of_removed o n k :
  k ∈ removedKeys o n ↔ is_Some (o !! k) ∧ n !! k = None.
Proof.
  unfold removedKeys.
  by rewrite elem_of_difference, not_elem_of_dom, elem_of_dom.
Qed.

Lemma mergedInstructions_lookup o n k :
  mergedInstructions o n !! k
  = match n !! k with
    | Some v => if decide (o !! k = Some v) then None else Some v
    | None => (λ _, "") <$> o !! k
    end.
Proof.
  unfold mergedInstructions.
  rewrite lookup_union, map_lookup_filter, lookup_gset_to_gmap.
  rewrite (option_guard_decide (k ∈ removedKeys o n)).
  destruct (decide (k ∈ removedKeys o n)) as [Hrem|Hrem];
    rewrite elem_of_removed in Hrem.
  - destruct Hrem as [[w Ho] Hn]. by rewrite Hn, Ho.
  - destruct (n !! k) as [v|] eqn:Hn; simpl.
    + rewrite option_guard_decide.
      destruct (decide (k ∈ addedKeys o n ∪ changedKeys o n)) as [Hadd|Hadd];
        rewrite elem_of_added_changed in Hadd.
      * destruct Hadd as (x & Hx & Hne). rewrite Hn in Hx. simplify_eq.
        by rewrite decide_False.
      * rewrite decide_True; [done|].
        destruct (decide (o !! k = Some v)); [done|]. destruct Hadd. by exists v.
    + destruct (o !! k) as [w|]; [|done]. destruct Hrem. eauto.
Qed.

Lemma DiffStringValueMaps_merge_lookup o n k :
  mergeStageVariables (flex.DiffStringValueMaps o n).1.1
                      (flex.DiffStringValueMaps o n).1.2 !! k
  = match n !! k with
    | Some v => if decide (o !! k = Some v) then None else Some v
    | None => (λ _, "") <$> o !! k
    end.
Proof.
  rewrite mergeStageVariables_lookup. simpl.
  rewrite !map_lookup_filter. simpl.
  destruct (n !! k) as [v|] eqn:Hn, (o !! k) as [w|] eqn:Ho; simpl;
    rewrite ?option_guard_decide, ?Hn, ?Ho;
    repeat (match goal with |- context [decide ?P] => destruct (decide P) end);
    simpl in *; try done; congruence.
Qed.
(** The merged map does not depend on whether the second result also lists
    the changed keys (with their old values): the additions are assigned
    last and overwrite their markers. *)
Lemma mergeStageVariables_changed_in_del o n k :
  mergeStageVariables (flex.DiffStringValueMaps o n).1.1
                      (filter (λ kv, n !! kv.1 ≠ Some kv.2) o) !! k
  = mergedInstructions o n !! k.
Proof.
  rewrite mergeStageVariables_lookup, mergedInstructions_lookup. simpl.
  rewrite !map_lookup_filter. simpl.
  destruct (n !! k) as [v|] eqn:Hn, (o !! k) as [w|] eqn:Ho; simpl;
    rewrite ?option_guard_decide, ?Hn, ?Ho;
    repeat (match goal with |- context [decide ?P] => destruct (decide P) end);
    simpl in *; try done; congruence.
Qed.
End StageVariables.

(** C3. The map that Update submits for a changed variable map is the
    instruction set of the specification: the removed keys with the empty
    string, overlaid with the added and changed keys at their new values;
    a key that the new map gives a new or different value carries that
    value, never a deletion marker. *)
Theorem stage_variables_merge (o n : gmap string string) :
  let '(add, del, _) := flex.DiffStringValueMaps o n in
  mergeStageVariables add del = mergedInstructions o n
  ∧ (∀ k v, n !! k = Some v → o !! k ≠ Some v →
       mergeStageVariables add del !! k = Some v)
  ∧ (∀ k, k ∈ dom o ∖ dom n → mergeStageVariables add del !! k = Some "").
Proof.
  pose proof (DiffStringValueMaps_merge_lookup o n) as Hlook.
  destruct (flex.DiffStringValueMaps o n) as [[add del] unchanged]. simpl in Hlook.
  split_and!.
  - apply map_eq. intros k. by rewrite Hlook, mergedInstructions_lookup.
  - intros k v Hn Ho. rewrite Hlook, Hn. by rewrite decide_False.
  - intros k [[w Ho]%elem_of_dom Hn%not_elem_of_dom]%elem_of_difference.
    by rewrite Hlook, Hn, Ho.
Qed.

Lemma stage_variables_merge_witness :
  mergeStageVariables (flex.DiffStringValueMaps varsOld varsNew).1.1
                      (flex.DiffStringValueMaps varsOld varsNew).1.2
  = <["a" := ""]> (<["b" := "3"]> (<["c" := "4"]> ∅))
  ∧ mergeStageVariables (flex.DiffStringValueMaps varsOld varsNew).1.1
                        (flex.DiffStringValueMaps varsOld varsNew).1.2 !! "b" = Some "3"
  ∧ mergeStageVariables (flex.DiffStringValueMaps varsOld varsNew).1.1
                        (flex.DiffStringValueMaps varsOld varsNew).1.2 !! "a" = Some "".
Proof.
  pose proof (stage_variables_merge varsOld varsNew) as H.
  destruct (flex.DiffStringValueMaps varsOld varsNew) as [[add del] unchanged] eqn:Hd.
  destruct H as (Heq & Hnew & Hrem). simpl.
  split_and!.
  - rewrite Heq. apply map_eq. intros k.
    rewrite mergedInstructions_lookup. unfold varsOld, varsNew.
    destruct (decide (k = "a")) as [->|?]; [reflexivity|].
    destruct (decide (k = "b")) as [->|?]; [reflexivity|].
    destruct (decide (k = "c")) as [->|?]; [reflexivity|].
    by rewrite !lookup_insert_ne, !lookup_empty by done.
  - apply Hnew; [reflexivity|discriminate].
  - apply Hrem. apply elem_of_difference. split.
    + apply elem_of_dom. by eexists.
    + apply not_elem_of_dom. reflexivity.
Defined.

(** ** The lifecycle callbacks *)


Section Read.
Variable meta : AWSClient.
Implicit Types (s : St).

(** Read returns, and calls the remote API once for the stage and at most
    once more for the owning API. *)
Lemma resourceStageRead_log s :
  ∃ diags s' rest,
    resourceStageRead meta s = Some (diags, s')
    ∧ log s' = log s ++ CallGetStage (as_string (Get (rd s) "api_id")) (Id (rd s)) :: rest
    ∧ (rest = [] ∨ rest = [CallGetApi (as_string (Get (rd s) "api_id"))]).
Proof.
  destruct s as [d calls tags]. run_callback.
  destruct (GetStage _ _ _ _) as [resp|err]; cbn [err_of].
  - change (IsA_NotFoundException None) with false. cbn [andb]. run_callback.
    destruct (GetApi _ _ _) as [apiOutput|err].
    + repeat (match goal with
              |- context [bool_decide ?P] => destruct (bool_decide P)
              end);
        run_callback; eexists _, _, _; (split; [reflexivity|]); run_callback;
        rewrite <- app_assoc; (split; [reflexivity|]); by right.
    + eexists _, _, _. split; [reflexivity|]. run_callback.
      rewrite <- app_assoc. split; [reflexivity|]. by right.
  - destruct (IsA_NotFoundException (Some err) && negb (IsNewResource d));
      run_callback; eexists _, _, _; (split; [reflexivity|]); run_callback;
      (split; [reflexivity|]); by left.
Qed.
End Read.

(** C7. When the fetch of Read fails: on not-found for a resource that is
    not new, Read empties the id and reports nothing; on any other failure
    it reports the read error and leaves the store as it was. *)
Theorem read_fetch_failure (meta : AWSClient) (s : St) (err : error) :
  GetStage (APIGatewayV2Client meta) (log s)
    (as_string (Get (rd s) "api_id")) (Id (rd s)) = Err err →
  ∃ diags s',
    resourceStageRead meta s = Some (diags, s')
    ∧ if IsA_NotFoundException (Some err) && negb (IsNewResource (rd s))
      then diags = [] ∧ Id (rd s') = ""
      else diags = ["reading API Gateway v2 stage (" +:+ Id (rd s) +:+ "): " +:+ Error err]
           ∧ HasError diags = true ∧ rd s' = rd s.
Proof.
  destruct s as [d calls tags]. cbn [rd log]. intros Hget.
  run_callback. rewrite Hget. cbn [err_of].
  destruct (IsA_NotFoundException (Some err) && negb (IsNewResource d));
    run_callback; eexists _, _; (split; [reflexivity|]); auto.
Qed.

Lemma read_fetch_failure_witness :
  (∃ diags s',
     resourceStageRead (metaOf connGone) (stateOf (stageData "prod" [] [])) = Some (diags, s')
     ∧ diags = [] ∧ Id (rd s') = "")
  ∧ (∃ diags s',
       resourceStageRead (metaOf connDown) (stateOf (stageData "prod" [] []))
       = Some (diags, s')
       ∧ diags = ["reading API Gateway v2 stage (prod): TooManyRequestsException: Rate exceeded"]
       ∧ HasError diags = true
       ∧ rd s' = stageData "prod" [] []).
Proof.
  split.
  - apply (read_fetch_failure (metaOf connGone) (stateOf (stageData "prod" [] []))
             (NotFoundException "NotFoundException: Invalid stage identifier specified")).
    reflexivity.
  - apply (read_fetch_failure (metaOf connDown) (stateOf (stageData "prod" [] []))
             (OtherError "TooManyRequestsException: Rate exceeded")).
    reflexivity.
Defined.

(** C8. On a successful Read the invoke URL is the wss URL with the stage
    name for a WEBSOCKET API; for an HTTP API it is the https URL ending in
    "/" when the stage name is "$default", and the https URL with the stage
    name appended otherwise. *)
Theorem read_invoke_url (meta : AWSClient) (s : St)
    (resp : GetStageOutput.t) (apiOutput : GetApiOutput.t) :
  let apiId := as_string (Get (rd s) "api_id") in
  let region := Region meta in
  let stageName := aws.ToString (GetStageOutput.StageName resp) in
  GetStage (APIGatewayV2Client meta) (log s) apiId (Id (rd s)) = Ok resp →
  GetApi (APIGatewayV2Client meta)
    (log s ++ [CallGetStage apiId (Id (rd s))]) apiId = Ok apiOutput →
  ∃ s',
    resourceStageRead meta s = Some ([], s')
    ∧ (GetApiOutput.ProtocolType apiOutput = ProtocolTypeWebsocket →
       Get (rd s') "invoke_url"
       = AString ("wss://" +:+ apiId +:+ ".execute-api." +:+ region
                  +:+ ".amazonaws.com/" +:+ stageName))
    ∧ (GetApiOutput.ProtocolType apiOutput = ProtocolTypeHttp →
       stageName = defaultStageName →
       Get (rd s') "invoke_url"
       = AString ("https://" +:+ apiId +:+ ".execute-api." +:+ region
                  +:+ ".amazonaws.com/"))
    ∧ (GetApiOutput.ProtocolType apiOutput = ProtocolTypeHttp →
       stageName ≠ defaultStageName →
       Get (rd s') "invoke_url"
       = AString ("https://" +:+ apiId +:+ ".execute-api." +:+ region
                  +:+ ".amazonaws.com/" +:+ stageName)).
Proof.
  destruct s as [d calls tags]. cbv zeta. cbn [rd log]. intros Hstage Hapi.
  run_callback. rewrite Hstage. cbn [err_of].
  change (IsA_NotFoundException None) with false. cbn [andb]. run_callback.
  rewrite Hapi.
  assert (∀ v d', Get (d_Set "invoke_url" v d') "invoke_url" = v) as Hget.
  { intros v d'. unfold Get, d_Set. cbn [set_level]. by rewrite lookup_insert_eq. }
  destruct (bool_decide_reflect
              (GetApiOutput.ProtocolType apiOutput = ProtocolTypeWebsocket)) as [Hws|Hws].
  { run_callback. eexists. split; [reflexivity|]. cbn [rd].
    split_and!.
    - intros _. by rewrite Hget.
    - intros Hhttp. rewrite Hws in Hhttp. discriminate.
    - intros Hhttp. rewrite Hws in Hhttp. discriminate. }
  destruct (bool_decide_reflect
              (GetApiOutput.ProtocolType apiOutput = ProtocolTypeHttp)) as [Hhttp|Hhttp].
  - destruct (bool_decide_reflect
                (aws.ToString (GetStageOutput.StageName resp) = defaultStageName))
      as [Hdef|Hdef];
      run_callback; (eexists; split; [reflexivity|]); cbn [rd]; split_and!;
      intros; try done; by rewrite Hget.
  - run_callback. eexists. split; [reflexivity|]. split_and!; done.
Qed.

Lemma read_invoke_url_witness :
  (∃ s',
    resourceStageRead (metaOf (connOk "WEBSOCKET" stageProd))
      (stateOf (stageData "prod" [] [])) = Some ([], s')
    ∧ Get (rd s') "invoke_url"
      = AString "wss://abc123.execute-api.us-east-1.amazonaws.com/prod")
  ∧ (∃ s',
      resourceStageRead (metaOf (connOk "HTTP" stageDefault))
        (stateOf (stageData "$default" [] [])) = Some ([], s')
      ∧ Get (rd s') "invoke_url"
        = AString "https://abc123.execute-api.us-east-1.amazonaws.com/")
  ∧ (∃ s',
      resourceStageRead (metaOf (connOk "HTTP" stageProd))
        (stateOf (stageData "prod" [] [])) = Some ([], s')
      ∧ Get (rd s') "invoke_url"
        = AString "https://abc123.execute-api.us-east-1.amazonaws.com/prod").
Proof.
  split_and!.
  - destruct (read_invoke_url (metaOf (connOk "WEBSOCKET" stageProd))
                (stateOf (stageData "prod" [] [])) stageProd
                {| GetApiOutput.ProtocolType := "WEBSOCKET" |}
                eq_refl eq_refl) as (s' & Hread & Hws & _).
    exists s'. split; [exact Hread|]. exact (Hws eq_refl).
  - destruct (read_invoke_url (metaOf (connOk "HTTP" stageDefault))
                (stateOf (stageData "$default" [] [])) stageDefault
                {| GetApiOutput.ProtocolType := "HTTP" |}
                eq_refl eq_refl) as (s' & Hread & _ & Hdef & _).
    exists s'. split; [exact Hread|]. exact (Hdef eq_refl eq_refl).
  - destruct (read_invoke_url (metaOf (connOk "HTTP" stageProd))
                (stateOf (stageData "prod" [] [])) stageProd
                {| GetApiOutput.ProtocolType := "HTTP" |}
                eq_refl eq_refl) as (s' & Hread & _ & _ & Hne).
    exists s'. split; [exact Hread|]. apply Hne; [reflexivity|discriminate].
Defined.

(** C9. Delete reports nothing when the remote delete succeeds or answers
    not-found, and reports the delete error on any other failure. *)
Theorem delete_not_found_is_success (meta : AWSClient) (s : St) :
  let apiId := as_string (Get (rd s) "api_id") in
  ∃ s',
    log s' = log s ++ [CallDeleteStage apiId (Id (rd s))]
    ∧ rd s' = rd s
    ∧ match DeleteStage (APIGatewayV2Client meta) (log s) apiId (Id (rd s)) with
      | None | Some (NotFoundException _) =>
        resourceStageDelete meta s = Some ([], s')
      | Some (OtherError msg) =>
        resourceStageDelete meta s
        = Some (["deleting API Gateway v2 stage (" +:+ Id (rd s) +:+ "): " +:+ msg], s')
      end.
Proof.
  destruct s as [d calls tags]. cbv zeta. cbn [rd log].
  eexists {| rd := d; log := _; tagsOut := tags |}. cbn [rd log].
  split; [reflexivity|]. split; [reflexivity|].
  run_callback.
  by destruct (DeleteStage _ _ _ _) as [[msg|msg]|].
Qed.

(** ** Import *)

Lemma Split_length (s : string) (sep : Ascii.ascii) :
  length (strings.Split s sep) = S (strings.Count s sep).
Proof.
  induction s as [|c s IH]; simpl; [reflexivity|].
  destruct (Ascii.eqb c sep); simpl.
  - by rewrite IH.
  - destruct (strings.Split s sep); simpl in *; [discriminate|exact IH].
Qed.

(** C4, as the code has it. Import fails with the wrong-format error, before
    any remote call, exactly when the identifier does not split on "/" into
    two parts, that is unless it holds exactly one "/"; it does not look
    at whether the parts are empty. Otherwise it fetches the stage named by
    the second part in the API named by the first, and on success takes
    them as the id and the api_id. *)
Theorem import_id_format (meta : AWSClient) (s : St) :
  let id := Id (rd s) in
  let parts := strings.Split id "/" in
  (length parts = 2%nat ↔ strings.Count id "/" = 1%nat)
  ∧ (length parts ≠ 2%nat →
     resourceStageImport meta s = Some (([], Some (MalformedImportID id)), s))
  ∧ (length parts = 2%nat →
     ∃ res s',
       resourceStageImport meta s = Some (res, s')
       ∧ log s' = log s ++ [CallGetStage (nth 0 parts "") (nth 1 parts "")]
       ∧ ∀ resp,
           GetStage (APIGatewayV2Client meta) (log s) (nth 0 parts "") (nth 1 parts "")
           = Ok resp →
           aws.ToBool (GetStageOutput.ApiGatewayManaged resp) = false →
           res = ([rd s'], None)
           ∧ Id (rd s') = nth 1 parts ""
           ∧ Get (rd s') "api_id" = AString (nth 0 parts "")).
Proof.
  destruct s as [d calls tags]. cbv zeta. cbn [rd log].
  split_and!.
  - rewrite Split_length. lia.
  - intros Hlen. run_callback. by rewrite bool_decide_eq_true_2.
  - intros Hlen. run_callback. rewrite bool_decide_eq_false_2 by (by intros ?).
    destruct (GetStage _ _ _ _) as [resp|err].
    + destruct (aws.ToBool (GetStageOutput.ApiGatewayManaged resp)) eqn:Hmanaged;
        run_callback; eexists _, _; (split; [reflexivity|]); cbn [rd log];
        (split; [reflexivity|]); intros resp' [= <-] Hm; [congruence|].
      split_and!; [reflexivity..|].
      unfold Get, d_Set, SetId. cbn [set_level]. by rewrite lookup_insert_eq.
    + eexists _, _. split; [reflexivity|]. cbn [log]. split; [reflexivity|].
      intros resp [=].
Qed.

(** The identifiers of the specification: "abc123/prod" is taken apart into
    API "abc123" and stage "prod"; "abc123" and "abc123/prod/extra" are
    refused. *)
Lemma import_id_format_witness :
  (∃ res s',
     resourceStageImport (metaOf (connOk "HTTP" stageProd))
       (stateOf (stageData "abc123/prod" [] [])) = Some (res, s')
     ∧ log s' = [CallGetStage "abc123" "prod"]
     ∧ res = ([rd s'], None)
     ∧ Id (rd s') = "prod"
     ∧ Get (rd s') "api_id" = AString "abc123")
  ∧ resourceStageImport (metaOf (connOk "HTTP" stageProd))
      (stateOf (stageData "abc123" [] []))
    = Some (([], Some (MalformedImportID "abc123")), stateOf (stageData "abc123" [] []))
  ∧ resourceStageImport (metaOf (connOk "HTTP" stageProd))
      (stateOf (stageData "abc123/prod/extra" [] []))
    = Some (([], Some (MalformedImportID "abc123/prod/extra")),
            stateOf (stageData "abc123/prod/extra" [] [])).
Proof.
  split_and!.
  - destruct (import_id_format (metaOf (connOk "HTTP" stageProd))
                (stateOf (stageData "abc123/prod" [] []))) as (_ & _ & Hok).
    destruct (Hok eq_refl) as (res & s' & Himport & Hlog & Hres).
    exists res, s'. split; [exact Himport|]. split; [exact Hlog|].
    exact (Hres stageProd eq_refl eq_refl).
  - destruct (import_id_format (metaOf (connOk "HTTP" stageProd))
                (stateOf (stageData "abc123" [] []))) as (_ & Hbad & _).
    apply Hbad. vm_compute. discriminate.
  - destruct (import_id_format (metaOf (connOk "HTTP" stageProd))
                (stateOf (stageData "abc123/prod/extra" [] []))) as (_ & Hbad & _).
    apply Hbad. vm_compute. discriminate.
Defined.

(** C4 as stated fails: "abc123/" does not split into two non-empty parts
    (the second part is empty), yet Import does not refuse it: it goes on to
    fetch the stage with the empty name and, when the remote side answers,
    succeeds with the empty string as the id. *)
Lemma import_empty_stage_name_counterexample :
  strings.Split "abc123/" "/" = ["abc123"; ""]
  ∧ ∃ d' s',
      resourceStageImport (metaOf (connOk "HTTP" stageProd))
        (stateOf (stageData "abc123/" [] [])) = Some (([d'], None), s')
      ∧ Id d' = ""
      ∧ log s' = [CallGetStage "abc123" ""].
Proof.
  split; [reflexivity|].
  exists (d_Set "api_id" (AString "abc123") (SetId "" (stageData "abc123/" [] []))).
  exists {| rd := d_Set "api_id" (AString "abc123") (SetId "" (stageData "abc123/" [] []));
            log := [CallGetStage "abc123" ""]; tagsOut := None |}.
  split; [vm_compute; reflexivity|]. split; reflexivity.
Qed.

(** ** Update *)


Section Update.
Variable meta : AWSClient.
Let conn := APIGatewayV2Client meta.

Lemma HasChanges_of_HasChange (d : ResourceData) (key : string) (keys : list string) :
  key ∈ keys → HasChange d key = true → HasChanges d keys = true.
Proof.
  intros Hin Hkey. unfold HasChanges. apply existsb_exists.
  exists key. split; [by apply list_elem_of_In|exact Hkey].
Qed.

(** When no remote delete fails hard, the loop runs to its end and has
    issued one delete per element, in order. *)
Lemma deleteRouteSettings_loop_tolerated (diags : Diagnostics)
    (vs : list (gmap string value)) (d : ResourceData) (calls : list Call)
    (tags : option (gmap string string)) :
  deletes_tolerated conn →
  Forall has_route_key vs →
  deleteRouteSettings_loop meta diags vs {| rd := d; log := calls; tagsOut := tags |}
  = Some (None,
          {| rd := d;
             log := calls ++ ((λ k, CallDeleteRouteSettings
                                      (as_string (Get d "api_id")) k (Id d))
                              <$> omap route_key_of vs);
             tagsOut := tags |}).
Proof.
  intros Htol Hvs. revert calls.
  induction Hvs as [|v vs [k Hk] _ IH]; intros calls.
  - cbn [deleteRouteSettings_loop omap list_omap fmap list_fmap]. run_update.
    by rewrite app_nil_r.
  - cbn [deleteRouteSettings_loop]. unfold route_key_of in *.
    cbn [omap list_omap]. rewrite Hk. cbn [fmap list_fmap]. run_update.
    destruct (Htol calls (as_string (Get d "api_id")) k (Id d)) as [Hnone|Hnf].
    + fold conn. rewrite Hnone. cbn [IsA_NotFoundException].
      rewrite IH. by rewrite <- app_assoc.
    + fold conn. rewrite Hnf. rewrite IH. by rewrite <- app_assoc.
Qed.
End Update.

(** C6. When no field of the allow-list differs between the prior state and
    the plan, Update is one Read and nothing more: it makes no lookup of
    the owning API before the Read, no update call and no per-key delete. *)
Theorem update_without_changes (meta : AWSClient) (s : St) :
  HasChanges (rd s) stageUpdateKeys = false →
  ∃ diags s' calls,
    resourceStageUpdate meta s = Some (diags, s')
    ∧ resourceStageRead meta s = Some (diags, s')
    ∧ log s' = log s ++ calls
    ∧ head calls = Some (CallGetStage (as_string (Get (rd s) "api_id")) (Id (rd s)))
    ∧ length (List.filter is_GetStage calls) = 1%nat
    ∧ length (List.filter is_UpdateStage calls) = 0%nat
    ∧ length (List.filter is_DeleteRouteSettings calls) = 0%nat
    ∧ (length (List.filter is_GetApi calls) ≤ 1)%nat.
Proof.
  intros Hsame.
  destruct (resourceStageRead_log meta s) as (diags & s' & rest & Hread & Hlog & Hrest).
  exists diags, s', (CallGetStage (as_string (Get (rd s) "api_id")) (Id (rd s)) :: rest).
  split.
  { destruct s as [d calls tags]. cbn [rd] in Hsame. run_update.
    rewrite Hsame. run_update. by rewrite Hread. }
  split; [exact Hread|]. split; [exact Hlog|]. split; [reflexivity|].
  destruct Hrest as [-> | ->]; cbn; split_and!; lia.
Qed.

Lemma update_without_changes_witness :
  ∃ diags s' calls,
    resourceStageUpdate (metaOf (connOk "HTTP" stageProd))
      (stateOf (stageData "prod" [routeB] [routeB])) = Some (diags, s')
    ∧ resourceStageRead (metaOf (connOk "HTTP" stageProd))
        (stateOf (stageData "prod" [routeB] [routeB])) = Some (diags, s')
    ∧ log s' = [] ++ calls
    ∧ head calls = Some (CallGetStage "abc123" "prod")
    ∧ length (List.filter is_GetStage calls) = 1%nat
    ∧ length (List.filter is_UpdateStage calls) = 0%nat
    ∧ length (List.filter is_DeleteRouteSettings calls) = 0%nat
    ∧ (length (List.filter is_GetApi calls) ≤ 1)%nat.
Proof.
  apply (update_without_changes (metaOf (connOk "HTTP" stageProd))
           (stateOf (stageData "prod" [routeB] [routeB]))).
  vm_compute. reflexivity.
Defined.

Section RouteDiffer.
Implicit Types (o n : list (gmap string value)) (k : string).

Lemma elem_of_Difference o n (v : gmap string value) :
  v ∈ SchemaSet.Difference o n ↔ v ∈ o ∧ v ∉ n.
Proof.
  unfold SchemaSet.Difference, SchemaSet.Contains.
  rewrite list_elem_of_In, filter_In, <- list_elem_of_In.
  rewrite negb_true_iff, bool_decide_eq_false. tauto.
Qed.

Lemma elem_of_route_keys (l : list (gmap string value)) k :
  k ∈ omap route_key_of l ↔ ∃ v, v ∈ l ∧ v !! "route_key" = Some (VString k).
Proof.
  rewrite list_elem_of_omap. unfold route_key_of, assert_string.
  split; intros (v & Hv & Hk); exists v; (split; [exact Hv|]).
  - by repeat case_match; simplify_eq.
  - by rewrite Hk.
Qed.

(** A delete is issued for a key exactly when some old element with that
    key is not, as a whole, an element of the new set. *)
Lemma elem_of_routeKeysToDelete o n k :
  k ∈ routeKeysToDelete o n
  ↔ ∃ v, v ∈ o ∧ (v ∉ n) ∧ v !! "route_key" = Some (VString k).
Proof.
  unfold routeKeysToDelete, SchemaSet.List. rewrite elem_of_route_keys.
  split; intros (v & Hv & Hk); exists v.
  - apply elem_of_Difference in Hv. tauto.
  - split; [apply elem_of_Difference|]; tauto.
Qed.

(** Every key that is gone from the new set is deleted. *)
Lemma removed_key_deleted o n k :
  k ∈ omap route_key_of o → (k ∉ omap route_key_of n) → k ∈ routeKeysToDelete o n.
Proof.
  rewrite elem_of_routeKeysToDelete, !elem_of_route_keys.
  intros (v & Hv & Hk) Hn. exists v. split; [done|]. split; [|done].
  intros Hvn. apply Hn. by exists v.
Qed.
End RouteDiffer.

(** C1, as the code has it. For a changed route-override set, with the
    owning API found and no per-key delete failing hard, Update looks up
    the API, issues one delete per element of the old set that is not an
    element of the new set (so for every key that is gone from the new set,
    and also for a key whose settings changed), and then one update call
    whose route settings are the whole new set expanded; nothing after that
    call deletes or updates. *)
Theorem update_route_settings_differ (meta : AWSClient) (s : St)
    (apiOutput : GetApiOutput.t) (o n : list (gmap string value)) :
  let d := rd s in
  let apiId := as_string (Get d "api_id") in
  HasChange d "route_settings" = true →
  GetChange d "route_settings" = (ASet o, ASet n) →
  GetApi (APIGatewayV2Client meta) (log s) apiId = Ok apiOutput →
  deletes_tolerated (APIGatewayV2Client meta) →
  Forall has_route_key o →
  Forall has_route_key n →
  ∃ diags s' req settings rest,
    resourceStageUpdate meta s = Some (diags, s')
    ∧ log s' = log s
               ++ CallGetApi apiId
                  :: ((λ k, CallDeleteRouteSettings apiId k (Id d))
                      <$> routeKeysToDelete o n)
               ++ CallUpdateStage req :: rest
    ∧ Forall (λ c, is_DeleteRouteSettings c = false ∧ is_UpdateStage c = false) rest
    ∧ expandRouteSettings (Some <$> n) (GetApiOutput.ProtocolType apiOutput)
      = Some settings
    ∧ UpdateStageInput.RouteSettings req = Some settings
    ∧ (∀ k, k ∈ routeKeysToDelete o n
            ↔ ∃ v, v ∈ o ∧ (v ∉ n) ∧ v !! "route_key" = Some (VString k))
    ∧ (∀ k, k ∈ omap route_key_of o → (k ∉ omap route_key_of n) →
            k ∈ routeKeysToDelete o n).
Proof.
  destruct s as [d calls tags]. cbv zeta. cbn [rd log].
  intros Hchanged Hchange Hapi Htol Ho Hn.
  destruct (expandRouteSettings_loop_total (GetApiOutput.ProtocolType apiOutput) n ∅ Hn)
    as [settings Hsettings].
  assert (Forall has_route_key (SchemaSet.List (SchemaSet.Difference o n))) as Hdiff.
  { apply Forall_forall. intros v [Hv _]%elem_of_Difference.
    by apply (proj1 (Forall_forall _ _) Ho). }
  run_update.
  rewrite (HasChanges_of_HasChange d "route_settings") by (done || set_solver).
  run_update. rewrite Hapi, Hchanged, Hchange. cbn [as_set].
  rewrite (deleteRouteSettings_loop_tolerated meta [] _ d _ tags Htol Hdiff).
  unfold expandRouteSettings, SchemaSet.List. rewrite Hsettings. run_update.
  assert (∀ c f r,
            UpdateStageInput.RouteSettings
              (when (A:=UpdateStageInput.t) c
                 (let '(vo, vn) := GetChange d "stage_variables" in
                  let '(add, del, _) := flex.DiffStringValueMaps (as_map vo) (as_map vn) in
                  UpdateStageInput.set_StageVariables (f add del))
                 (UpdateStageInput.set_RouteSettings (Some settings) r))
            = Some settings) as Hreq.
  { intros c f r. unfold when. destruct c; [|reflexivity].
    destruct (GetChange d "stage_variables") as [vo vn].
    by destruct (flex.DiffStringValueMaps _ _) as [[add del] unchanged]. }
  destruct (UpdateStage _ _ _) as [err|].
  - eexists _, _, _, settings, []. split; [reflexivity|]. cbn [log].
    split; [rewrite <- !app_assoc; reflexivity|].
    split_and!; [by constructor|reflexivity|apply Hreq|
                 apply elem_of_routeKeysToDelete|apply removed_key_deleted].
  - match goal with
    | |- context [resourceStageRead meta ?st] =>
      destruct (resourceStageRead_log meta st) as (diags & s' & rest & Hread & Hlog & Hrest)
    end.
    rewrite Hread. cbn [rd log] in Hlog.
    eexists _, s', _, settings, (_ :: rest). split; [reflexivity|].
    split; [etrans; [exact Hlog|]; rewrite <- !app_assoc; reflexivity|].
    split_and!; [|reflexivity|apply Hreq|
                 apply elem_of_routeKeysToDelete|apply removed_key_deleted].
    constructor; [done|]. destruct Hrest as [-> | ->]; repeat constructor.
Qed.

(** The example of the specification: from the overrides of A and B to those
    of B and C, one delete for A, then the update carrying B and C. *)
Lemma update_route_settings_differ_witness :
  routeKeysToDelete [routeA 1; routeB] [routeB; routeC] = ["A"]
  ∧ ∃ diags s' req rest,
      resourceStageUpdate (metaOf (connOk "HTTP" stageProd))
        (stateOf (stageData "prod" [routeA 1; routeB] [routeB; routeC]))
      = Some (diags, s')
      ∧ log s' = CallGetApi "abc123"
                 :: CallDeleteRouteSettings "abc123" "A" "prod"
                 :: CallUpdateStage req :: rest
      ∧ Forall (λ c, is_DeleteRouteSettings c = false ∧ is_UpdateStage c = false) rest
      ∧ UpdateStageInput.RouteSettings req
        = expandRouteSettings (Some <$> [routeB; routeC]) "HTTP".
Proof.
  split; [vm_compute; reflexivity|].
  destruct (update_route_settings_differ (metaOf (connOk "HTTP" stageProd))
              (stateOf (stageData "prod" [routeA 1; routeB] [routeB; routeC]))
              {| GetApiOutput.ProtocolType := "HTTP" |}
              [routeA 1; routeB] [routeB; routeC])
    as (diags & s' & req & settings & rest & Hupd & Hlog & Hrest & Hexp & Hreq & _).
  - vm_compute. reflexivity.
  - vm_compute. reflexivity.
  - reflexivity.
  - intros calls ApiId RouteKey StageName. left. reflexivity.
  - repeat constructor; by eexists.
  - repeat constructor; by eexists.
  - exists diags, s', req, rest.
    split; [exact Hupd|]. split; [exact Hlog|]. split; [exact Hrest|].
    by rewrite Hreq, <- Hexp.
Defined.

(** C1 as stated fails: when the override of route A changes and stays,
    A is in the key sets of both the old and the new collection, so the
    difference of the key sets is empty; yet Update issues a delete for A. *)
Lemma update_deletes_changed_route_counterexample :
  omap route_key_of [routeA 1; routeB] = ["A"; "B"]
  ∧ omap route_key_of [routeA 2; routeB] = ["A"; "B"]
  ∧ (λ r, List.filter is_DeleteRouteSettings (log r.2))
      <$> resourceStageUpdate (metaOf (connOk "HTTP" stageProd))
            (stateOf (stageData "prod" [routeA 1; routeB] [routeA 2; routeB]))
    = Some [CallDeleteRouteSettings "abc123" "A" "prod"].
Proof. split_and!; vm_compute; reflexivity. Qed.

(** * Further properties of the converters *)

Section AccessLog.
Implicit Types (m : gmap string value) (a : AccessLogSettings).

(** X1. A field of the access-log request is present exactly when the first
    element of the configuration holds it as a non-empty string; an empty
    string, a value of another type or a missing key leave it out, and the
    elements after the first are not read. *)
Theorem expandAccessLogSettings_field_iff m (rest : ifaceList) (v : string) :
  (DestinationArn (expandAccessLogSettings (Some m :: rest)) = Some v
   ↔ m !! "destination_arn" = Some (VString v) ∧ v ≠ "")
  ∧ (Format (expandAccessLogSettings (Some m :: rest)) = Some v
     ↔ m !! "format" = Some (VString v) ∧ v ≠ "").
Proof.
  unfold expandAccessLogSettings.
  destruct (m !! "destination_arn") as [[| | |dst|]|] eqn:Hd;
    destruct (m !! "format") as [[| | |fmt|]|] eqn:Hf;
    cbn [assert_string];
    repeat (match goal with |- context [bool_decide ?P] =>
              destruct (bool_decide_reflect P) end);
    cbn [DestinationArn Format]; split; split;
    try (intros [= <-]); try (intros [[= <-] ?]); try done; naive_solver.
Qed.

(** X2. Flattening a remote access-log record and expanding the result
    gives the record back, unless a field of the record is present and
    empty (such a field comes back absent). *)
Theorem expand_flatten_AccessLogSettings a :
  DestinationArn a ≠ Some "" →
  Format a ≠ Some "" →
  expandAccessLogSettings (flattenAccessLogSettings (Some a)) = a.
Proof.
  destruct a as [[dst|] [fmt|]]; cbn [DestinationArn Format]; intros Hd Hf;
    unfold flattenAccessLogSettings, expandAccessLogSettings;
    cbn [DestinationArn Format aws.ToString default];
    rewrite lookup_insert_eq, lookup_insert_ne, lookup_insert_eq by done;
    cbn [assert_string];
    rewrite ?(bool_decide_eq_true_2 (dst ≠ "")) by congruence;
    rewrite ?(bool_decide_eq_true_2 (fmt ≠ "")) by congruence;
    rewrite ?(bool_decide_eq_false_2 ("" ≠ "")) by (by intros ?);
    reflexivity.
Qed.
End AccessLog.

Lemma expand_flatten_AccessLogSettings_witness :
  expandAccessLogSettings (flattenAccessLogSettings (Some accessLogRecord))
  = accessLogRecord.
Proof.
  apply (expand_flatten_AccessLogSettings accessLogRecord); discriminate.
Defined.

Lemma expandAccessLogSettings_field_iff_witness :
  DestinationArn (expandAccessLogSettings [Some accessLog0])
  = Some "arn:aws:logs:us-east-1:123456789012:log-group:stage"
  ∧ Format (expandAccessLogSettings [Some (<["format" := VString ""]> ∅)]) ≠ Some "".
Proof.
  split.
  - apply (expandAccessLogSettings_field_iff accessLog0 []
             "arn:aws:logs:us-east-1:123456789012:log-group:stage").
    split; [reflexivity|discriminate].
  - intros H.
    apply (expandAccessLogSettings_field_iff (<["format" := VString ""]> ∅) [] "") in H.
    by destruct H as [_ H].
Defined.

Section DefaultRoute.
Implicit Types (r : gmap string value) (F : string).

Lemma int32_of_int_idemp (v : Z) : int32_of_int (int32_of_int v) = int32_of_int v.
Proof.
  apply int32_of_int_id. unfold int32_of_int.
  pose proof (Z.mod_pos_bound (v + 2 ^ 31) (2 ^ 32)). lia.
Qed.

(** The five fields of the request, read off an element of the store. *)
Lemma expandDefaultRouteSettings_typed r F (trace metrics : bool) (level : string)
    (burst : Z) (rate : float64) :
  r !! "data_trace_enabled" = Some (VBool trace) →
  r !! "detailed_metrics_enabled" = Some (VBool metrics) →
  r !! "logging_level" = Some (VString level) →
  r !! "throttling_burst_limit" = Some (VInt burst) →
  r !! "throttling_rate_limit" = Some (VFloat64 rate) →
  expandDefaultRouteSettings [Some r] F
  = {| DataTraceEnabled :=
         if bool_decide (F = ProtocolTypeWebsocket) then Some trace else None;
       DetailedMetricsEnabled := Some metrics;
       LoggingLevel :=
         if bool_decide (F = ProtocolTypeWebsocket) then level else "";
       ThrottlingBurstLimit := Some (int32_of_int burst);
       ThrottlingRateLimit := Some rate |}.
Proof.
  intros Ht Hm Hl Hb Hr. unfold expandDefaultRouteSettings.
  rewrite Ht, Hm, Hl, Hb, Hr. cbn [assert_bool assert_string assert_int assert_float64].
  destruct (bool_decide (F = ProtocolTypeWebsocket));
    destruct (bool_decide_reflect (level ≠ "")) as [Hne|Heq]; cbn [andb];
    try reflexivity.
  destruct (decide (level = "")) as [->|]; [reflexivity|done].
Qed.

(** X3. For a WEBSOCKET API the default-route block survives the round trip
    through the request: expanding a block that holds exactly the five
    fields, with a burst limit that fits in 32 bits, and flattening the
    result gives the block back. *)
Theorem default_route_settings_roundtrip_websocket r (trace metrics : bool)
    (level : string) (burst : Z) (rate : float64) :
  r !! "data_trace_enabled" = Some (VBool trace) →
  r !! "detailed_metrics_enabled" = Some (VBool metrics) →
  r !! "logging_level" = Some (VString level) →
  r !! "throttling_burst_limit" = Some (VInt burst) →
  r !! "throttling_rate_limit" = Some (VFloat64 rate) →
  (∀ k, k ∉ ["data_trace_enabled"; "detailed_metrics_enabled"; "logging_level";
             "throttling_burst_limit"; "throttling_rate_limit"] → r !! k = None) →
  in_int32 burst →
  flattenDefaultRouteSettings
    (Some (expandDefaultRouteSettings [Some r] ProtocolTypeWebsocket)) = [Some r].
Proof.
  intros Ht Hm Hl Hb Hr Hrest Hrange.
  rewrite (expandDefaultRouteSettings_typed r _ _ _ _ _ _ Ht Hm Hl Hb Hr).
  rewrite bool_decide_eq_true_2 by done.
  unfold flattenDefaultRouteSettings.
  cbn [DataTraceEnabled DetailedMetricsEnabled LoggingLevel ThrottlingBurstLimit
       ThrottlingRateLimit aws.ToBool aws.ToInt32 aws.ToFloat64 default].
  rewrite (int32_of_int_id burst Hrange).
  do 2 f_equal. apply map_eq. intros k.
  destruct (decide (k = "data_trace_enabled")) as [->|H1];
    [by rewrite lookup_insert_eq|rewrite lookup_insert_ne by done].
  destruct (decide (k = "detailed_metrics_enabled")) as [->|H2];
    [by rewrite lookup_insert_eq|rewrite lookup_insert_ne by done].
  destruct (decide (k = "logging_level")) as [->|H3];
    [by rewrite lookup_insert_eq|rewrite lookup_insert_ne by done].
  destruct (decide (k = "throttling_burst_limit")) as [->|H4];
    [by rewrite lookup_insert_eq|rewrite lookup_insert_ne by done].
  destruct (decide (k = "throttling_rate_limit")) as [->|H5];
    [by rewrite lookup_insert_eq|rewrite lookup_insert_ne by done].
  rewrite lookup_empty. symmetry. apply Hrest.
  rewrite !elem_of_cons, elem_of_nil. tauto.
Qed.

(** X4. A second pass changes nothing: whatever the configuration and the
    protocol type, expanding and flattening the flattened result of a
    first expansion gives that result again. *)
Theorem default_route_settings_second_pass (vSettings : ifaceList) F :
  let once :=
    flattenDefaultRouteSettings (Some (expandDefaultRouteSettings vSettings F)) in
  flattenDefaultRouteSettings (Some (expandDefaultRouteSettings once F)) = once.
Proof.
  cbv zeta.
  set (rs := expandDefaultRouteSettings vSettings F).
  assert (LoggingLevel rs = "" ∨ F = ProtocolTypeWebsocket) as Hlevel.
  { subst rs. unfold expandDefaultRouteSettings.
    destruct vSettings as [|[m|] ?]; [by left| |by left].
    destruct (decide (F = ProtocolTypeWebsocket)) as [?|HF]; [by right|left].
    exact (proj2 (expandDefaultRouteSettings_gate m F HF)). }
  assert (DataTraceEnabled rs = None ∨ F = ProtocolTypeWebsocket) as Htrace.
  { subst rs. unfold expandDefaultRouteSettings.
    destruct vSettings as [|[m|] ?]; [by left| |by left].
    destruct (decide (F = ProtocolTypeWebsocket)) as [?|HF]; [by right|left].
    exact (proj1 (expandDefaultRouteSettings_gate m F HF)). }
  assert (∀ v, ThrottlingBurstLimit rs = Some v → int32_of_int v = v) as Hburst.
  { subst rs. unfold expandDefaultRouteSettings.
    destruct vSettings as [|[m|] ?]; [done| |done].
    intros v. repeat case_match; cbn; intros [= <-]; apply int32_of_int_idemp. }
  assert (int32_of_int (aws.ToInt32 (ThrottlingBurstLimit rs))
          = aws.ToInt32 (ThrottlingBurstLimit rs)) as Hb.
  { destruct (ThrottlingBurstLimit rs) as [v|] eqn:Hv; [by apply Hburst|reflexivity]. }
  unfold flattenDefaultRouteSettings at 2.
  erewrite expandDefaultRouteSettings_typed;
    [|by rewrite ?lookup_insert_ne by done; apply lookup_insert_eq..].
  rewrite Hb. unfold flattenDefaultRouteSettings.
  cbn [DataTraceEnabled DetailedMetricsEnabled LoggingLevel ThrottlingBurstLimit
       ThrottlingRateLimit].
  destruct (bool_decide_reflect (F = ProtocolTypeWebsocket)) as [HF|HF]; [reflexivity|].
  destruct Hlevel as [->|]; [|done]. destruct Htrace as [->|]; [|done]. reflexivity.
Qed.
End DefaultRoute.

Lemma default_route_settings_roundtrip_websocket_witness :
  flattenDefaultRouteSettings
    (Some (expandDefaultRouteSettings [Some defaultRoute0] "WEBSOCKET"))
  = [Some defaultRoute0].
Proof.
  apply (default_route_settings_roundtrip_websocket defaultRoute0
           true false "ERROR" 200 4636737291354636288); try reflexivity.
  - intros k Hk. unfold defaultRoute0.
    rewrite !elem_of_cons, elem_of_nil in Hk.
    rewrite !lookup_insert_ne by (intros <-; tauto). apply lookup_empty.
  - unfold in_int32. lia.
Defined.

Section ExpandRoutes.
Variable F : string.
Implicit Types (l : ifaceList) (acc settings : gmap string RouteSettings) (k : string).

Lemma expandRouteSettings_loop_Some_iff l acc :
  is_Some (expandRouteSettings_loop l F acc) ↔ Forall accepted l.
Proof.
  revert acc. induction l as [|[m|] l IH]; intros acc; cbn [expandRouteSettings_loop].
  - split; [constructor|by eexists].
  - destruct (assert_string (m !! "route_key")) as [k|] eqn:Hk.
    + rewrite IH. split.
      * intros Hl. constructor; [|done]. exists m. split; [done|]. by exists k.
      * by inversion 1.
    + split; [by intros [? ?]|].
      inversion 1 as [|? ? Hacc ?]. destruct Hacc as (m' & Hm' & [k Hk']).
      by simplify_eq.
  - split; [by intros [? ?]|]. inversion 1 as [|? ? Hacc ?].
    by destruct Hacc as (m' & Hm' & _).
Qed.

(** Where an entry of the result comes from, and which keys it has. *)
Lemma expandRouteSettings_loop_lookup l acc settings k :
  expandRouteSettings_loop l F acc = Some settings →
  settings !! k
  = match last (filter (λ m, m !! "route_key" = Some (VString k)) (omap id l)) with
    | Some m => Some (expandRouteSettings_body m F)
    | None => acc !! k
    end.
Proof.
  revert acc. induction l as [|[m|] l IH]; intros acc; cbn [expandRouteSettings_loop].
  - by intros [= ->].
  - destruct (m !! "route_key") as [[| | |k'|]|] eqn:Hk; cbn [assert_string]; try done.
    intros Hloop. rewrite (IH _ Hloop). cbn [omap list_omap id].
    destruct (decide (k' = k)) as [->|Hne].
    + rewrite filter_cons_True by done. rewrite last_cons.
      destruct (last _); [done|]. by rewrite lookup_insert_eq.
    + rewrite filter_cons_False by congruence.
      destruct (last _); [done|]. by rewrite lookup_insert_ne.
  - done.
Qed.

Lemma expandRouteSettings_loop_size l acc settings :
  expandRouteSettings_loop l F acc = Some settings →
  (size settings ≤ size acc + length l)%nat.
Proof.
  revert acc. induction l as [|[m|] l IH]; intros acc; cbn [expandRouteSettings_loop].
  - intros [= ->]. lia.
  - destruct (assert_string (m !! "route_key")) as [k|]; [|done].
    intros Hloop%IH. cbn [length].
    pose proof (map_size_insert k (expandRouteSettings_body m F) acc) as Hsz.
    destruct (acc !! k); cbn [id] in Hsz; unfold id in Hsz; lia.
  - done.
Qed.
End ExpandRoutes.

(** X5. The per-route expander fails (the Go code panics on an unchecked
    type assertion) exactly when some element of the input is nil or has
    no string under "route_key"; otherwise it returns a map. *)
Theorem expandRouteSettings_panics_iff (l : ifaceList) (F : string) :
  expandRouteSettings l F = None ↔ ¬ Forall accepted l.
Proof.
  unfold expandRouteSettings.
  rewrite <- (expandRouteSettings_loop_Some_iff F l ∅).
  rewrite <- eq_None_not_Some. done.
Qed.

Lemma expandRouteSettings_panics_iff_witness :
  expandRouteSettings [Some routeInfo; None] "HTTP" = None
  ∧ expandRouteSettings [Some (<["route_key" := VInt 3]> ∅)] "HTTP" = None.
Proof.
  split.
  - apply (expandRouteSettings_panics_iff [Some routeInfo; None] "HTTP").
    intros H. apply Forall_cons in H as [_ H]. apply Forall_cons in H as [H _].
    by destruct H as (m & [=] & _).
  - apply (expandRouteSettings_panics_iff [Some (<["route_key" := VInt 3]> ∅)] "HTTP").
    intros H. apply Forall_cons in H as [H _].
    destruct H as (m & [= <-] & [k Hk]). vm_compute in Hk. discriminate.
Defined.

(** The keys and the entries of the expanded map, and its size. *)
Lemma expandRouteSettings_result (l : ifaceList) (F : string)
    (settings : gmap string RouteSettings) :
  expandRouteSettings l F = Some settings →
  (∀ k, is_Some (settings !! k)
        ↔ ∃ m, Some m ∈ l ∧ m !! "route_key" = Some (VString k))
  ∧ (∀ k rs, settings !! k = Some rs →
       ∃ m, Some m ∈ l ∧ m !! "route_key" = Some (VString k)
            ∧ rs = expandRouteSettings_body m F)
  ∧ (size settings ≤ length l)%nat.
Proof.
  unfold expandRouteSettings. intros Hloop.
  assert (∀ k m, last (filter (λ m, m !! "route_key" = Some (VString k)) (omap id l))
                 = Some m → Some m ∈ l ∧ m !! "route_key" = Some (VString k)) as Hlast.
  { intros k m Hm%last_Some_elem_of.
    apply list_elem_of_filter in Hm as [Hk Hm].
    apply list_elem_of_omap in Hm as (v & Hv & Hid). cbn in Hid. by subst. }
  split_and!.
  - intros k. rewrite (expandRouteSettings_loop_lookup F l ∅ settings k Hloop).
    destruct (last _) as [m|] eqn:Hm.
    + split; [|by eexists]. intros _. exists m. by apply Hlast.
    + rewrite lookup_empty. split; [by intros [? ?]|].
      intros (m & Hin & Hk). exfalso.
      apply last_None in Hm.
      assert (m ∈ filter (λ m, m !! "route_key" = Some (VString k)) (omap id l)) as Hf.
      { apply list_elem_of_filter. split; [done|].
        apply list_elem_of_omap. by exists (Some m). }
      rewrite Hm in Hf. by apply elem_of_nil in Hf.
  - intros k rs. rewrite (expandRouteSettings_loop_lookup F l ∅ settings k Hloop).
    destruct (last _) as [m|] eqn:Hm; [|by rewrite lookup_empty].
    intros [= <-]. exists m. destruct (Hlast k m Hm). done.
  - pose proof (expandRouteSettings_loop_size F l ∅ settings Hloop) as Hsz.
    by rewrite map_size_empty in Hsz.
Qed.

(** X6. The map the per-route expander returns has an entry for a key
    exactly when some element of the input carries that key; every entry is
    built from such an element, and there are at most as many entries as
    elements. *)
Theorem expandRouteSettings_entries (l : ifaceList) (F : string)
    (settings : gmap string RouteSettings) :
  expandRouteSettings l F = Some settings →
  (∀ k, is_Some (settings !! k)
        ↔ ∃ m, Some m ∈ l ∧ m !! "route_key" = Some (VString k))
  ∧ (∀ k rs, settings !! k = Some rs →
       ∃ m, Some m ∈ l ∧ m !! "route_key" = Some (VString k)
            ∧ rs = expandRouteSettings_body m F)
  ∧ (size settings ≤ length l)%nat.
Proof. apply expandRouteSettings_result. Qed.

Lemma expandRouteSettings_entries_witness :
  ∃ settings,
    expandRouteSettings [Some routeInfo; Some routeOther; Some routeInfo'] "HTTP"
    = Some settings
    ∧ is_Some (settings !! "$default")
    ∧ settings !! "POST /pets" = None
    ∧ (size settings ≤ 3)%nat.
Proof.
  destruct (expandRouteSettings [Some routeInfo; Some routeOther; Some routeInfo'] "HTTP")
    as [settings|] eqn:Hs; [|by vm_compute in Hs].
  exists settings. split; [reflexivity|].
  destruct (expandRouteSettings_entries _ _ _ Hs) as (Hdom & _ & Hsize).
  split_and!.
  - apply Hdom. exists routeOther. split; [|reflexivity].
    apply elem_of_cons. right. apply elem_of_cons. by left.
  - apply eq_None_not_Some. intros (m & Hm & Hk)%Hdom.
    rewrite !elem_of_cons, elem_of_nil in Hm.
    destruct Hm as [[= ->]|[[= ->]|[[= ->]|[]]]]; vm_compute in Hk; discriminate.
  - exact Hsize.
Defined.

(** X7. Outside the websocket family no entry of the expanded map carries a
    trace flag or a logging level, whatever the list of elements holds. *)
Theorem expandRouteSettings_gate_all (l : ifaceList) (F : string)
    (settings : gmap string RouteSettings) (k : string) (rs : RouteSettings) :
  F ≠ ProtocolTypeWebsocket →
  expandRouteSettings l F = Some settings →
  settings !! k = Some rs →
  DataTraceEnabled rs = None ∧ LoggingLevel rs = "".
Proof.
  intros HF Hexp Hk.
  destruct (expandRouteSettings_result l F settings Hexp) as (_ & Hfrom & _).
  destruct (Hfrom k rs Hk) as (m & _ & _ & ->).
  by apply expandRouteSettings_body_gate.
Qed.

Lemma expandRouteSettings_gate_all_witness :
  ∃ settings rs,
    expandRouteSettings [Some routeInfo; Some routeOther] "HTTP" = Some settings
    ∧ settings !! "GET /pets" = Some rs
    ∧ DataTraceEnabled rs = None ∧ LoggingLevel rs = "".
Proof.
  pose (settings := (<["$default" := expandRouteSettings_body routeOther "HTTP"]>
                     (<["GET /pets" := expandRouteSettings_body routeInfo "HTTP"]> ∅)
                     : gmap string RouteSettings)).
  exists settings, (expandRouteSettings_body routeInfo "HTTP").
  assert (expandRouteSettings [Some routeInfo; Some routeOther] "HTTP" = Some settings)
    as Hexp by reflexivity.
  assert (settings !! "GET /pets" = Some (expandRouteSettings_body routeInfo "HTTP")) as Hk.
  { subst settings. rewrite lookup_insert_ne by done. apply lookup_insert_eq. }
  split; [exact Hexp|]. split; [exact Hk|].
  apply (expandRouteSettings_gate_all [Some routeInfo; Some routeOther] "HTTP"
           settings "GET /pets" (expandRouteSettings_body routeInfo "HTTP"));
    [discriminate|exact Hexp|exact Hk].
Defined.

(** X8. Flattening a remote per-route map gives one element per entry, each
    built from its key and settings, and every element holds all six
    fields: flatten never omits a field. *)
Theorem flattenRouteSettings_elements (settings : gmap string RouteSettings) :
  length (flattenRouteSettings settings) = size settings
  ∧ (∀ e, e ∈ flattenRouteSettings settings
          ↔ ∃ k rs, settings !! k = Some rs
                    ∧ e = Some (flattenRouteSettings_entry k rs))
  ∧ (∀ k rs, dom (flattenRouteSettings_entry k rs) = routeSettingsKeys).
Proof.
  split_and!.
  - unfold flattenRouteSettings. by rewrite length_fmap, length_map_to_list.
  - intros e. unfold flattenRouteSettings. rewrite list_elem_of_fmap. split.
    + intros ([k rs] & -> & Hin%elem_of_map_to_list). by exists k, rs.
    + intros (k & rs & Hk & ->). exists (k, rs). split; [done|].
      by apply elem_of_map_to_list.
  - intros k rs. unfold flattenRouteSettings_entry, routeSettingsKeys.
    rewrite !dom_insert_L, dom_empty_L. set_solver.
Qed.

Lemma flattenRouteSettings_elements_witness :
  length (flattenRouteSettings remoteRoutes) = 2%nat
  ∧ Some (flattenRouteSettings_entry "$default" RouteSettings_zero)
    ∈ flattenRouteSettings remoteRoutes.
Proof.
  destruct (flattenRouteSettings_elements remoteRoutes) as (Hlen & Hin & _).
  split.
  - rewrite Hlen. reflexivity.
  - apply Hin. exists "$default", RouteSettings_zero. split; reflexivity.
Defined.

Section StoreRoundTrip.
Implicit Types (m : gmap string RouteSettings) (k : string) (rs : RouteSettings).

(** A flattened element as the store keeps it: the logging level decoded
    to a plain string. *)
Lemma stored_entry_lookups k rs :
  let e := to_schema_string <$> flattenRouteSettings_entry k rs in
  e !! "data_trace_enabled" = Some (VBool (aws.ToBool (DataTraceEnabled rs)))
  ∧ e !! "detailed_metrics_enabled"
    = Some (VBool (aws.ToBool (DetailedMetricsEnabled rs)))
  ∧ e !! "logging_level" = Some (VString (LoggingLevel rs))
  ∧ e !! "route_key" = Some (VString k)
  ∧ e !! "throttling_burst_limit" = Some (VInt (aws.ToInt32 (ThrottlingBurstLimit rs)))
  ∧ e !! "throttling_rate_limit"
    = Some (VFloat64 (aws.ToFloat64 (ThrottlingRateLimit rs))).
Proof.
  cbv zeta. unfold flattenRouteSettings_entry. rewrite !lookup_fmap.
  split_and!; rewrite ?lookup_insert_ne by done; by rewrite lookup_insert_eq.
Qed.

Lemma stored_entry_expand k rs :
  in_int32 (aws.ToInt32 (ThrottlingBurstLimit rs)) →
  expandRouteSettings_body (to_schema_string <$> flattenRouteSettings_entry k rs)
    ProtocolTypeWebsocket
  = RouteSettings_explicit rs.
Proof.
  intros Hrange.
  destruct (stored_entry_lookups k rs) as (Ht & Hm & Hl & _ & Hb & Hr).
  unfold expandRouteSettings_body. rewrite Ht, Hm, Hl, Hb, Hr.
  cbn [assert_bool assert_string assert_int assert_float64].
  rewrite (int32_of_int_id _ Hrange), (bool_decide_eq_true_2 (_ = _)) by done.
  unfold RouteSettings_explicit.
  destruct (bool_decide_reflect (LoggingLevel rs ≠ "")) as [?|Hempty]; [reflexivity|].
  cbn [andb]. destruct (decide (LoggingLevel rs = "")) as [->|]; [reflexivity|done].
Qed.

Lemma elem_of_set_of_list m (v : gmap string value) :
  v ∈ set_of_list (flattenRouteSettings m)
  ↔ ∃ k rs, m !! k = Some rs
            ∧ v = to_schema_string <$> flattenRouteSettings_entry k rs.
Proof.
  unfold set_of_list, flattenRouteSettings.
  rewrite elem_of_remove_dups, list_elem_of_fmap. split.
  - intros (e & -> & He). apply list_elem_of_omap in He as (o & Ho & Hid).
    apply list_elem_of_fmap in Ho as ([k rs] & -> & Hin%elem_of_map_to_list).
    cbn in Hid. simplify_eq. by exists k, rs.
  - intros (k & rs & Hk & ->). exists (flattenRouteSettings_entry k rs).
    split; [done|]. apply list_elem_of_omap.
    exists (Some (flattenRouteSettings_entry k rs)). split; [|done].
    apply list_elem_of_fmap. exists (k, rs). split; [done|].
    by apply elem_of_map_to_list.
Qed.
End StoreRoundTrip.

(** X9. What Read stores for the per-route overrides expands back to the
    remote map: for a WEBSOCKET API, expanding the set that Read writes
    from a remote map gives that map again, with every absent field made
    explicit at its zero value (burst limits being 32-bit values). *)
Theorem route_settings_store_roundtrip (m : gmap string RouteSettings) :
  (∀ k rs, m !! k = Some rs → in_int32 (aws.ToInt32 (ThrottlingBurstLimit rs))) →
  expandRouteSettings
    (Some <$> SchemaSet.List (set_of_list (flattenRouteSettings m)))
    ProtocolTypeWebsocket
  = Some (RouteSettings_explicit <$> m).
Proof.
  intros Hrange. unfold SchemaSet.List.
  set (stored := set_of_list (flattenRouteSettings m)).
  assert (Forall has_route_key stored) as Hwf.
  { apply Forall_forall. intros v (k & rs & _ & ->)%elem_of_set_of_list.
    exists k. unfold has_route_key.
    destruct (stored_entry_lookups k rs) as (_ & _ & _ & -> & _). reflexivity. }
  destruct (expandRouteSettings_loop_total ProtocolTypeWebsocket stored ∅ Hwf)
    as [settings Hs].
  change (expandRouteSettings (Some <$> stored) ProtocolTypeWebsocket = Some settings)
    in Hs.
  rewrite Hs. f_equal. apply map_eq. intros k. rewrite lookup_fmap.
  destruct (expandRouteSettings_result _ _ _ Hs) as (Hdom & Hfrom & _).
  destruct (settings !! k) as [rs'|] eqn:Hk.
  - destruct (Hfrom k rs' Hk) as (v & Hv & Hkey & ->).
    apply list_elem_of_fmap in Hv as (v' & [= <-] & Hv).
    apply elem_of_set_of_list in Hv as (k2 & rs & Hm & ->).
    destruct (stored_entry_lookups k2 rs) as (_ & _ & _ & Hk2 & _).
    rewrite Hk2 in Hkey. simplify_eq.
    rewrite Hm. cbn. f_equal. apply stored_entry_expand. by eapply Hrange.
  - destruct (m !! k) as [rs|] eqn:Hm; [|done]. exfalso.
    assert (is_Some (settings !! k)) as [? ?]; [|congruence].
    apply Hdom. exists (to_schema_string <$> flattenRouteSettings_entry k rs). split.
    + apply list_elem_of_fmap. eexists. split; [reflexivity|].
      apply elem_of_set_of_list. by exists k, rs.
    + by destruct (stored_entry_lookups k rs) as (_ & _ & _ & -> & _).
Qed.

Lemma route_settings_store_roundtrip_witness :
  expandRouteSettings
    (Some <$> SchemaSet.List (set_of_list (flattenRouteSettings remoteRoutes)))
    "WEBSOCKET"
  = Some (RouteSettings_explicit <$> remoteRoutes).
Proof.
  apply (route_settings_store_roundtrip remoteRoutes).
  intros k rs Hk. unfold remoteRoutes in Hk.
  destruct (decide (k = "GET /pets")) as [->|Hne].
  - rewrite lookup_insert_eq in Hk. injection Hk as <-. unfold in_int32. cbn. lia.
  - rewrite lookup_insert_ne in Hk by done.
    destruct (decide (k = "$default")) as [->|Hne'].
    + rewrite lookup_insert_eq in Hk. injection Hk as <-. unfold in_int32. cbn. lia.
    + rewrite lookup_insert_ne, lookup_empty in Hk by done. discriminate.
Defined.

(** * Further properties of the lifecycle callbacks *)

Section ReadMore.
Variable meta : AWSClient.
Implicit Types (d : ResourceData) (resp : GetStageOutput.t).

(** Read up to the lookup of the owning API. *)
Lemma resourceStageRead_fetched d (calls : list Call) (tags : option (gmap string string))
    resp :
  let apiId := as_string (Get d "api_id") in
  GetStage (APIGatewayV2Client meta) calls apiId (Id d) = Ok resp →
  resourceStageRead meta {| rd := d; log := calls; tagsOut := tags |}
  = match GetApi (APIGatewayV2Client meta) (calls ++ [CallGetStage apiId (Id d)]) apiId with
    | Err err =>
      Some (["reading API Gateway v2 API (" +:+ apiId +:+ "): " +:+ Error err],
            {| rd := readWrites meta resp d;
               log := (calls ++ [CallGetStage apiId (Id d)]) ++ [CallGetApi apiId];
               tagsOut := Some (GetStageOutput.Tags resp) |})
    | Ok apiOutput =>
      let stageName := aws.ToString (GetStageOutput.StageName resp) in
      let d' := readWrites meta resp d in
      Some ([],
            {| rd :=
                 if bool_decide (GetApiOutput.ProtocolType apiOutput = ProtocolTypeWebsocket)
                 then d_Set "invoke_url"
                        (AString ("wss://" +:+ apiId +:+ ".execute-api." +:+ Region meta
                                  +:+ ".amazonaws.com/" +:+ stageName)) d'
                 else if bool_decide (GetApiOutput.ProtocolType apiOutput = ProtocolTypeHttp)
                 then if bool_decide (stageName = defaultStageName)
                      then d_Set "invoke_url"
                             (AString ("https://" +:+ apiId +:+ ".execute-api."
                                       +:+ Region meta +:+ ".amazonaws.com/")) d'
                      else d_Set "invoke_url"
                             (AString ("https://" +:+ apiId +:+ ".execute-api."
                                       +:+ Region meta +:+ ".amazonaws.com/"
                                       +:+ stageName)) d'
                 else d';
               log := (calls ++ [CallGetStage apiId (Id d)]) ++ [CallGetApi apiId];
               tagsOut := Some (GetStageOutput.Tags resp) |})
    end.
Proof.
  cbv zeta. intros Hstage. unfold readWrites, AppendErrorf. cbn [app].
  run_callback. rewrite Hstage. cbn [err_of].
  change (IsA_NotFoundException None) with false. cbn [andb]. run_callback.
  destruct (GetApi _ _ _) as [apiOutput|err]; [|reflexivity].
  repeat (match goal with
          |- context [bool_decide ?P] => destruct (bool_decide P)
          end); reflexivity.
Qed.

Lemma Get_d_Set_eq (key : string) (v : attr) d : Get (d_Set key v d) key = v.
Proof. unfold Get, d_Set. cbn [set_level]. by rewrite lookup_insert_eq. Qed.

Lemma Get_d_Set_ne (key key' : string) (v : attr) d :
  key ≠ key' → Get (d_Set key v d) key' = Get d key'.
Proof.
  intros Hne. unfold Get, d_Set. cbn [set_level diff_level].
  by rewrite lookup_insert_ne.
Qed.

Lemma set_level_d_Set_ne (key key' : string) (v : attr) d :
  key ≠ key' → set_level (d_Set key v d) !! key' = set_level d !! key'.
Proof. intros Hne. unfold d_Set. cbn [set_level]. by rewrite lookup_insert_ne. Qed.

Lemma Get_readWrites_api_id d resp :
  Get (readWrites meta resp d) "api_id" = Get d "api_id".
Proof. unfold readWrites. cbv zeta. by rewrite !Get_d_Set_ne by done. Qed.

Lemma set_level_readWrites_invoke_url d resp :
  set_level (readWrites meta resp d) !! "invoke_url" = set_level d !! "invoke_url".
Proof. unfold readWrites. cbv zeta. by rewrite !set_level_d_Set_ne by done. Qed.

Lemma Id_readWrites d resp : Id (readWrites meta resp d) = Id d.
Proof. reflexivity. Qed.
Lemma set_level_d_Set_eq (key : string) (v : attr) d :
  set_level (d_Set key v d) !! key = Some v.
Proof. unfold d_Set. cbn [set_level]. by rewrite lookup_insert_eq. Qed.

Lemma d_Set_id (key : string) (v : attr) d :
  set_level d !! key = Some v → d_Set key v d = d.
Proof.
  intros Hv. destruct d as [i new st df sl]. unfold d_Set.
  cbn [set_level Id IsNewResource state_level diff_level] in *.
  by rewrite insert_id.
Qed.

(** Writing the attributes of the same remote record a second time changes
    nothing, with or without an invoke URL written in between. *)
Lemma readWrites_twice d resp (url : option attr) :
  let d1 := match url with
            | Some v => d_Set "invoke_url" v (readWrites meta resp d)
            | None => readWrites meta resp d
            end in
  readWrites meta resp d1 = d1.
Proof.
  cbv zeta.
  assert (Get match url with
              | Some v => d_Set "invoke_url" v (readWrites meta resp d)
              | None => readWrites meta resp d
              end "api_id" = Get d "api_id") as Hapi.
  { destruct url; [rewrite Get_d_Set_ne by done|]; apply Get_readWrites_api_id. }
  unfold readWrites at 1. cbv zeta. rewrite Hapi.
  repeat (rewrite d_Set_id;
          [|rewrite ?set_level_d_Set_ne by done; destruct url;
            unfold readWrites; cbv zeta;
            rewrite ?set_level_d_Set_ne by done; apply set_level_d_Set_eq]).
  reflexivity.
Qed.
End ReadMore.

(** X10. A successful Read keeps the id and the api_id and writes the
    attributes from the remote record: the name, the ARN
    arn:<partition>:apigateway:<region>::/apis/<api>/stages/<name>, the
    execution ARN arn:<partition>:execute-api:<region>:<account>:<api>/<name>,
    the scalar fields at their values or zero values, the flattened
    sub-blocks, the variables, and the tags handed to the tagging side. *)
Theorem read_writes_attributes (meta : AWSClient) (s : St)
    (resp : GetStageOutput.t) (apiOutput : GetApiOutput.t) :
  let apiId := as_string (Get (rd s) "api_id") in
  let stageName := aws.ToString (GetStageOutput.StageName resp) in
  GetStage (APIGatewayV2Client meta) (log s) apiId (Id (rd s)) = Ok resp →
  GetApi (APIGatewayV2Client meta)
    (log s ++ [CallGetStage apiId (Id (rd s))]) apiId = Ok apiOutput →
  ∃ s',
    resourceStageRead meta s = Some ([], s')
    ∧ Id (rd s') = Id (rd s)
    ∧ Get (rd s') "api_id" = Get (rd s) "api_id"
    ∧ Get (rd s') "name" = AString stageName
    ∧ Get (rd s') "arn"
      = AString ("arn:" +:+ Partition meta +:+ ":apigateway:" +:+ Region meta
                 +:+ "::/apis/" +:+ apiId +:+ "/stages/" +:+ stageName)
    ∧ Get (rd s') "execution_arn"
      = AString ("arn:" +:+ Partition meta +:+ ":execute-api:" +:+ Region meta
                 +:+ ":" +:+ AccountID meta +:+ ":" +:+ apiId +:+ "/" +:+ stageName)
    ∧ Get (rd s') "auto_deploy" = ABool (aws.ToBool (GetStageOutput.AutoDeploy resp))
    ∧ Get (rd s') "client_certificate_id"
      = AString (aws.ToString (GetStageOutput.ClientCertificateId resp))
    ∧ Get (rd s') "deployment_id"
      = AString (aws.ToString (GetStageOutput.DeploymentId resp))
    ∧ Get (rd s') "description"
      = AString (aws.ToString (GetStageOutput.Description resp))
    ∧ Get (rd s') "access_log_settings"
      = AList (flattenAccessLogSettings (GetStageOutput.AccessLogSettings resp))
    ∧ Get (rd s') "default_route_settings"
      = AList (flattenDefaultRouteSettings (GetStageOutput.DefaultRouteSettings resp))
    ∧ Get (rd s') "stage_variables" = AMap (GetStageOutput.StageVariables resp)
    ∧ tagsOut s' = Some (GetStageOutput.Tags resp).
Proof.
  destruct s as [d calls tags]. cbv zeta. cbn [rd log]. intros Hstage Hapi.
  rewrite (resourceStageRead_fetched meta d calls tags resp Hstage), Hapi. cbv zeta.
  eexists. split; [reflexivity|]. cbn [rd tagsOut].
  repeat (match goal with
          |- context [bool_decide ?P] => destruct (bool_decide P)
          end);
    rewrite ?(Get_d_Set_ne "invoke_url") by done;
    (split; [reflexivity|]); (split; [apply Get_readWrites_api_id|]);
    unfold readWrites; cbv zeta;
    split_and!; try reflexivity;
    rewrite ?Get_d_Set_ne by done; by rewrite Get_d_Set_eq.
Qed.

Lemma read_writes_attributes_witness :
  ∃ s',
    resourceStageRead (metaOf (connOk "HTTP" stageFull))
      (stateOf (stageData "prod" [] [])) = Some ([], s')
    ∧ Id (rd s') = "prod"
    ∧ Get (rd s') "name" = AString "prod"
    ∧ Get (rd s') "arn"
      = AString "arn:aws:apigateway:us-east-1::/apis/abc123/stages/prod"
    ∧ Get (rd s') "execution_arn"
      = AString "arn:aws:execute-api:us-east-1:123456789012:abc123/prod"
    ∧ Get (rd s') "deployment_id" = AString "dep42"
    ∧ Get (rd s') "client_certificate_id" = AString "".
Proof.
  destruct (read_writes_attributes (metaOf (connOk "HTTP" stageFull))
              (stateOf (stageData "prod" [] [])) stageFull
              {| GetApiOutput.ProtocolType := "HTTP" |} eq_refl eq_refl)
    as (s' & Hread & Hid & _ & Hname & Harn & Hexec & _ & Hcert & Hdep & _).
  exists s'. split_and!; [exact Hread|exact Hid|exact Hname|exact Harn|exact Hexec|
                          exact Hdep|exact Hcert].
Defined.

(** X11. When the stage is fetched and the lookup of the owning API then
    fails, Read reports the lookup error after the attributes of the stage
    have been written: the store holds the new name and scalar fields, the
    invoke URL is left as it was, and the id is kept. *)
Theorem read_api_lookup_failure (meta : AWSClient) (s : St)
    (resp : GetStageOutput.t) (err : error) :
  let apiId := as_string (Get (rd s) "api_id") in
  GetStage (APIGatewayV2Client meta) (log s) apiId (Id (rd s)) = Ok resp →
  GetApi (APIGatewayV2Client meta)
    (log s ++ [CallGetStage apiId (Id (rd s))]) apiId = Err err →
  ∃ s',
    resourceStageRead meta s
    = Some (["reading API Gateway v2 API (" +:+ apiId +:+ "): " +:+ Error err], s')
    ∧ Id (rd s') = Id (rd s)
    ∧ Get (rd s') "name" = AString (aws.ToString (GetStageOutput.StageName resp))
    ∧ Get (rd s') "description"
      = AString (aws.ToString (GetStageOutput.Description resp))
    ∧ set_level (rd s') !! "invoke_url" = set_level (rd s) !! "invoke_url".
Proof.
  destruct s as [d calls tags]. cbv zeta. cbn [rd log]. intros Hstage Hapi.
  rewrite (resourceStageRead_fetched meta d calls tags resp Hstage), Hapi.
  eexists. split; [reflexivity|]. cbn [rd].
  split; [reflexivity|].
  split_and!; [..|apply set_level_readWrites_invoke_url];
    unfold readWrites; cbv zeta; rewrite ?Get_d_Set_ne by done; by rewrite Get_d_Set_eq.
Qed.

Lemma read_api_lookup_failure_witness :
  ∃ s',
    resourceStageRead (metaOf (connNoApi stageFull)) (stateOf (stageData "prod" [] []))
    = Some (["reading API Gateway v2 API (abc123): TooManyRequestsException: Rate exceeded"],
            s')
    ∧ Id (rd s') = "prod"
    ∧ Get (rd s') "name" = AString "prod"
    ∧ Get (rd s') "description" = AString "production"
    ∧ set_level (rd s') !! "invoke_url" = None.
Proof.
  exact (read_api_lookup_failure (metaOf (connNoApi stageFull))
           (stateOf (stageData "prod" [] [])) stageFull
           (OtherError "TooManyRequestsException: Rate exceeded") eq_refl eq_refl).
Defined.

(** X12. For an owning API whose protocol type is neither WEBSOCKET nor
    HTTP, Read succeeds and leaves the invoke URL as it was. *)
Theorem read_unknown_protocol_keeps_invoke_url (meta : AWSClient) (s : St)
    (resp : GetStageOutput.t) (apiOutput : GetApiOutput.t) :
  let apiId := as_string (Get (rd s) "api_id") in
  GetStage (APIGatewayV2Client meta) (log s) apiId (Id (rd s)) = Ok resp →
  GetApi (APIGatewayV2Client meta)
    (log s ++ [CallGetStage apiId (Id (rd s))]) apiId = Ok apiOutput →
  GetApiOutput.ProtocolType apiOutput ≠ ProtocolTypeWebsocket →
  GetApiOutput.ProtocolType apiOutput ≠ ProtocolTypeHttp →
  ∃ s',
    resourceStageRead meta s = Some ([], s')
    ∧ Get (rd s') "invoke_url" = Get (rd s) "invoke_url".
Proof.
  destruct s as [d calls tags]. cbv zeta. cbn [rd log]. intros Hstage Hapi Hws Hhttp.
  rewrite (resourceStageRead_fetched meta d calls tags resp Hstage), Hapi. cbv zeta.
  rewrite !bool_decide_eq_false_2 by done.
  eexists. split; [reflexivity|]. cbn [rd].
  unfold readWrites. cbv zeta. by rewrite !Get_d_Set_ne by done.
Qed.

Lemma read_unknown_protocol_keeps_invoke_url_witness :
  ∃ s',
    resourceStageRead (metaOf (connOk "GRPC" stageProd))
      (stateOf (stageData "prod" [] [])) = Some ([], s')
    ∧ Get (rd s') "invoke_url" = AString "".
Proof.
  apply (read_unknown_protocol_keeps_invoke_url (metaOf (connOk "GRPC" stageProd))
           (stateOf (stageData "prod" [] [])) stageProd
           {| GetApiOutput.ProtocolType := "GRPC" |} eq_refl eq_refl);
    discriminate.
Defined.

(** X13. Read is stable: when the remote side answers a second Read as it
    answered the first, the second Read changes nothing in the store. *)
Theorem read_twice_stable (meta : AWSClient) (s : St)
    (resp : GetStageOutput.t) (apiOutput : GetApiOutput.t) :
  let apiId := as_string (Get (rd s) "api_id") in
  let fetch := CallGetStage apiId (Id (rd s)) in
  let lookup := CallGetApi apiId in
  GetStage (APIGatewayV2Client meta) (log s) apiId (Id (rd s)) = Ok resp →
  GetApi (APIGatewayV2Client meta) (log s ++ [fetch]) apiId = Ok apiOutput →
  GetStage (APIGatewayV2Client meta) ((log s ++ [fetch]) ++ [lookup]) apiId (Id (rd s))
  = Ok resp →
  GetApi (APIGatewayV2Client meta) (((log s ++ [fetch]) ++ [lookup]) ++ [fetch]) apiId
  = Ok apiOutput →
  ∃ s1 s2,
    resourceStageRead meta s = Some ([], s1)
    ∧ resourceStageRead meta s1 = Some ([], s2)
    ∧ rd s2 = rd s1
    ∧ tagsOut s2 = tagsOut s1.
Proof.
  destruct s as [d calls tags]. cbv zeta. cbn [rd log].
  intros Hstage Hapi Hstage' Hapi'.
  rewrite (resourceStageRead_fetched meta d calls tags resp Hstage), Hapi. cbv zeta.
  eexists _, _. split; [reflexivity|].
  set (url1 :=
    if bool_decide (GetApiOutput.ProtocolType apiOutput = ProtocolTypeWebsocket)
    then Some (AString ("wss://" +:+ as_string (Get d "api_id") +:+ ".execute-api."
                        +:+ Region meta +:+ ".amazonaws.com/"
                        +:+ aws.ToString (GetStageOutput.StageName resp)))
    else if bool_decide (GetApiOutput.ProtocolType apiOutput = ProtocolTypeHttp)
    then if bool_decide (aws.ToString (GetStageOutput.StageName resp) = defaultStageName)
         then Some (AString ("https://" +:+ as_string (Get d "api_id") +:+ ".execute-api."
                             +:+ Region meta +:+ ".amazonaws.com/"))
         else Some (AString ("https://" +:+ as_string (Get d "api_id") +:+ ".execute-api."
                             +:+ Region meta +:+ ".amazonaws.com/"
                             +:+ aws.ToString (GetStageOutput.StageName resp)))
    else None).
  set (d1 := match url1 with
             | Some v => d_Set "invoke_url" v (readWrites meta resp d)
             | None => readWrites meta resp d
             end).
  match goal with
  | |- context [{| rd := ?x; log := ?l; tagsOut := ?t |}] =>
    replace x with d1
      by (subst d1 url1;
          repeat (match goal with
                  |- context [bool_decide ?P] => destruct (bool_decide P)
                  end); reflexivity)
  end.
  assert (Get d1 "api_id" = Get d "api_id") as Hsame.
  { subst d1. destruct url1; [rewrite Get_d_Set_ne by done|];
      apply Get_readWrites_api_id. }
  assert (Id d1 = Id d) as Hid by (subst d1; by destruct url1).
  assert (readWrites meta resp d1 = d1) as Htwice
    by apply (readWrites_twice meta d resp url1).
  rewrite (resourceStageRead_fetched meta d1 _ _ resp);
    [|by rewrite Hsame, Hid].
  rewrite Hsame, Hid, Hapi', Htwice. cbv zeta. cbn [rd tagsOut].
  split; [reflexivity|]. split; [|reflexivity].
  subst d1 url1.
  repeat (match goal with
          |- context [bool_decide ?P] => destruct (bool_decide P)
          end); try reflexivity; apply d_Set_id, set_level_d_Set_eq.
Qed.

Lemma read_twice_stable_witness :
  ∃ s1 s2,
    resourceStageRead (metaOf (connOk "HTTP" stageFull))
      (stateOf (stageData "prod" [] [])) = Some ([], s1)
    ∧ resourceStageRead (metaOf (connOk "HTTP" stageFull)) s1 = Some ([], s2)
    ∧ rd s2 = rd s1
    ∧ tagsOut s2 = tagsOut s1.
Proof.
  exact (read_twice_stable (metaOf (connOk "HTTP" stageFull))
           (stateOf (stageData "prod" [] [])) stageFull
           {| GetApiOutput.ProtocolType := "HTTP" |} eq_refl eq_refl eq_refl eq_refl).
Defined.

Section UpdateMore.
Variable meta : AWSClient.
Implicit Types (d : ResourceData) (calls : list Call).

(** A hard failure of a per-key delete ends the loop at once. *)
Lemma deleteRouteSettings_loop_failure (diags : Diagnostics)
    (pre post : list (gmap string value)) (v : gmap string value) (k msg : string)
    d calls (tags : option (gmap string string)) :
  let apiId := as_string (Get d "api_id") in
  Forall has_route_key pre →
  Forall (λ m, m !! "route_key" ≠ Some (VString k)) pre →
  v !! "route_key" = Some (VString k) →
  (∀ calls' RouteKey, RouteKey ≠ k →
     DeleteRouteSettings (APIGatewayV2Client meta) calls' apiId RouteKey (Id d) = None
     ∨ IsA_NotFoundException
         (DeleteRouteSettings (APIGatewayV2Client meta) calls' apiId RouteKey (Id d))
       = true) →
  (∀ calls', DeleteRouteSettings (APIGatewayV2Client meta) calls' apiId k (Id d)
             = Some (OtherError msg)) →
  deleteRouteSettings_loop meta diags (pre ++ v :: post)
    {| rd := d; log := calls; tagsOut := tags |}
  = Some (Some (AppendErrorf diags
                  ("deleting API Gateway v2 stage (" +:+ Id d
                   +:+ ") route settings (" +:+ k +:+ "): " +:+ msg)),
          {| rd := d;
             log := calls
                    ++ ((λ k', CallDeleteRouteSettings apiId k' (Id d))
                        <$> omap route_key_of pre)
                    ++ [CallDeleteRouteSettings apiId k (Id d)];
             tagsOut := tags |}).
Proof.
  cbv zeta. intros Hwf Hne Hk Htol Hfail. revert calls.
  induction Hwf as [|m pre [km Hkm] _ IH]; intros calls.
  - cbn [app deleteRouteSettings_loop]. rewrite Hk. cbn [assert_string].
    run_update. rewrite Hfail. cbn [IsA_NotFoundException Error omap list_omap fmap
                                    list_fmap app].
    reflexivity.
  - apply Forall_cons in Hne as [Hm Hne].
    assert (m !! "route_key" = Some (VString km)) as Hm'.
    { unfold assert_string in Hkm. by repeat case_match; simplify_eq. }
    cbn [app deleteRouteSettings_loop]. rewrite Hkm. run_update.
    assert (km ≠ k) as Hkm_ne by congruence.
    unfold route_key_of. cbn [omap list_omap]. rewrite Hkm. cbn [fmap list_fmap].
    destruct (Htol calls km Hkm_ne) as [Hnone|Hnf].
    + rewrite Hnone. cbn [IsA_NotFoundException]. rewrite (IH Hne).
      by rewrite <- app_assoc.
    + rewrite Hnf. rewrite (IH Hne). by rewrite <- app_assoc.
Qed.
End UpdateMore.

(** X14. When a field changed and the lookup of the owning API fails, Update
    reports the lookup error and does nothing else: no delete, no update
    call, no Read, and the store is untouched. *)
Theorem update_api_lookup_failure (meta : AWSClient) (s : St) (err : error) :
  let apiId := as_string (Get (rd s) "api_id") in
  HasChanges (rd s) stageUpdateKeys = true →
  GetApi (APIGatewayV2Client meta) (log s) apiId = Err err →
  resourceStageUpdate meta s
  = Some (["reading API Gateway v2 API (" +:+ apiId +:+ "): " +:+ Error err],
          {| rd := rd s; log := log s ++ [CallGetApi apiId]; tagsOut := tagsOut s |}).
Proof.
  destruct s as [d calls tags]. cbv zeta. cbn [rd log tagsOut]. intros Hchanged Hapi.
  run_update. rewrite Hchanged. run_update. rewrite Hapi. reflexivity.
Qed.

Lemma update_api_lookup_failure_witness :
  resourceStageUpdate (metaOf connDown) (stateOf stageDataScalars)
  = Some (["reading API Gateway v2 API (abc123): TooManyRequestsException: Rate exceeded"],
          {| rd := stageDataScalars; log := [CallGetApi "abc123"]; tagsOut := None |}).
Proof.
  apply (update_api_lookup_failure (metaOf connDown) (stateOf stageDataScalars)
           (OtherError "TooManyRequestsException: Rate exceeded")).
  - vm_compute. reflexivity.
  - reflexivity.
Defined.

(** X15. A per-key delete that fails for a reason other than not-found stops
    Update: the deletes before it have been issued, those after it are not,
    no update call and no Read follow, and the delete error is reported. *)
Theorem update_delete_failure_stops (meta : AWSClient) (s : St)
    (apiOutput : GetApiOutput.t) (o n pre post : list (gmap string value))
    (v : gmap string value) (k msg : string) :
  let d := rd s in
  let apiId := as_string (Get d "api_id") in
  HasChange d "route_settings" = true →
  GetChange d "route_settings" = (ASet o, ASet n) →
  GetApi (APIGatewayV2Client meta) (log s) apiId = Ok apiOutput →
  SchemaSet.List (SchemaSet.Difference o n) = pre ++ v :: post →
  Forall has_route_key pre →
  Forall (λ m, m !! "route_key" ≠ Some (VString k)) pre →
  v !! "route_key" = Some (VString k) →
  (∀ calls RouteKey, RouteKey ≠ k →
     DeleteRouteSettings (APIGatewayV2Client meta) calls apiId RouteKey (Id d) = None
     ∨ IsA_NotFoundException
         (DeleteRouteSettings (APIGatewayV2Client meta) calls apiId RouteKey (Id d))
       = true) →
  (∀ calls, DeleteRouteSettings (APIGatewayV2Client meta) calls apiId k (Id d)
            = Some (OtherError msg)) →
  resourceStageUpdate meta s
  = Some (["deleting API Gateway v2 stage (" +:+ Id d +:+ ") route settings ("
           +:+ k +:+ "): " +:+ msg],
          {| rd := d;
             log := log s
                    ++ CallGetApi apiId
                       :: ((λ k', CallDeleteRouteSettings apiId k' (Id d))
                           <$> omap route_key_of pre)
                    ++ [CallDeleteRouteSettings apiId k (Id d)];
             tagsOut := tagsOut s |}).
Proof.
  destruct s as [d calls tags]. cbv zeta. cbn [rd log tagsOut].
  intros Hchanged Hchange Hapi Hdiff Hwf Hne Hk Htol Hfail.
  run_update.
  rewrite (HasChanges_of_HasChange d "route_settings") by (try done; repeat constructor).
  run_update. rewrite Hapi, Hchanged, Hchange. cbn [as_set]. rewrite Hdiff.
  rewrite (deleteRouteSettings_loop_failure meta [] pre post v k msg d _ tags
             Hwf Hne Hk Htol Hfail).
  unfold AppendErrorf. cbn [app]. by rewrite <- app_assoc.
Qed.

Lemma update_delete_failure_stops_witness :
  resourceStageUpdate (metaOf connKeepB)
    (stateOf (stageData "prod" [routeA 1; routeB; routeC] []))
  = Some (["deleting API Gateway v2 stage (prod) route settings (B): ConflictException: Route settings are in use"],
          {| rd := stageData "prod" [routeA 1; routeB; routeC] [];
             log := [CallGetApi "abc123"; CallDeleteRouteSettings "abc123" "A" "prod";
                     CallDeleteRouteSettings "abc123" "B" "prod"];
             tagsOut := None |}).
Proof.
  apply (update_delete_failure_stops (metaOf connKeepB)
           (stateOf (stageData "prod" [routeA 1; routeB; routeC] []))
           {| GetApiOutput.ProtocolType := "HTTP" |}
           [routeA 1; routeB; routeC] [] [routeA 1] [routeC] routeB "B"
           "ConflictException: Route settings are in use").
  - vm_compute. reflexivity.
  - vm_compute. reflexivity.
  - reflexivity.
  - vm_compute. reflexivity.
  - repeat constructor. by eexists.
  - repeat constructor. discriminate.
  - reflexivity.
  - intros calls RouteKey Hne. left. cbn.
    by rewrite bool_decide_eq_false_2.
  - intros calls. reflexivity.
Defined.

(** X16. When the update call fails, Update reports the update error and
    performs no Read: the store is left as it was (here for a change-set
    that leaves the route overrides alone). *)
Theorem update_call_failure_no_read (meta : AWSClient) (s : St)
    (apiOutput : GetApiOutput.t) (err : error) :
  let d := rd s in
  let apiId := as_string (Get d "api_id") in
  HasChanges d stageUpdateKeys = true →
  HasChange d "route_settings" = false →
  GetApi (APIGatewayV2Client meta) (log s) apiId = Ok apiOutput →
  (∀ calls req, UpdateStage (APIGatewayV2Client meta) calls req = Some err) →
  ∃ req,
    resourceStageUpdate meta s
    = Some (["updating API Gateway v2 stage (" +:+ Id d +:+ "): " +:+ Error err],
            {| rd := d;
               log := log s ++ [CallGetApi apiId; CallUpdateStage req];
               tagsOut := tagsOut s |}).
Proof.
  destruct s as [d calls tags]. cbv zeta. cbn [rd log tagsOut].
  intros Hchanged Hroute Hapi Hfail.
  run_update. rewrite Hchanged. run_update. rewrite Hapi, Hroute. run_update.
  rewrite Hfail. eexists. unfold AppendErrorf. cbn [app].
  rewrite <- app_assoc. reflexivity.
Qed.

Lemma update_call_failure_no_read_witness :
  ∃ req,
    resourceStageUpdate (metaOf connNoUpdate) (stateOf stageDataScalars)
    = Some (["updating API Gateway v2 stage (prod): ConflictException: Stage is being deployed"],
            {| rd := stageDataScalars;
               log := [CallGetApi "abc123"; CallUpdateStage req];
               tagsOut := None |}).
Proof.
  apply (update_call_failure_no_read (metaOf connNoUpdate) (stateOf stageDataScalars)
           {| GetApiOutput.ProtocolType := "HTTP" |}
           (OtherError "ConflictException: Stage is being deployed")).
  - vm_compute. reflexivity.
  - vm_compute. reflexivity.
  - reflexivity.
  - intros calls req. reflexivity.
Defined.

(** X17. The update request is minimal: when the route overrides did not
    change, the one update call names the API and the stage and carries
    each field exactly when that field changed, at its new value; a field
    that did not change, and the route overrides, are absent from it. *)
Theorem update_request_minimal (meta : AWSClient) (s : St)
    (apiOutput : GetApiOutput.t) :
  let d := rd s in
  let apiId := as_string (Get d "api_id") in
  let protocolType := GetApiOutput.ProtocolType apiOutput in
  let varsOld := as_map (GetChange d "stage_variables").1 in
  let varsNew := as_map (GetChange d "stage_variables").2 in
  HasChanges d stageUpdateKeys = true →
  HasChange d "route_settings" = false →
  GetApi (APIGatewayV2Client meta) (log s) apiId = Ok apiOutput →
  ∃ diags s' req rest,
    resourceStageUpdate meta s = Some (diags, s')
    ∧ log s' = log s ++ CallGetApi apiId :: CallUpdateStage req :: rest
    ∧ Forall (λ c, is_UpdateStage c = false ∧ is_DeleteRouteSettings c = false) rest
    ∧ UpdateStageInput.ApiId req = Some apiId
    ∧ UpdateStageInput.StageName req = Some (Id d)
    ∧ UpdateStageInput.AccessLogSettings req
      = (if HasChange d "access_log_settings"
         then Some (expandAccessLogSettings (as_list (Get d "access_log_settings")))
         else None)
    ∧ UpdateStageInput.AutoDeploy req
      = (if HasChange d "auto_deploy"
         then Some (as_bool (Get d "auto_deploy")) else None)
    ∧ UpdateStageInput.ClientCertificateId req
      = (if HasChange d "client_certificate_id"
         then Some (as_string (Get d "client_certificate_id")) else None)
    ∧ UpdateStageInput.DefaultRouteSettings req
      = (if HasChange d "default_route_settings"
         then Some (expandDefaultRouteSettings
                      (as_list (Get d "default_route_settings")) protocolType)
         else None)
    ∧ UpdateStageInput.DeploymentId req
      = (if HasChange d "deployment_id"
         then Some (as_string (Get d "deployment_id")) else None)
    ∧ UpdateStageInput.Description req
      = (if HasChange d "description"
         then Some (as_string (Get d "description")) else None)
    ∧ UpdateStageInput.RouteSettings req = None
    ∧ UpdateStageInput.StageVariables req
      = (if HasChange d "stage_variables"
         then Some (mergeStageVariables
                      (flex.DiffStringValueMaps varsOld varsNew).1.1
                      (flex.DiffStringValueMaps varsOld varsNew).1.2)
         else None).
Proof.
  destruct s as [d calls tags]. cbv zeta. cbn [rd log tagsOut].
  intros Hchanged Hroute Hapi.
  run_update. rewrite Hchanged. run_update. rewrite Hapi, Hroute. run_update.
  match goal with
  | |- context [UpdateStage _ _ ?r] => set (req := r)
  end.
  assert (∃ diags s' rest,
            match
              match UpdateStage (APIGatewayV2Client meta)
                      (calls ++ [CallGetApi (as_string (Get d "api_id"))]) req with
              | Some err =>
                λ s0 : St,
                  Some (Some (AppendErrorf []
                                ("updating API Gateway v2 stage (" +:+ Id d +:+ "): "
                                 +:+ Error err)), s0)
              | None => λ s0 : St, Some (None, s0)
              end
                {| rd := d;
                   log := (calls ++ [CallGetApi (as_string (Get d "api_id"))])
                          ++ [CallUpdateStage req];
                   tagsOut := tags |}
            with
            | Some (a, s'0) =>
              match a with
              | Some diags0 => λ s0 : St, Some (diags0, s0)
              | None =>
                λ s0 : St,
                  match resourceStageRead meta s0 with
                  | Some (a0, s'1) => Some ([] ++ a0, s'1)
                  | None => None
                  end
              end s'0
            | None => None
            end = Some (diags, s')
            ∧ log s' = calls ++ CallGetApi (as_string (Get d "api_id"))
                             :: CallUpdateStage req :: rest
            ∧ Forall (λ c, is_UpdateStage c = false ∧ is_DeleteRouteSettings c = false)
                rest) as (diags & s' & rest & Hrun & Hlog & Hrest).
  { destruct (UpdateStage _ _ req) as [err|].
    - eexists _, _, []. split; [reflexivity|]. cbn [log].
      split; [by rewrite <- app_assoc|constructor].
    - match goal with
      | |- context [resourceStageRead meta ?st] =>
        destruct (resourceStageRead_log meta st)
          as (diags & s' & rest & Hread & Hlog & Hrest)
      end.
      rewrite Hread. cbn [rd log] in Hlog.
      eexists _, s', (_ :: rest). split; [reflexivity|].
      split; [rewrite Hlog, <- !app_assoc; reflexivity|].
      constructor; [done|]. destruct Hrest as [-> | ->]; repeat constructor. }
  exists diags, s', req, rest.
  split; [exact Hrun|]. split; [exact Hlog|]. split; [exact Hrest|].
  clear Hrun Hlog Hrest. subst req. unfold when.
  destruct (GetChange d "stage_variables") as [vo vn]. cbn [fst snd].
  destruct (flex.DiffStringValueMaps (as_map vo) (as_map vn)) as [[add del] unchanged].
  cbn [fst snd].
  destruct (HasChange d "access_log_settings"), (HasChange d "auto_deploy"),
    (HasChange d "client_certificate_id"), (HasChange d "default_route_settings"),
    (HasChange d "deployment_id"), (HasChange d "description"),
    (HasChange d "stage_variables"); split_and!; reflexivity.
Qed.

Lemma update_request_minimal_witness :
  ∃ diags s' req rest,
    resourceStageUpdate (metaOf (connOk "HTTP" stageProd)) (stateOf stageDataScalars)
    = Some (diags, s')
    ∧ log s' = CallGetApi "abc123" :: CallUpdateStage req :: rest
    ∧ UpdateStageInput.Description req = Some "new"
    ∧ UpdateStageInput.AutoDeploy req = None
    ∧ UpdateStageInput.DeploymentId req = None
    ∧ UpdateStageInput.RouteSettings req = None.
Proof.
  destruct (update_request_minimal (metaOf (connOk "HTTP" stageProd))
              (stateOf stageDataScalars) {| GetApiOutput.ProtocolType := "HTTP" |})
    as (diags & s' & req & rest & Hrun & Hlog & _ & _ & _ & _ & Hauto & _ & _ & Hdep
        & Hdesc & Hroute & _).
  - vm_compute. reflexivity.
  - vm_compute. reflexivity.
  - reflexivity.
  - exists diags, s', req, rest.
    split_and!; [exact Hrun|exact Hlog|exact Hdesc|exact Hauto|exact Hdep|exact Hroute].
Defined.

(** X18. When the update call succeeds, Update ends with a Read made after
    it: what Update returns is what Read returns from the state in which
    the lookup and the update call have been logged. *)
Theorem update_success_then_read (meta : AWSClient) (s : St)
    (apiOutput : GetApiOutput.t) :
  let d := rd s in
  let apiId := as_string (Get d "api_id") in
  HasChanges d stageUpdateKeys = true →
  HasChange d "route_settings" = false →
  GetApi (APIGatewayV2Client meta) (log s) apiId = Ok apiOutput →
  (∀ calls req, UpdateStage (APIGatewayV2Client meta) calls req = None) →
  ∃ req,
    resourceStageUpdate meta s
    = resourceStageRead meta
        {| rd := d; log := log s ++ [CallGetApi apiId; CallUpdateStage req];
           tagsOut := tagsOut s |}.
Proof.
  destruct s as [d calls tags]. cbv zeta. cbn [rd log tagsOut].
  intros Hchanged Hroute Hapi Hok.
  run_update. rewrite Hchanged. run_update. rewrite Hapi, Hroute. run_update.
  rewrite Hok. eexists. rewrite <- app_assoc. cbn [app].
  match goal with
  | |- context [resourceStageRead meta ?st] =>
    destruct (resourceStageRead_log meta st) as (diags & s' & rest & Hread & _)
  end.
  by rewrite Hread.
Qed.

Lemma update_success_then_read_witness :
  ∃ req,
    resourceStageUpdate (metaOf (connOk "HTTP" stageProd)) (stateOf stageDataScalars)
    = resourceStageRead (metaOf (connOk "HTTP" stageProd))
        {| rd := stageDataScalars;
           log := [CallGetApi "abc123"; CallUpdateStage req]; tagsOut := None |}.
Proof.
  apply (update_success_then_read (metaOf (connOk "HTTP" stageProd))
           (stateOf stageDataScalars) {| GetApiOutput.ProtocolType := "HTTP" |}).
  - vm_compute. reflexivity.
  - vm_compute. reflexivity.
  - reflexivity.
  - intros calls req. reflexivity.
Defined.

(** ** Import, continued *)

Section SplitJoin.
Variable sep : Ascii.ascii.

Lemma Split_not_nil (s : string) : strings.Split s sep ≠ [].
Proof.
  intros H. pose proof (Split_length s sep) as Hlen. by rewrite H in Hlen.
Qed.

Lemma Join_cons (part : string) (parts : list string) :
  parts ≠ [] →
  strings_Join (part :: parts) sep = part +:+ String sep (strings_Join parts sep).
Proof. by destruct parts. Qed.

Lemma Join_String_head (c : Ascii.ascii) (part : string) (parts : list string) :
  strings_Join (String c part :: parts) sep = String c (strings_Join (part :: parts) sep).
Proof. by destruct parts. Qed.

Lemma Join_Split (s : string) : strings_Join (strings.Split s sep) sep = s.
Proof.
  induction s as [|c s IH]; [reflexivity|]. cbn [strings.Split].
  pose proof (Split_not_nil s) as Hnil.
  destruct (Ascii.eqb_spec c sep) as [->|Hne].
  - rewrite Join_cons by done. by rewrite IH.
  - destruct (strings.Split s sep) as [|p ps]; [done|].
    by rewrite Join_String_head, IH.
Qed.

Lemma Split_no_sep (s : string) :
  Forall (λ part, contains_byte part sep = false) (strings.Split s sep).
Proof.
  induction s as [|c s IH]; [by repeat constructor|]. cbn [strings.Split].
  destruct (Ascii.eqb_spec c sep) as [->|Hne].
  - by constructor.
  - pose proof (Split_not_nil s) as Hnil.
    destruct (strings.Split s sep) as [|p ps]; [done|].
    apply Forall_cons in IH as [Hp Hps]. constructor; [|done].
    cbn [contains_byte]. rewrite Hp.
    by destruct (Ascii.eqb_spec c sep).
Qed.
End SplitJoin.

(** X19. When the fetch of Import fails, Import returns that error as it is
    and leaves the store untouched: the composite id is kept and no api_id
    is written. *)
Theorem import_remote_error_passthrough (meta : AWSClient) (s : St) (err : error) :
  let parts := strings.Split (Id (rd s)) "/" in
  length parts = 2%nat →
  GetStage (APIGatewayV2Client meta) (log s) (nth 0 parts "") (nth 1 parts "") = Err err →
  resourceStageImport meta s
  = Some (([], Some err),
          {| rd := rd s;
             log := log s ++ [CallGetStage (nth 0 parts "") (nth 1 parts "")];
             tagsOut := tagsOut s |}).
Proof.
  destruct s as [d calls tags]. cbv zeta. cbn [rd log tagsOut]. intros Hlen Hget.
  run_callback. rewrite bool_decide_eq_false_2 by (by intros ?).
  by rewrite Hget.
Qed.

Lemma import_remote_error_passthrough_witness :
  resourceStageImport (metaOf connGone) (stateOf (stageData "abc123/prod" [] []))
  = Some (([], Some (NotFoundException
                       "NotFoundException: Invalid stage identifier specified")),
          {| rd := stageData "abc123/prod" [] [];
             log := [CallGetStage "abc123" "prod"]; tagsOut := None |}).
Proof.
  apply (import_remote_error_passthrough (metaOf connGone)
           (stateOf (stageData "abc123/prod" [] []))
           (NotFoundException "NotFoundException: Invalid stage identifier specified"));
    reflexivity.
Defined.

(** X20. Import refuses a stage that the remote side marks as managed (made
    by quick create): it returns the quick-create error naming the stage
    and leaves the store untouched. *)
Theorem import_quick_create_refused (meta : AWSClient) (s : St)
    (resp : GetStageOutput.t) :
  let parts := strings.Split (Id (rd s)) "/" in
  length parts = 2%nat →
  GetStage (APIGatewayV2Client meta) (log s) (nth 0 parts "") (nth 1 parts "") = Ok resp →
  GetStageOutput.ApiGatewayManaged resp = Some true →
  resourceStageImport meta s
  = Some (([], Some (OtherError ("API Gateway v2 stage (" +:+ nth 1 parts ""
                                 +:+ ") was created via quick create"))),
          {| rd := rd s;
             log := log s ++ [CallGetStage (nth 0 parts "") (nth 1 parts "")];
             tagsOut := tagsOut s |}).
Proof.
  destruct s as [d calls tags]. cbv zeta. cbn [rd log tagsOut]. intros Hlen Hget Hmanaged.
  run_callback. rewrite bool_decide_eq_false_2 by (by intros ?).
  by rewrite Hget, Hmanaged.
Qed.

Lemma import_quick_create_refused_witness :
  resourceStageImport (metaOf (connOk "HTTP" stageManaged))
    (stateOf (stageData "abc123/$default" [] []))
  = Some (([], Some (OtherError
                       "API Gateway v2 stage ($default) was created via quick create")),
          {| rd := stageData "abc123/$default" [] [];
             log := [CallGetStage "abc123" "$default"]; tagsOut := None |}).
Proof.
  apply (import_quick_create_refused (metaOf (connOk "HTTP" stageManaged))
           (stateOf (stageData "abc123/$default" [] [])) stageManaged); reflexivity.
Defined.

(** X21. A successful Import takes the identifier apart without loss: the
    api_id and the id it writes contain no "/" and, joined by "/", give
    the identifier that was imported. *)
Theorem import_recomposes_id (meta : AWSClient) (s : St)
    (ds : list ResourceData) (s' : St) :
  resourceStageImport meta s = Some ((ds, None), s') →
  ds = [rd s']
  ∧ as_string (Get (rd s') "api_id") +:+ "/" +:+ Id (rd s') = Id (rd s)
  ∧ contains_byte (as_string (Get (rd s') "api_id")) "/" = false
  ∧ contains_byte (Id (rd s')) "/" = false.
Proof.
  destruct s as [d calls tags]. cbn [rd]. run_callback.
  pose proof (Join_Split "/" (Id d)) as Hjoin.
  pose proof (Split_no_sep "/" (Id d)) as Hsep.
  destruct (bool_decide_reflect (length (strings.Split (Id d) "/") ≠ 2%nat)) as [|Hlen];
    [done|].
  destruct (strings.Split (Id d) "/") as [|p0 [|p1 [|? ?]]];
    try (exfalso; apply Hlen; by intros [=]).
  cbn [nth] in *. cbn [strings_Join] in Hjoin.
  apply Forall_cons in Hsep as [H0 Hsep]. apply Forall_cons in Hsep as [H1 _].
  destruct (GetStage _ _ _ _) as [resp|err]; [|done].
  destruct (aws.ToBool _); [done|]. intros [= <- <-]. cbn [rd].
  unfold SetId. rewrite Get_d_Set_eq. cbn [as_string d_Set Id].
  split_and!; done.
Qed.

Lemma import_recomposes_id_witness :
  ∃ s',
    resourceStageImport (metaOf (connOk "HTTP" stageProd))
      (stateOf (stageData "abc123/prod" [] [])) = Some (([rd s'], None), s')
    ∧ as_string (Get (rd s') "api_id") +:+ "/" +:+ Id (rd s') = "abc123/prod".
Proof.
  exists {| rd := d_Set "api_id" (AString "abc123")
                    (SetId "prod" (stageData "abc123/prod" [] []));
            log := [CallGetStage "abc123" "prod"]; tagsOut := None |}.
  assert (resourceStageImport (metaOf (connOk "HTTP" stageProd))
            (stateOf (stageData "abc123/prod" [] []))
          = Some (([d_Set "api_id" (AString "abc123")
                      (SetId "prod" (stageData "abc123/prod" [] []))], None),
                  {| rd := d_Set "api_id" (AString "abc123")
                             (SetId "prod" (stageData "abc123/prod" [] []));
                     log := [CallGetStage "abc123" "prod"]; tagsOut := None |}))
    as Himport by (vm_compute; reflexivity).
  split; [exact Himport|].
  exact (proj1 (proj2 (import_recomposes_id _ _ _ _ Himport))).
Defined.

(** X22. Import and Read agree on the stage: after a successful Import, Read
    fetches the stage under the API id and the name that Import took from
    the identifier. *)
Theorem import_then_read (meta : AWSClient) (s : St)
    (ds : list ResourceData) (s' : St) :
  let parts := strings.Split (Id (rd s)) "/" in
  resourceStageImport meta s = Some ((ds, None), s') →
  ∃ diags s'' rest,
    resourceStageRead meta s' = Some (diags, s'')
    ∧ log s'' = log s ++ CallGetStage (nth 0 parts "") (nth 1 parts "")
                      :: CallGetStage (nth 0 parts "") (nth 1 parts "") :: rest.
Proof.
  cbv zeta. intros Himport.
  destruct (resourceStageRead_log meta s') as (diags & s'' & rest & Hread & Hlog & _).
  exists diags, s'', rest. split; [exact Hread|]. rewrite Hlog. clear Hread Hlog.
  destruct s as [d calls tags]. cbn [rd log]. revert Himport. run_callback.
  destruct (bool_decide (length (strings.Split (Id d) "/") ≠ 2%nat)); [done|].
  destruct (GetStage _ _ _ _) as [resp|err]; [|done].
  destruct (aws.ToBool _); [done|]. intros [= <- <-]. cbn [rd log].
  unfold SetId. rewrite Get_d_Set_eq. cbn [as_string d_Set Id].
  by rewrite <- app_assoc.
Qed.

Lemma import_then_read_witness :
  ∃ diags s'' rest,
    resourceStageRead (metaOf (connOk "HTTP" stageProd))
      {| rd := d_Set "api_id" (AString "abc123")
                 (SetId "prod" (stageData "abc123/prod" [] []));
         log := [CallGetStage "abc123" "prod"]; tagsOut := None |}
    = Some (diags, s'')
    ∧ log s'' = CallGetStage "abc123" "prod" :: CallGetStage "abc123" "prod" :: rest.
Proof.
  apply (import_then_read (metaOf (connOk "HTTP" stageProd))
           (stateOf (stageData "abc123/prod" [] []))
           [d_Set "api_id" (AString "abc123")
              (SetId "prod" (stageData "abc123/prod" [] []))]).
  vm_compute. reflexivity.
Defined.

(** ** Create *)

(** X23. When the lookup of the owning API fails, Create reports the lookup
    error and sends no create request; the id stays unset. *)
Theorem create_api_lookup_failure (meta : AWSClient) (CreateStage : CreateStageOp)
    (tagsIn : gmap string string) (cs : CreateSt) (err : error) :
  let d := rd (base cs) in
  let apiId := as_string (Get d "api_id") in
  GetApi (APIGatewayV2Client meta) (log (base cs)) apiId = Err err →
  resourceStageCreate meta CreateStage tagsIn cs
  = Some (["reading API Gateway v2 API (" +:+ apiId +:+ "): " +:+ Error err],
          {| base := {| rd := d; log := log (base cs) ++ [CallGetApi apiId];
                        tagsOut := tagsOut (base cs) |};
             created := created cs |}).
Proof.
  destruct cs as [[d calls tags] reqs]. cbv zeta. cbn [base rd log tagsOut created].
  intros Hapi. run_create. by rewrite Hapi.
Qed.

Lemma create_api_lookup_failure_witness :
  resourceStageCreate (metaOf connDown) (createNamed "prod") ∅
    (createStateOf stageDataCreate)
  = Some (["reading API Gateway v2 API (abc123): TooManyRequestsException: Rate exceeded"],
          {| base := {| rd := stageDataCreate; log := [CallGetApi "abc123"];
                        tagsOut := None |};
             created := [] |}).
Proof.
  apply (create_api_lookup_failure (metaOf connDown) (createNamed "prod") ∅
           (createStateOf stageDataCreate)
           (OtherError "TooManyRequestsException: Rate exceeded")).
  reflexivity.
Defined.

Section CreateMore.
Variable meta : AWSClient.
Variable CreateStage : CreateStageOp.
Variable tagsIn : gmap string string.

(** Create up to the answer of the create call, for route overrides the
    expander accepts. *)
Lemma resourceStageCreate_sent (d : ResourceData) (calls : list Call)
    (tags : option (gmap string string)) (reqs : list CreateStageInput.t)
    (apiOutput : GetApiOutput.t) :
  let apiId := as_string (Get d "api_id") in
  GetApi (APIGatewayV2Client meta) calls apiId = Ok apiOutput →
  Forall has_route_key (as_set (Get d "route_settings")) →
  ∃ req,
    resourceStageCreate meta CreateStage tagsIn
      {| base := {| rd := d; log := calls; tagsOut := tags |}; created := reqs |}
    = match CreateStage (calls ++ [CallGetApi apiId]) req with
      | Err err =>
        Some (["creating API Gateway v2 stage: " +:+ Error err],
              {| base := {| rd := d; log := calls ++ [CallGetApi apiId];
                            tagsOut := tags |};
                 created := reqs ++ [req] |})
      | Ok resp =>
        match resourceStageRead meta
                {| rd := SetId (aws.ToString (CreateStageOutput.StageName resp)) d;
                   log := calls ++ [CallGetApi apiId]; tagsOut := tags |} with
        | None => None
        | Some (diags', s') => Some (diags', {| base := s'; created := reqs ++ [req] |})
        end
      end
    ∧ CreateStageInput.ApiId req = Some apiId
    ∧ CreateStageInput.StageName req = Some (as_string (Get d "name"))
    ∧ CreateStageInput.AutoDeploy req = Some (as_bool (Get d "auto_deploy"))
    ∧ CreateStageInput.Tags req = tagsIn
    ∧ CreateStageInput.AccessLogSettings req
      = (if (GetOk d "access_log_settings").2
         then Some (expandAccessLogSettings (as_list (Get d "access_log_settings")))
         else None)
    ∧ CreateStageInput.ClientCertificateId req
      = (if (GetOk d "client_certificate_id").2
         then Some (as_string (Get d "client_certificate_id")) else None)
    ∧ CreateStageInput.DefaultRouteSettings req
      = (if (GetOk d "default_route_settings").2
         then Some (expandDefaultRouteSettings
                      (as_list (Get d "default_route_settings"))
                      (GetApiOutput.ProtocolType apiOutput))
         else None)
    ∧ CreateStageInput.DeploymentId req
      = (if (GetOk d "deployment_id").2
         then Some (as_string (Get d "deployment_id")) else None)
    ∧ CreateStageInput.Description req
      = (if (GetOk d "description").2
         then Some (as_string (Get d "description")) else None)
    ∧ CreateStageInput.RouteSettings req
      = (if (GetOk d "route_settings").2
         then expandRouteSettings (Some <$> SchemaSet.List (as_set (Get d "route_settings")))
                (GetApiOutput.ProtocolType apiOutput)
         else None)
    ∧ CreateStageInput.StageVariables req
      = (if (GetOk d "stage_variables").2
         then Some (as_map (Get d "stage_variables")) else None).
Proof.
  cbv zeta. intros Hapi Hwf.
  destruct (expandRouteSettings_loop_total (GetApiOutput.ProtocolType apiOutput) _ ∅ Hwf)
    as [settings Hsettings].
  change (expandRouteSettings (Some <$> SchemaSet.List (as_set (Get d "route_settings")))
            (GetApiOutput.ProtocolType apiOutput) = Some settings) in Hsettings.
  run_create. rewrite Hapi. unfold GetOk, when, ExpandStringValueMap, AppendErrorf.
  cbv beta iota zeta. cbn [fst snd app]. rewrite Hsettings.
  destruct (negb (bool_decide (Get d "access_log_settings" = _))),
    (negb (bool_decide (Get d "client_certificate_id" = _))),
    (negb (bool_decide (Get d "default_route_settings" = _))),
    (negb (bool_decide (Get d "deployment_id" = _))),
    (negb (bool_decide (Get d "description" = _))),
    (negb (bool_decide (Get d "route_settings" = _))),
    (negb (bool_decide (Get d "stage_variables" = _)));
    eexists; (split; [reflexivity|]); split_and!; reflexivity.
Qed.
End CreateMore.

(** X24. When the create call fails, Create reports the creation error,
    keeps the id unset and performs no Read; the request has been sent
    once. *)
Theorem create_call_failure (meta : AWSClient) (CreateStage : CreateStageOp)
    (tagsIn : gmap string string) (cs : CreateSt) (apiOutput : GetApiOutput.t)
    (err : error) :
  let d := rd (base cs) in
  let apiId := as_string (Get d "api_id") in
  GetApi (APIGatewayV2Client meta) (log (base cs)) apiId = Ok apiOutput →
  Forall has_route_key (as_set (Get d "route_settings")) →
  (∀ calls req, CreateStage calls req = Err err) →
  ∃ req,
    resourceStageCreate meta CreateStage tagsIn cs
    = Some (["creating API Gateway v2 stage: " +:+ Error err],
            {| base := {| rd := d; log := log (base cs) ++ [CallGetApi apiId];
                          tagsOut := tagsOut (base cs) |};
               created := created cs ++ [req] |}).
Proof.
  destruct cs as [[d calls tags] reqs]. cbv zeta. cbn [base rd log tagsOut created].
  intros Hapi Hwf Hfail.
  destruct (resourceStageCreate_sent meta CreateStage tagsIn d calls tags reqs apiOutput
              Hapi Hwf) as (req & Hrun & _).
  exists req. by rewrite Hrun, Hfail.
Qed.

Lemma create_call_failure_witness :
  ∃ req,
    resourceStageCreate (metaOf (connOk "HTTP" stageProd)) createRefused ∅
      (createStateOf stageDataCreate)
    = Some (["creating API Gateway v2 stage: ConflictException: Stage already exists"],
            {| base := {| rd := stageDataCreate; log := [CallGetApi "abc123"];
                          tagsOut := None |};
               created := [req] |}).
Proof.
  apply (create_call_failure (metaOf (connOk "HTTP" stageProd)) createRefused ∅
           (createStateOf stageDataCreate) {| GetApiOutput.ProtocolType := "HTTP" |}
           (OtherError "ConflictException: Stage already exists")).
  - reflexivity.
  - change (Forall has_route_key [routeInfo]). repeat constructor. by eexists.
  - intros calls req. reflexivity.
Defined.

(** X25. When the create call succeeds, Create takes the stage name of the
    answer as the id and ends with a Read of that stage: what it returns
    is what Read returns from the store with the new id, and the first
    call of that Read fetches the stage under the new name. *)
Theorem create_success_then_read (meta : AWSClient) (CreateStage : CreateStageOp)
    (tagsIn : gmap string string) (cs : CreateSt) (apiOutput : GetApiOutput.t)
    (resp : CreateStageOutput.t) :
  let d := rd (base cs) in
  let apiId := as_string (Get d "api_id") in
  let name := aws.ToString (CreateStageOutput.StageName resp) in
  GetApi (APIGatewayV2Client meta) (log (base cs)) apiId = Ok apiOutput →
  Forall has_route_key (as_set (Get d "route_settings")) →
  (∀ calls req, CreateStage calls req = Ok resp) →
  ∃ req diags s' rest,
    resourceStageCreate meta CreateStage tagsIn cs
    = Some (diags, {| base := s'; created := created cs ++ [req] |})
    ∧ resourceStageRead meta
        {| rd := SetId name d; log := log (base cs) ++ [CallGetApi apiId];
           tagsOut := tagsOut (base cs) |} = Some (diags, s')
    ∧ log s' = log (base cs) ++ CallGetApi apiId :: CallGetStage apiId name :: rest.
Proof.
  destruct cs as [[d calls tags] reqs]. cbv zeta. cbn [base rd log tagsOut created].
  intros Hapi Hwf Hok.
  destruct (resourceStageCreate_sent meta CreateStage tagsIn d calls tags reqs apiOutput
              Hapi Hwf) as (req & Hrun & _).
  rewrite Hok in Hrun.
  match type of Hrun with
  | context [resourceStageRead meta ?st] =>
    destruct (resourceStageRead_log meta st) as (diags & s' & rest & Hread & Hlog & _)
  end.
  rewrite Hread in Hrun. exists req, diags, s', rest.
  split; [exact Hrun|]. split; [exact Hread|].
  rewrite Hlog. cbn [rd log]. by rewrite <- app_assoc.
Qed.

Lemma create_success_then_read_witness :
  ∃ req diags s' rest,
    resourceStageCreate (metaOf (connOk "HTTP" stageProd)) (createNamed "prod") ∅
      (createStateOf stageDataCreate)
    = Some (diags, {| base := s'; created := [req] |})
    ∧ resourceStageRead (metaOf (connOk "HTTP" stageProd))
        {| rd := SetId "prod" stageDataCreate; log := [CallGetApi "abc123"];
           tagsOut := None |} = Some (diags, s')
    ∧ log s' = CallGetApi "abc123" :: CallGetStage "abc123" "prod" :: rest.
Proof.
  apply (create_success_then_read (metaOf (connOk "HTTP" stageProd))
           (createNamed "prod") ∅
           (createStateOf stageDataCreate) {| GetApiOutput.ProtocolType := "HTTP" |}
           {| CreateStageOutput.StageName := Some "prod" |}).
  - reflexivity.
  - change (Forall has_route_key [routeInfo]). repeat constructor. by eexists.
  - intros calls req. reflexivity.
Defined.

Lemma expandDefaultRouteSettings_gate_list (vSettings : ifaceList) (F : string) :
  F ≠ ProtocolTypeWebsocket →
  DataTraceEnabled (expandDefaultRouteSettings vSettings F) = None
  ∧ LoggingLevel (expandDefaultRouteSettings vSettings F) = "".
Proof.
  intros HF. destruct vSettings as [|[m|] rest]; [done| |done].
  exact (expandDefaultRouteSettings_gate m F HF).
Qed.

(** X26. The create request always names the API and the stage and carries
    the auto-deploy flag and the tags; an optional text field, the
    access-log block and the variables are sent exactly when they are not
    empty, so the request never holds an empty description, certificate
    id or deployment id. *)
Theorem create_request_omits_empty (meta : AWSClient) (CreateStage : CreateStageOp)
    (tagsIn : gmap string string) (cs : CreateSt) (apiOutput : GetApiOutput.t) :
  let d := rd (base cs) in
  let apiId := as_string (Get d "api_id") in
  GetApi (APIGatewayV2Client meta) (log (base cs)) apiId = Ok apiOutput →
  Forall has_route_key (as_set (Get d "route_settings")) →
  ∃ diags cs' req,
    resourceStageCreate meta CreateStage tagsIn cs = Some (diags, cs')
    ∧ created cs' = created cs ++ [req]
    ∧ CreateStageInput.ApiId req = Some apiId
    ∧ CreateStageInput.StageName req = Some (as_string (Get d "name"))
    ∧ CreateStageInput.AutoDeploy req = Some (as_bool (Get d "auto_deploy"))
    ∧ CreateStageInput.Tags req = tagsIn
    ∧ (∀ v, Get d "description" = AString v →
         CreateStageInput.Description req = if bool_decide (v = "") then None else Some v)
    ∧ (∀ v, Get d "client_certificate_id" = AString v →
         CreateStageInput.ClientCertificateId req
         = if bool_decide (v = "") then None else Some v)
    ∧ (∀ v, Get d "deployment_id" = AString v →
         CreateStageInput.DeploymentId req
         = if bool_decide (v = "") then None else Some v)
    ∧ (∀ l, Get d "access_log_settings" = AList l →
         CreateStageInput.AccessLogSettings req
         = if bool_decide (l = []) then None else Some (expandAccessLogSettings l))
    ∧ (∀ m, Get d "stage_variables" = AMap m →
         CreateStageInput.StageVariables req
         = if bool_decide (m = ∅) then None else Some (ExpandStringValueMap m)).
Proof.
  destruct cs as [[d calls tags] reqs]. cbv zeta. cbn [base rd log tagsOut created].
  intros Hapi Hwf.
  destruct (resourceStageCreate_sent meta CreateStage tagsIn d calls tags reqs apiOutput
              Hapi Hwf)
    as (req & Hrun & Hid & Hname & Hauto & Htags & Hlog & Hcert & _ & Hdep & Hdesc
        & _ & Hvars).
  assert (∃ diags cs',
            resourceStageCreate meta CreateStage tagsIn
              {| base := {| rd := d; log := calls; tagsOut := tags |}; created := reqs |}
            = Some (diags, cs') ∧ created cs' = reqs ++ [req])
    as (diags & cs' & Hcreate & Hcreated).
  { rewrite Hrun. destruct (CreateStage _ req) as [resp|err]; [|by eexists _, _].
    match goal with
    | |- context [resourceStageRead meta ?st] =>
      destruct (resourceStageRead_log meta st) as (diags & s' & rest & Hread & _)
    end.
    rewrite Hread. by eexists _, _. }
  exists diags, cs', req.
  split; [exact Hcreate|]. split; [exact Hcreated|].
  split; [exact Hid|]. split; [exact Hname|]. split; [exact Hauto|]. split; [exact Htags|].
  unfold GetOk in *. cbn [snd] in *.
  split_and!.
  - intros v Hv. rewrite Hdesc, Hv. cbn [as_string].
    change (schema_zero "description") with (AString "").
    destruct (decide (v = "")) as [->|Hne].
    + by rewrite !bool_decide_eq_true_2.
    + by rewrite !bool_decide_eq_false_2 by congruence.
  - intros v Hv. rewrite Hcert, Hv. cbn [as_string].
    change (schema_zero "client_certificate_id") with (AString "").
    destruct (decide (v = "")) as [->|Hne].
    + by rewrite !bool_decide_eq_true_2.
    + by rewrite !bool_decide_eq_false_2 by congruence.
  - intros v Hv. rewrite Hdep, Hv. cbn [as_string].
    change (schema_zero "deployment_id") with (AString "").
    destruct (decide (v = "")) as [->|Hne].
    + by rewrite !bool_decide_eq_true_2.
    + by rewrite !bool_decide_eq_false_2 by congruence.
  - intros l Hl. rewrite Hlog, Hl. cbn [as_list].
    change (schema_zero "access_log_settings") with (AList []).
    destruct (decide (l = [])) as [->|Hne].
    + by rewrite !bool_decide_eq_true_2.
    + by rewrite !bool_decide_eq_false_2 by congruence.
  - intros m Hm. rewrite Hvars, Hm. cbn [as_map].
    change (schema_zero "stage_variables") with (AMap ∅).
    destruct (decide (m = ∅)) as [->|Hne].
    + by rewrite !bool_decide_eq_true_2.
    + by rewrite !bool_decide_eq_false_2 by congruence.
Qed.

Lemma create_request_omits_empty_witness :
  ∃ diags cs' req,
    resourceStageCreate (metaOf (connOk "HTTP" stageProd)) (createNamed "prod") ∅
      (createStateOf stageDataCreate) = Some (diags, cs')
    ∧ created cs' = [req]
    ∧ CreateStageInput.StageName req = Some "prod"
    ∧ CreateStageInput.AutoDeploy req = Some true
    ∧ CreateStageInput.Description req = Some "production"
    ∧ CreateStageInput.DeploymentId req = None
    ∧ CreateStageInput.StageVariables req = None.
Proof.
  destruct (create_request_omits_empty (metaOf (connOk "HTTP" stageProd))
              (createNamed "prod") ∅ (createStateOf stageDataCreate)
              {| GetApiOutput.ProtocolType := "HTTP" |})
    as (diags & cs' & req & Hrun & Hcreated & _ & Hname & Hauto & _ & Hdesc & _ & Hdep
        & _ & Hvars).
  - reflexivity.
  - change (Forall has_route_key [routeInfo]). repeat constructor. by eexists.
  - exists diags, cs', req.
    split; [exact Hrun|]. split; [exact Hcreated|]. split; [exact Hname|].
    split; [exact Hauto|]. split; [exact (Hdesc "production" eq_refl)|].
    split; [exact (Hdep "" eq_refl)|exact (Hvars ∅ eq_refl)].
Defined.

(** X27. The gate holds on Create: for an API that is not WEBSOCKET, neither
    the default route settings nor any per-route entry of the create
    request carries a trace flag or a logging level. *)
Theorem create_request_gated (meta : AWSClient) (CreateStage : CreateStageOp)
    (tagsIn : gmap string string) (cs : CreateSt) (apiOutput : GetApiOutput.t) :
  let d := rd (base cs) in
  let apiId := as_string (Get d "api_id") in
  GetApi (APIGatewayV2Client meta) (log (base cs)) apiId = Ok apiOutput →
  GetApiOutput.ProtocolType apiOutput ≠ ProtocolTypeWebsocket →
  Forall has_route_key (as_set (Get d "route_settings")) →
  ∃ diags cs' req,
    resourceStageCreate meta CreateStage tagsIn cs = Some (diags, cs')
    ∧ created cs' = created cs ++ [req]
    ∧ (∀ rs, CreateStageInput.DefaultRouteSettings req = Some rs →
         DataTraceEnabled rs = None ∧ LoggingLevel rs = "")
    ∧ (∀ settings k rs,
         CreateStageInput.RouteSettings req = Some settings →
         settings !! k = Some rs →
         DataTraceEnabled rs = None ∧ LoggingLevel rs = "").
Proof.
  destruct cs as [[d calls tags] reqs]. cbv zeta. cbn [base rd log tagsOut created].
  intros Hapi HF Hwf.
  destruct (resourceStageCreate_sent meta CreateStage tagsIn d calls tags reqs apiOutput
              Hapi Hwf)
    as (req & Hrun & _ & _ & _ & _ & _ & _ & Hdefault & _ & _ & Hroutes & _).
  assert (∃ diags cs',
            resourceStageCreate meta CreateStage tagsIn
              {| base := {| rd := d; log := calls; tagsOut := tags |}; created := reqs |}
            = Some (diags, cs') ∧ created cs' = reqs ++ [req])
    as (diags & cs' & Hcreate & Hcreated).
  { rewrite Hrun. destruct (CreateStage _ req) as [resp|err]; [|by eexists _, _].
    match goal with
    | |- context [resourceStageRead meta ?st] =>
      destruct (resourceStageRead_log meta st) as (diags & s' & rest & Hread & _)
    end.
    rewrite Hread. by eexists _, _. }
  exists diags, cs', req.
  split; [exact Hcreate|]. split; [exact Hcreated|]. split.
  - intros rs. rewrite Hdefault. destruct (GetOk d "default_route_settings").2; [|done].
    intros [= <-]. by apply expandDefaultRouteSettings_gate_list.
  - intros settings k rs. rewrite Hroutes.
    destruct (GetOk d "route_settings").2; [|done].
    intros Hexp Hk.
    destruct (expandRouteSettings_result _ _ _ Hexp) as (_ & Hfrom & _).
    destruct (Hfrom k rs Hk) as (m & _ & _ & ->).
    by apply expandRouteSettings_body_gate.
Qed.

Lemma create_request_gated_witness :
  ∃ diags cs' req,
    resourceStageCreate (metaOf (connOk "HTTP" stageProd)) (createNamed "prod") ∅
      (createStateOf stageDataCreate) = Some (diags, cs')
    ∧ created cs' = [req]
    ∧ (∀ rs, CreateStageInput.DefaultRouteSettings req = Some rs →
         DataTraceEnabled rs = None ∧ LoggingLevel rs = "")
    ∧ (∀ settings k rs,
         CreateStageInput.RouteSettings req = Some settings →
         settings !! k = Some rs →
         DataTraceEnabled rs = None ∧ LoggingLevel rs = "").
Proof.
  apply (create_request_gated (metaOf (connOk "HTTP" stageProd))
           (createNamed "prod") ∅ (createStateOf stageDataCreate)
           {| GetApiOutput.ProtocolType := "HTTP" |}).
  - reflexivity.
  - discriminate.
  - change (Forall has_route_key [routeInfo]). repeat constructor. by eexists.
Defined.

(** ** The merge of the variable instructions *)

(** X28. The map Update submits for the variables holds every entry of the
    additions at its value, every other key of the removals with the empty
    string, and nothing else: an empty-string marker never replaces a value
    to be set. *)
Theorem mergeStageVariables_entries (add del : gmap string string) :
  (∀ k v, add !! k = Some v → mergeStageVariables add del !! k = Some v)
  ∧ (∀ k, add !! k = None → is_Some (del !! k) →
       mergeStageVariables add del !! k = Some "")
  ∧ (∀ k, add !! k = None → del !! k = None →
       mergeStageVariables add del !! k = None)
  ∧ dom (mergeStageVariables add del) = dom add ∪ dom del.
Proof.
  split_and!.
  - intros k v Hk. by rewrite mergeStageVariables_lookup, Hk.
  - intros k Hk [v Hv]. by rewrite mergeStageVariables_lookup, Hk, Hv.
  - intros k Hk Hv. by rewrite mergeStageVariables_lookup, Hk, Hv.
  - apply set_eq. intros k.
    rewrite elem_of_union, !elem_of_dom, mergeStageVariables_lookup.
    destruct (add !! k) as [v|], (del !! k) as [w|]; cbn; split;
      try (intros _; by eexists);
      try (intros _; left; by eexists);
      try (intros _; right; by eexists);
      try (by intros [? ?]);
      by intros [[? ?]|[? ?]].
Qed.

Lemma mergeStageVariables_entries_witness :
  mergeStageVariables (<["b" := "3"]> ∅) (<["a" := "1"]> (<["b" := "2"]> ∅)) !! "b"
  = Some "3"
  ∧ mergeStageVariables (<["b" := "3"]> ∅) (<["a" := "1"]> (<["b" := "2"]> ∅)) !! "a"
    = Some "".
Proof.
  destruct (mergeStageVariables_entries (<["b" := "3"]> ∅)
              (<["a" := "1"]> (<["b" := "2"]> ∅))) as (Hadd & Hdel & _).
  split.
  - apply Hadd. reflexivity.
  - apply Hdel; [reflexivity|by eexists].
Defined.
